(** * ed_localization: the SLAM/localization plugin cycle

    A shallow embedding of [SLAMPlugin] (slam_plugin.h / slam_plugin.cpp):
    the per-cycle controller [process] that drains the ROS callback queue,
    applies a pending initial pose, resolves the laser mounting offset,
    reads odometry from TF, and runs the particle filter stages.

    Conventions.
    - A C++ [double] is idealised as a real number ([R]); the controller
      itself never compares doubles, it only forwards arithmetic results.
    - Every call that leaves the plugin (particle filter, odometry model,
      laser model, TF broadcaster, publisher, diagnostics) is recorded, in
      program order, in a trace of [Event]s.
    - The particle filter, the odometry model and the laser model are
      classes whose bodies are not part of the two files embedded here;
      they enter through the interface [Externals].
    - In [process] every call on these collaborators returns.  The one
      call whose failure is at issue, [resample] at line 242, is modelled
      a second time as a call that may throw, in [process_or_throw].
    - The header gives [initialize] and [process] empty inline bodies;
      the embedding follows the definitions of the implementation file. *)

From Stdlib Require Import Reals Lra List String ZArith Bool Lia.
Import ListNotations.

Local Open Scope R_scope.

(* ------------------------------------------------------------------ *)
(** ** geolib datatypes *)

Record Vec2 := mkVec2 { Vec2_x : R; Vec2_y : R }.

Record Mat2 := mkMat2 { Mat2_xx : R; Mat2_xy : R; Mat2_yx : R; Mat2_yy : R }.

Record Transform2 := mkTransform2 { Transform2_R : Mat2; Transform2_t : Vec2 }.

Record Vector3 := mkVector3 { Vector3_x : R; Vector3_y : R; Vector3_z : R }.

Record Matrix3 := mkMatrix3 {
  Matrix3_xx : R; Matrix3_xy : R; Matrix3_xz : R;
  Matrix3_yx : R; Matrix3_yy : R; Matrix3_yz : R;
  Matrix3_zx : R; Matrix3_zy : R; Matrix3_zz : R }.

Record Pose3D := mkPose3D { Pose3D_R : Matrix3; Pose3D_t : Vector3 }.

(** [p - geo::Vec2(..)] and [p + geo::Vec2(..)] *)
Definition Vec2_sub (a b : Vec2) : Vec2 :=
  mkVec2 (Vec2_x a - Vec2_x b) (Vec2_y a - Vec2_y b).

Definition Vec2_add (a b : Vec2) : Vec2 :=
  mkVec2 (Vec2_x a + Vec2_x b) (Vec2_y a + Vec2_y b).

(** [geo::Transform2::identity()] *)
Definition Transform2_identity : Transform2 :=
  mkTransform2 (mkMat2 1 0 0 1) (mkVec2 0 0).

Definition Matrix3_transpose (m : Matrix3) : Matrix3 :=
  mkMatrix3 (Matrix3_xx m) (Matrix3_yx m) (Matrix3_zx m)
            (Matrix3_xy m) (Matrix3_yy m) (Matrix3_zy m)
            (Matrix3_xz m) (Matrix3_yz m) (Matrix3_zz m).

Definition Matrix3_mul (a b : Matrix3) : Matrix3 :=
  mkMatrix3
    (Matrix3_xx a * Matrix3_xx b + Matrix3_xy a * Matrix3_yx b + Matrix3_xz a * Matrix3_zx b)
    (Matrix3_xx a * Matrix3_xy b + Matrix3_xy a * Matrix3_yy b + Matrix3_xz a * Matrix3_zy b)
    (Matrix3_xx a * Matrix3_xz b + Matrix3_xy a * Matrix3_yz b + Matrix3_xz a * Matrix3_zz b)
    (Matrix3_yx a * Matrix3_xx b + Matrix3_yy a * Matrix3_yx b + Matrix3_yz a * Matrix3_zx b)
    (Matrix3_yx a * Matrix3_xy b + Matrix3_yy a * Matrix3_yy b + Matrix3_yz a * Matrix3_zy b)
    (Matrix3_yx a * Matrix3_xz b + Matrix3_yy a * Matrix3_yz b + Matrix3_yz a * Matrix3_zz b)
    (Matrix3_zx a * Matrix3_xx b + Matrix3_zy a * Matrix3_yx b + Matrix3_zz a * Matrix3_zx b)
    (Matrix3_zx a * Matrix3_xy b + Matrix3_zy a * Matrix3_yy b + Matrix3_zz a * Matrix3_zy b)
    (Matrix3_zx a * Matrix3_xz b + Matrix3_zy a * Matrix3_yz b + Matrix3_zz a * Matrix3_zz b).

Definition Matrix3_apply (m : Matrix3) (v : Vector3) : Vector3 :=
  mkVector3
    (Matrix3_xx m * Vector3_x v + Matrix3_xy m * Vector3_y v + Matrix3_xz m * Vector3_z v)
    (Matrix3_yx m * Vector3_x v + Matrix3_yy m * Vector3_y v + Matrix3_yz m * Vector3_z v)
    (Matrix3_zx m * Vector3_x v + Matrix3_zy m * Vector3_y v + Matrix3_zz m * Vector3_z v).

Definition Vector3_add (a b : Vector3) : Vector3 :=
  mkVector3 (Vector3_x a + Vector3_x b) (Vector3_y a + Vector3_y b)
            (Vector3_z a + Vector3_z b).

Definition Vector3_opp (a : Vector3) : Vector3 :=
  mkVector3 (- Vector3_x a) (- Vector3_y a) (- Vector3_z a).

(** [geo::Pose3D::inverse()]: the rigid transform (R^T, -R^T t). *)
Definition Pose3D_inverse (p : Pose3D) : Pose3D :=
  let rt := Matrix3_transpose (Pose3D_R p) in
  mkPose3D rt (Vector3_opp (Matrix3_apply rt (Pose3D_t p))).

(** [geo::Pose3D::operator*]: composition (R1 R2, R1 t2 + t1). *)
Definition Pose3D_mul (a b : Pose3D) : Pose3D :=
  mkPose3D (Matrix3_mul (Pose3D_R a) (Pose3D_R b))
           (Vector3_add (Matrix3_apply (Pose3D_R a) (Pose3D_t b)) (Pose3D_t a)).

Definition Matrix3_identity : Matrix3 := mkMatrix3 1 0 0 0 1 0 0 0 1.

Definition Pose3D_identity : Pose3D :=
  mkPose3D Matrix3_identity (mkVector3 0 0 0).

(** A pose of the plane: no height, rotation about the third axis only. *)
Definition planar (p : Pose3D) : Prop :=
  Vector3_z (Pose3D_t p) = 0
  /\ Matrix3_xz (Pose3D_R p) = 0 /\ Matrix3_yz (Pose3D_R p) = 0
  /\ Matrix3_zx (Pose3D_R p) = 0 /\ Matrix3_zy (Pose3D_R p) = 0
  /\ Matrix3_zz (Pose3D_R p) = 1.

(* ------------------------------------------------------------------ *)
(** ** ROS and TF datatypes *)

(** [ros::Time] *)
Record Time := mkTime { sec : N; nsec : N }.

Record Header := mkHeader { stamp : Time; frame_id : string }.

(** [sensor_msgs::LaserScan] *)
Record LaserScan := mkLaserScan {
  header : Header;
  angle_min : R;
  angle_increment : R;
  ranges : list R }.

(** [tf::Quaternion] *)
Record Quaternion := mkQuaternion {
  Quaternion_x : R; Quaternion_y : R; Quaternion_z : R; Quaternion_w : R }.

(** [geometry_msgs::PoseWithCovarianceStamped], reduced to the members
    that the plugin reads: [pose.pose.position] and
    [pose.pose.orientation]. *)
Record PoseWithCovarianceStamped := mkPoseWithCovarianceStamped {
  position : Vector3;
  orientation : Quaternion }.

(** [tf::StampedTransform] *)
Record StampedTransform := mkStampedTransform {
  getBasis : Matrix3;
  getOrigin : Vector3;
  stamp_ : Time;
  frame_id_ : string;
  child_frame_id_ : string }.

(** [geometry_msgs::PoseArray]; an entry of [poses] is the [geo::Pose3D]
    that [geo::convert] writes into the message. *)
Record PoseArray := mkPoseArray {
  PoseArray_header : Header;
  poses : list Pose3D }.

(** Outcome of [tf::TransformListener::lookupTransform]: the transform,
    or the [tf::TransformException] that the call throws. *)
Inductive LookupResult :=
| Found (t : StampedTransform)
| TransformException (what : string).

(** The TF listener as the plugin sees it during one cycle. *)
Record TransformListener := mkTransformListener {
  waitForTransform : string -> string -> Time -> R -> bool;
  lookupTransform : string -> string -> Time -> LookupResult }.

(** [geo::convert(const tf::Transform&, geo::Pose3D&)] *)
Definition convert_from_tf (t : StampedTransform) : Pose3D :=
  mkPose3D (getBasis t) (getOrigin t).

(** [geo::convert(const geo::Pose3D&, tf::Transform&)]: fills basis and
    origin of a default-constructed [tf::StampedTransform]. *)
Definition convert_to_tf (p : Pose3D) : StampedTransform :=
  mkStampedTransform (Pose3D_R p) (Pose3D_t p) (mkTime 0 0) EmptyString EmptyString.

(* ------------------------------------------------------------------ *)
(** ** Particles *)

(** [Transform]: the pose wrapper of the localization package
    ([set], [matrix]). *)
Record Transform := mkTransform { matrix : Transform2 }.

Definition Transform_set (m : Transform2) : Transform := mkTransform m.

(** [Sample] *)
Record Sample := mkSample { pose : Transform; weight : R }.

(** Messages waiting in [cb_queue_], one constructor per subscription. *)
Inductive Callback :=
| LaserMsg (msg : LaserScan)
| InitialPoseMsg (msg : PoseWithCovarianceStamped).

(** The collaborators of the plugin: [particle_filter_], [odom_model_],
    [laser_model_], the world model handed in by [ed::PluginInput], and
    [tf::getYaw]. *)
Class Externals := {
  WorldModel : Type;
  ParticleFilter : Type;
  OdomModel : Type;
  LaserModel : Type;
  (** [particle_filter_.samples()] *)
  samples : ParticleFilter -> list Sample;
  (** [particle_filter_.initUniform(min, max, t_step, a_min, a_max, a_step)] *)
  initUniform : Vec2 -> Vec2 -> R -> R -> R -> R -> ParticleFilter -> ParticleFilter;
  (** [particle_filter_.resample(num_samples)] *)
  resample : Z -> ParticleFilter -> ParticleFilter;
  (** [particle_filter_.calculateMeanPose()] *)
  calculateMeanPose : ParticleFilter -> Transform2;
  (** [odom_model_.updatePoses(movement, t, particle_filter_)] *)
  updatePoses : Transform -> Z -> OdomModel -> ParticleFilter -> OdomModel * ParticleFilter;
  (** [laser_model_.updateWeights(world, scan, particle_filter_)] *)
  updateWeights : WorldModel -> LaserScan -> LaserModel -> ParticleFilter
                  -> LaserModel * ParticleFilter;
  (** [laser_model_.setLaserOffset(offset, height)] *)
  setLaserOffset : Transform2 -> R -> LaserModel -> LaserModel;
  (** [tf::getYaw(orientation)] *)
  getYaw : Quaternion -> R;
  (** the default-constructed members *)
  new_ParticleFilter : ParticleFilter;
  new_OdomModel : OdomModel;
  new_LaserModel : LaserModel;
  (** [odom_model_.configure(config)], [laser_model_.configure(config)];
      [ModelConfig] is what the model reads from its configuration group *)
  ModelConfig : Type;
  odom_configure : ModelConfig -> OdomModel -> OdomModel;
  laser_configure : ModelConfig -> LaserModel -> LaserModel }.

(** How a statement ends: control falls through with a value, or the
    method is left by [return;]. *)
Inductive Flow (A : Type) :=
| Next (a : A)
| Return.

Arguments Next {A} a.
Arguments Return {A}.

Section Plugin.

Context {E : Externals}.

(** What the plugin does to the outside, in program order. *)
Inductive Event :=
| CallInitUniform (min max : Vec2) (t_step a_min a_max a_step : R)
| RosWarn (text : string)
| StdCout (text : string)
| CallSetLaserOffset (offset : Transform2) (laser_height : R)
| CallUpdatePoses (movement : Transform) (t : Z)
| CallUpdateWeights (world : WorldModel) (scan : LaserScan)
| CallResample (num_samples : Z)
| CallCalculateMeanPose
| SendTransform (t : StampedTransform)
| PublishParticles (msg : PoseArray)
| Subscribe (topic : string)
| Advertise (topic : string).

(** The data members of [SLAMPlugin].  The last four are used by the
    implementation file although the header does not declare them. *)
Record SLAMPlugin := mkSLAMPlugin {
  cb_queue_ : list Callback;
  laser_msg_ : option LaserScan;
  have_previous_pose_ : bool;
  previous_pose_ : Pose3D;
  initial_pose_msg_ : option PoseWithCovarianceStamped;
  laser_offset_initialized_ : bool;
  map_frame_id_ : string;
  odom_frame_id_ : string;
  base_link_frame_id_ : string;
  particle_filter_ : ParticleFilter;
  odom_model_ : OdomModel;
  laser_model_ : LaserModel;
  num_particles_ : Z }.

Definition set_cb_queue_ (v : list Callback) (s : SLAMPlugin) : SLAMPlugin :=
  mkSLAMPlugin v (laser_msg_ s) (have_previous_pose_ s) (previous_pose_ s)
    (initial_pose_msg_ s) (laser_offset_initialized_ s) (map_frame_id_ s)
    (odom_frame_id_ s) (base_link_frame_id_ s) (particle_filter_ s)
    (odom_model_ s) (laser_model_ s) (num_particles_ s).

Definition set_laser_msg_ (v : option LaserScan) (s : SLAMPlugin) : SLAMPlugin :=
  mkSLAMPlugin (cb_queue_ s) v (have_previous_pose_ s) (previous_pose_ s)
    (initial_pose_msg_ s) (laser_offset_initialized_ s) (map_frame_id_ s)
    (odom_frame_id_ s) (base_link_frame_id_ s) (particle_filter_ s)
    (odom_model_ s) (laser_model_ s) (num_particles_ s).

Definition set_have_previous_pose_ (v : bool) (s : SLAMPlugin) : SLAMPlugin :=
  mkSLAMPlugin (cb_queue_ s) (laser_msg_ s) v (previous_pose_ s)
    (initial_pose_msg_ s) (laser_offset_initialized_ s) (map_frame_id_ s)
    (odom_frame_id_ s) (base_link_frame_id_ s) (particle_filter_ s)
    (odom_model_ s) (laser_model_ s) (num_particles_ s).

Definition set_previous_pose_ (v : Pose3D) (s : SLAMPlugin) : SLAMPlugin :=
  mkSLAMPlugin (cb_queue_ s) (laser_msg_ s) (have_previous_pose_ s) v
    (initial_pose_msg_ s) (laser_offset_initialized_ s) (map_frame_id_ s)
    (odom_frame_id_ s) (base_link_frame_id_ s) (particle_filter_ s)
    (odom_model_ s) (laser_model_ s) (num_particles_ s).

Definition set_initial_pose_msg_ (v : option PoseWithCovarianceStamped)
    (s : SLAMPlugin) : SLAMPlugin :=
  mkSLAMPlugin (cb_queue_ s) (laser_msg_ s) (have_previous_pose_ s)
    (previous_pose_ s) v (laser_offset_initialized_ s) (map_frame_id_ s)
    (odom_frame_id_ s) (base_link_frame_id_ s) (particle_filter_ s)
    (odom_model_ s) (laser_model_ s) (num_particles_ s).

Definition set_laser_offset_initialized_ (v : bool) (s : SLAMPlugin) : SLAMPlugin :=
  mkSLAMPlugin (cb_queue_ s) (laser_msg_ s) (have_previous_pose_ s)
    (previous_pose_ s) (initial_pose_msg_ s) v (map_frame_id_ s)
    (odom_frame_id_ s) (base_link_frame_id_ s) (particle_filter_ s)
    (odom_model_ s) (laser_model_ s) (num_particles_ s).

Definition set_particle_filter_ (v : ParticleFilter) (s : SLAMPlugin) : SLAMPlugin :=
  mkSLAMPlugin (cb_queue_ s) (laser_msg_ s) (have_previous_pose_ s)
    (previous_pose_ s) (initial_pose_msg_ s) (laser_offset_initialized_ s)
    (map_frame_id_ s) (odom_frame_id_ s) (base_link_frame_id_ s) v
    (odom_model_ s) (laser_model_ s) (num_particles_ s).

Definition set_odom_model_ (v : OdomModel) (s : SLAMPlugin) : SLAMPlugin :=
  mkSLAMPlugin (cb_queue_ s) (laser_msg_ s) (have_previous_pose_ s)
    (previous_pose_ s) (initial_pose_msg_ s) (laser_offset_initialized_ s)
    (map_frame_id_ s) (odom_frame_id_ s) (base_link_frame_id_ s)
    (particle_filter_ s) v (laser_model_ s) (num_particles_ s).

Definition set_laser_model_ (v : LaserModel) (s : SLAMPlugin) : SLAMPlugin :=
  mkSLAMPlugin (cb_queue_ s) (laser_msg_ s) (have_previous_pose_ s)
    (previous_pose_ s) (initial_pose_msg_ s) (laser_offset_initialized_ s)
    (map_frame_id_ s) (odom_frame_id_ s) (base_link_frame_id_ s)
    (particle_filter_ s) (odom_model_ s) v (num_particles_ s).

(* ------------------------------------------------------------------ *)
(** ** The method monad

    A method body is a state transformer over the plugin that appends to
    the trace and either falls through to the next statement ([Next]) or
    leaves the method through a [return;] statement ([Return]). *)

Definition M (A : Type) : Type := SLAMPlugin -> Flow A * SLAMPlugin * list Event.

Definition ret {A} (a : A) : M A := fun s => (Next a, s, []).

Definition bind {A B} (m : M A) (k : A -> M B) : M B :=
  fun s =>
    match m s with
    | (Next a, s1, out1) =>
        match k a s1 with
        | (r, s2, out2) => (r, s2, out1 ++ out2)
        end
    | (Return, s1, out1) => (Return, s1, out1)
    end.

Definition return_ {A} : M A := fun s => (Return, s, []).

Definition read {A} (f : SLAMPlugin -> A) : M A := fun s => (Next (f s), s, []).

Definition write (f : SLAMPlugin -> SLAMPlugin) : M unit := fun s => (Next tt, f s, []).

Definition emit (e : Event) : M unit := fun s => (Next tt, s, [e]).

Notation "x <- m ;; k" := (bind m (fun x => k))
  (at level 61, m at next level, right associativity).
Notation "m ;; k" := (bind m (fun _ => k))
  (at level 61, right associativity).

(* ------------------------------------------------------------------ *)
(** ** Subscriber callbacks and the callback queue *)

(** [SLAMPlugin::laserCallback] *)
Definition laserCallback (msg : LaserScan) : M unit :=
  write (set_laser_msg_ (Some msg)).

(** [SLAMPlugin::initialPoseCallback] *)
Definition initialPoseCallback (msg : PoseWithCovarianceStamped) : M unit :=
  write (set_initial_pose_msg_ (Some msg)).

Fixpoint dispatch (q : list Callback) : M unit :=
  match q with
  | [] => ret tt
  | LaserMsg msg :: q' => laserCallback msg ;; dispatch q'
  | InitialPoseMsg msg :: q' => initialPoseCallback msg ;; dispatch q'
  end.

(** [cb_queue_.callAvailable()]: every waiting callback is invoked, in
    arrival order, and leaves the queue. *)
Definition callAvailable : M unit :=
  q <- read cb_queue_ ;;
  write (set_cb_queue_ []) ;;
  dispatch q.

(** The ROS runtime between two cycles: arriving messages are appended
    to the callback queue of the two subscriptions. *)
Definition deliver (msgs : list Callback) (s : SLAMPlugin) : SLAMPlugin :=
  set_cb_queue_ (cb_queue_ s ++ msgs) s.

(* ------------------------------------------------------------------ *)
(** ** [SLAMPlugin::process], block by block *)

(** Lines 114-124: a stored initial pose re-seeds the particle filter. *)
Definition seed_min (p : Vec2) : Vec2 := Vec2_sub p (mkVec2 0.3 0.3).
Definition seed_max (p : Vec2) : Vec2 := Vec2_add p (mkVec2 0.3 0.3).

Definition seed_around (p : Vec2) (yaw : R) : M unit :=
  emit (CallInitUniform (seed_min p) (seed_max p) 0.05
                        (yaw - 0.1) (yaw + 0.1) 0.05) ;;
  pf <- read particle_filter_ ;;
  write (set_particle_filter_
           (initUniform (seed_min p) (seed_max p) 0.05
                        (yaw - 0.1) (yaw + 0.1) 0.05 pf)).

Definition apply_initial_pose : M unit :=
  m <- read initial_pose_msg_ ;;
  match m with
  | Some msg =>
      let p := mkVec2 (Vector3_x (position msg)) (Vector3_y (position msg)) in
      let yaw := getYaw (orientation msg) in
      seed_around p yaw
  | None => ret tt
  end.

(** Lines 126-127: [if (!laser_msg_) return;] *)
Definition require_laser : M LaserScan :=
  m <- read laser_msg_ ;;
  match m with
  | Some scan => ret scan
  | None => return_
  end.

Definition cannot_get_transform (from to : string) : string :=
  ("[ED LOCALIZATION] Cannot get transform from '" ++ from ++ "' to '"
     ++ to ++ "'.")%string.

Definition ed_localization_says (what : string) : string :=
  ("[ED LOCALIZATION] " ++ what)%string.

(** Lines 129-157: the laser mounting offset, resolved on first use. *)
Definition laser_offset_of (p_laser : StampedTransform) : Transform2 :=
  mkTransform2
    (mkMat2 (Matrix3_xx (getBasis p_laser)) (Matrix3_xy (getBasis p_laser))
            (Matrix3_yx (getBasis p_laser)) (Matrix3_yy (getBasis p_laser)))
    (mkVec2 (Vector3_x (getOrigin p_laser)) (Vector3_y (getOrigin p_laser))).

Definition laser_height_of (p_laser : StampedTransform) : R :=
  Vector3_z (getOrigin p_laser).

Definition calibrate_laser_offset (tf_listener_ : TransformListener)
    (scan : LaserScan) : M unit :=
  initialized <- read laser_offset_initialized_ ;;
  if initialized then ret tt
  else
    base <- read base_link_frame_id_ ;;
    let frame := frame_id (header scan) in
    let time := stamp (header scan) in
    if negb (waitForTransform tf_listener_ base frame time 1.0)
    then emit (RosWarn (cannot_get_transform base frame)) ;; return_
    else
      match lookupTransform tf_listener_ base frame time with
      | Found p_laser =>
          emit (CallSetLaserOffset (laser_offset_of p_laser)
                                   (laser_height_of p_laser)) ;;
          lm <- read laser_model_ ;;
          write (set_laser_model_
                   (setLaserOffset (laser_offset_of p_laser)
                                   (laser_height_of p_laser) lm)) ;;
          write (set_laser_offset_initialized_ true)
      | TransformException what =>
          emit (StdCout (ed_localization_says what)) ;; return_
      end.

(** Lines 180-190: the odometry delta, flattened to 2D. *)
Definition delta_2d (delta : Pose3D) : Transform2 :=
  mkTransform2
    (mkMat2 (Matrix3_xx (Pose3D_R delta)) (Matrix3_xy (Pose3D_R delta))
            (Matrix3_yx (Pose3D_R delta)) (Matrix3_yy (Pose3D_R delta)))
    (mkVec2 (Vector3_x (Pose3D_t delta)) (Vector3_y (Pose3D_t delta))).

Definition odom_delta (previous odom_to_base_link : Pose3D) : Transform :=
  Transform_set (delta_2d (Pose3D_mul (Pose3D_inverse previous) odom_to_base_link)).

(** Lines 163-209: odometry from TF.  Yields [odom_to_base_link] and
    [movement]. *)
Definition odometry (tf_listener_ : TransformListener) (scan : LaserScan)
    : M (Pose3D * Transform) :=
  odom <- read odom_frame_id_ ;;
  base <- read base_link_frame_id_ ;;
  let time := stamp (header scan) in
  if negb (waitForTransform tf_listener_ odom base time 1.0)
  then emit (RosWarn (cannot_get_transform odom base)) ;; return_
  else
    match lookupTransform tf_listener_ odom base time with
    | Found odom_to_base_link_tf =>
        let odom_to_base_link := convert_from_tf odom_to_base_link_tf in
        have_previous <- read have_previous_pose_ ;;
        previous <- read previous_pose_ ;;
        let movement :=
          if have_previous then odom_delta previous odom_to_base_link
          else Transform_set Transform2_identity in
        write (set_previous_pose_ odom_to_base_link) ;;
        write (set_have_previous_pose_ true) ;;
        ret (odom_to_base_link, movement)
    | TransformException what =>
        emit (StdCout (ed_localization_says what)) ;;
        have_previous <- read have_previous_pose_ ;;
        if negb have_previous then return_
        else
          previous <- read previous_pose_ ;;
          ret (previous, Transform_set Transform2_identity)
    end.

(** Lines 215-216: [if (particle_filter_.samples().empty()) return;] *)
Definition empty {A} (l : list A) : bool :=
  match l with [] => true | _ :: _ => false end.

Definition require_samples : M unit :=
  pf <- read particle_filter_ ;;
  if empty (samples pf) then return_ else ret tt.

(** Lines 222-242: motion update, sensor update, resampling. *)
Definition update_motion (movement : Transform) : M unit :=
  emit (CallUpdatePoses movement 0%Z) ;;
  om <- read odom_model_ ;;
  pf <- read particle_filter_ ;;
  let r := updatePoses movement 0%Z om pf in
  write (set_odom_model_ (fst r)) ;;
  write (set_particle_filter_ (snd r)).

Definition update_sensor (world : WorldModel) (scan : LaserScan) : M unit :=
  emit (CallUpdateWeights world scan) ;;
  lm <- read laser_model_ ;;
  pf <- read particle_filter_ ;;
  let r := updateWeights world scan lm pf in
  write (set_laser_model_ (fst r)) ;;
  write (set_particle_filter_ (snd r)).

Definition do_resample : M unit :=
  n <- read num_particles_ ;;
  emit (CallResample n) ;;
  pf <- read particle_filter_ ;;
  write (set_particle_filter_ (resample n pf)).

(** Lines 248-295: the mean pose goes out as the map-to-odom transform,
    the samples as a pose array. *)
Definition to_pose_3d (p : Transform2) : Pose3D :=
  mkPose3D
    (mkMatrix3 (Mat2_xx (Transform2_R p)) (Mat2_xy (Transform2_R p)) 0
               (Mat2_yx (Transform2_R p)) (Mat2_yy (Transform2_R p)) 0
               0 0 1)
    (mkVector3 (Vec2_x (Transform2_t p)) (Vec2_y (Transform2_t p)) 0).

Definition map_to_odom_tf (map_frame odom_frame : string) (time : Time)
    (mean_pose : Transform2) (odom_to_base_link : Pose3D) : StampedTransform :=
  let map_to_base_link := to_pose_3d mean_pose in
  let map_to_odom := Pose3D_mul map_to_base_link (Pose3D_inverse odom_to_base_link) in
  let t := convert_to_tf map_to_odom in
  mkStampedTransform (getBasis t) (getOrigin t) time map_frame odom_frame.

Definition particles_msg (time : Time) (smpls : list Sample) : PoseArray :=
  mkPoseArray (mkHeader time "/map")
              (map (fun s => to_pose_3d (matrix (pose s))) smpls).

Definition publish_result (scan : LaserScan) (odom_to_base_link : Pose3D) : M unit :=
  emit CallCalculateMeanPose ;;
  pf <- read particle_filter_ ;;
  let mean_pose := calculateMeanPose pf in
  map_frame <- read map_frame_id_ ;;
  odom_frame <- read odom_frame_id_ ;;
  emit (SendTransform (map_to_odom_tf map_frame odom_frame (stamp (header scan))
                                      mean_pose odom_to_base_link)) ;;
  pf' <- read particle_filter_ ;;
  emit (PublishParticles (particles_msg (stamp (header scan)) (samples pf'))).

(** Lines 110-157 of [process]: the messages of this cycle, the pose
    reset, and the laser scan once its mounting offset is known. *)
Definition acquire_scan (tf_listener_ : TransformListener) : M LaserScan :=
  write (set_laser_msg_ None) ;;
  write (set_initial_pose_msg_ None) ;;
  callAvailable ;;
  apply_initial_pose ;;
  scan <- require_laser ;;
  calibrate_laser_offset tf_listener_ scan ;;
  ret scan.

(** Lines 110-209: everything the update needs from outside, the scan
    and the pair of [odom_to_base_link] and [movement]. *)
Definition acquire_inputs (tf_listener_ : TransformListener)
    : M (LaserScan * (Pose3D * Transform)) :=
  scan <- acquire_scan tf_listener_ ;;
  om <- odometry tf_listener_ scan ;;
  ret (scan, om).

(** Lines 215-295: the update proper and the publication of its result. *)
Definition update_and_publish (world : WorldModel) (scan : LaserScan)
    (odom_to_base_link : Pose3D) (movement : Transform) : M unit :=
  require_samples ;;
  update_motion movement ;;
  update_sensor world scan ;;
  do_resample ;;
  publish_result scan odom_to_base_link.

(** [SLAMPlugin::process].  The visualization block at the end of the
    method is guarded by the constant [visualize = false] and never runs. *)
Definition process (tf_listener_ : TransformListener) (world : WorldModel) : M unit :=
  inputs <- acquire_inputs tf_listener_ ;;
  update_and_publish world (fst inputs) (fst (snd inputs)) (snd (snd inputs)).

(** The outcome of one call of [process]: the plugin afterwards and the
    calls it made. *)
Definition run_process (tf_listener_ : TransformListener) (world : WorldModel)
    (s : SLAMPlugin) : SLAMPlugin * list Event :=
  match process tf_listener_ world s with
  | (_, s', out) => (s', out)
  end.

(* ------------------------------------------------------------------ *)
(** ** Construction and [SLAMPlugin::initialize] *)

(** [SLAMPlugin::SLAMPlugin()]: both flags start false.  [previous_pose_]
    and [num_particles_] are not initialised by the constructor; their
    indeterminate values are arguments here. *)
Definition SLAMPlugin_new (indeterminate_pose : Pose3D) (indeterminate_int : Z)
    : SLAMPlugin :=
  mkSLAMPlugin [] None false indeterminate_pose None false
    EmptyString EmptyString EmptyString
    new_ParticleFilter new_OdomModel new_LaserModel indeterminate_int.

(** The configuration as [initialize] reads it.  A group or value that
    is [None] is missing; a missing required one raises the error flag
    of [tue::Configuration].  The optional group [initial_pose], when
    present, carries [x], [y] and [rz]. *)
Record OdomGroup := mkOdomGroup {
  cfg_map_frame : string;
  cfg_odom_frame : string;
  cfg_base_link_frame : string;
  cfg_odom_model : ModelConfig }.

Record LaserGroup := mkLaserGroup {
  cfg_topic : string;
  cfg_laser_model : ModelConfig }.

Record InitData := mkInitData {
  cfg_odom_group : option OdomGroup;
  cfg_laser_group : option LaserGroup;
  cfg_num_particles : option Z;
  cfg_initial_pose_topic : option string;
  cfg_initial_pose : option (R * R * R) }.

Definition hasError (init : InitData) : bool :=
  match cfg_odom_group init, cfg_laser_group init, cfg_num_particles init with
  | Some _, Some _, Some _ => false
  | _, _, _ => true
  end.

Definition set_frames (g : OdomGroup) (s : SLAMPlugin) : SLAMPlugin :=
  mkSLAMPlugin (cb_queue_ s) (laser_msg_ s) (have_previous_pose_ s)
    (previous_pose_ s) (initial_pose_msg_ s) (laser_offset_initialized_ s)
    (cfg_map_frame g) (cfg_odom_frame g) (cfg_base_link_frame g)
    (particle_filter_ s) (odom_model_ s) (laser_model_ s) (num_particles_ s).

Definition set_num_particles_ (v : Z) (s : SLAMPlugin) : SLAMPlugin :=
  mkSLAMPlugin (cb_queue_ s) (laser_msg_ s) (have_previous_pose_ s)
    (previous_pose_ s) (initial_pose_msg_ s) (laser_offset_initialized_ s)
    (map_frame_id_ s) (odom_frame_id_ s) (base_link_frame_id_ s)
    (particle_filter_ s) (odom_model_ s) (laser_model_ s) v.

Definition initialize (init : InitData) : M unit :=
  match cfg_odom_group init with
  | Some g =>
      write (set_frames g) ;;
      om <- read odom_model_ ;;
      write (set_odom_model_ (odom_configure (cfg_odom_model g) om))
  | None => ret tt
  end ;;
  match cfg_laser_group init with
  | Some g =>
      lm <- read laser_model_ ;;
      write (set_laser_model_ (laser_configure (cfg_laser_model g) lm))
  | None => ret tt
  end ;;
  match cfg_num_particles init with
  | Some n => write (set_num_particles_ n)
  | None => ret tt
  end ;;
  (if hasError init then return_ else ret tt) ;;
  match cfg_laser_group init with
  | Some g => emit (Subscribe (cfg_topic g))
  | None => ret tt
  end ;;
  match cfg_initial_pose_topic init with
  | Some topic => emit (Subscribe topic)
  | None => ret tt
  end ;;
  match cfg_initial_pose init with
  | Some (x, y, rz) => seed_around (mkVec2 x y) rz
  | None => ret tt
  end ;;
  emit (Advertise "ed/localization/particles").

(* ------------------------------------------------------------------ *)
(** ** Life of the plugin: a sequence of cycles *)

(** What one cycle finds: the messages that arrived since the previous
    cycle, the state of TF, and the world model of [ed::PluginInput]. *)
Record Cycle := mkCycle {
  arrivals : list Callback;
  tf_listener_ : TransformListener;
  data_world : WorldModel }.

Definition cycle (c : Cycle) (s : SLAMPlugin) : SLAMPlugin * list Event :=
  run_process (tf_listener_ c) (data_world c) (deliver (arrivals c) s).

(** Runs the cycles in order; yields the final plugin and, per cycle, the
    calls of that cycle. *)
Fixpoint run (cs : list Cycle) (s : SLAMPlugin) : SLAMPlugin * list (list Event) :=
  match cs with
  | [] => (s, [])
  | c :: cs' =>
      let (s1, out) := cycle c s in
      let (s2, outs) := run cs' s1 in
      (s2, out :: outs)
  end.

(* ------------------------------------------------------------------ *)
(** ** Observations on cycles and traces *)

(** The message a subscription's callback stores last while [q] is
    drained; [stored] is what the member holds beforehand. *)
Fixpoint latest_laser (q : list Callback) (stored : option LaserScan)
    : option LaserScan :=
  match q with
  | [] => stored
  | LaserMsg msg :: q' => latest_laser q' (Some msg)
  | InitialPoseMsg _ :: q' => latest_laser q' stored
  end.

Fixpoint latest_pose (q : list Callback) (stored : option PoseWithCovarianceStamped)
    : option PoseWithCovarianceStamped :=
  match q with
  | [] => stored
  | LaserMsg _ :: q' => latest_pose q' stored
  | InitialPoseMsg msg :: q' => latest_pose q' (Some msg)
  end.

Definition is_laser (c : Callback) : bool :=
  match c with LaserMsg _ => true | InitialPoseMsg _ => false end.

Definition is_initial_pose (c : Callback) : bool :=
  match c with LaserMsg _ => false | InitialPoseMsg _ => true end.

(** The position and the yaw that lines 118-120 read from a message. *)
Definition pose_xy (msg : PoseWithCovarianceStamped) : Vec2 :=
  mkVec2 (Vector3_x (position msg)) (Vector3_y (position msg)).

Definition pose_yaw (msg : PoseWithCovarianceStamped) : R :=
  getYaw (orientation msg).

(** The seeding call for a position [p] and a heading [yaw]. *)
Definition seed_call (p : Vec2) (yaw : R) : Event :=
  CallInitUniform (mkVec2 (Vec2_x p - 0.3) (Vec2_y p - 0.3))
                  (mkVec2 (Vec2_x p + 0.3) (Vec2_y p + 0.3)) 0.05
                  (yaw - 0.1) (yaw + 0.1) 0.05.

Definition seeded (p : Vec2) (yaw : R) (pf : ParticleFilter) : ParticleFilter :=
  initUniform (mkVec2 (Vec2_x p - 0.3) (Vec2_y p - 0.3))
              (mkVec2 (Vec2_x p + 0.3) (Vec2_y p + 0.3)) 0.05
              (yaw - 0.1) (yaw + 0.1) 0.05 pf.

(** The particle filter as lines 110-124 leave it. *)
Definition after_pose_reset (s : SLAMPlugin) : ParticleFilter :=
  match latest_pose (cb_queue_ s) None with
  | Some msg => seeded (pose_xy msg) (pose_yaw msg) (particle_filter_ s)
  | None => particle_filter_ s
  end.

(** Calls of the update proper: motion, sensor, resampling, mean pose. *)
Definition is_filter_stage (e : Event) : bool :=
  match e with
  | CallUpdatePoses _ _ | CallUpdateWeights _ _ | CallResample _
  | CallCalculateMeanPose => true
  | _ => false
  end.

(** Publication of a pose estimate. *)
Definition is_estimate (e : Event) : bool :=
  match e with
  | SendTransform _ | PublishParticles _ => true
  | _ => false
  end.

Definition is_stage (e : Event) : bool := is_filter_stage e || is_estimate e.

Definition is_seed (e : Event) : bool :=
  match e with CallInitUniform _ _ _ _ _ _ => true | _ => false end.

Definition is_calibration (e : Event) : bool :=
  match e with CallSetLaserOffset _ _ => true | _ => false end.

(** A skipped cycle: no stage of the update ran, nothing was published. *)
Definition skipped (out : list Event) : bool := negb (existsb is_stage out).

(** The six calls of a cycle that reaches the update with a non-empty
    particle set, as functions of what it starts from. *)
Definition moved (movement : Transform) (s : SLAMPlugin) : OdomModel * ParticleFilter :=
  updatePoses movement 0%Z (odom_model_ s) (particle_filter_ s).

Definition weighted (world : WorldModel) (scan : LaserScan) (movement : Transform)
    (s : SLAMPlugin) : LaserModel * ParticleFilter :=
  updateWeights world scan (laser_model_ s) (snd (moved movement s)).

Definition resampled (world : WorldModel) (scan : LaserScan) (movement : Transform)
    (s : SLAMPlugin) : ParticleFilter :=
  resample (num_particles_ s) (snd (weighted world scan movement s)).

Definition updated (world : WorldModel) (scan : LaserScan) (movement : Transform)
    (s : SLAMPlugin) : SLAMPlugin :=
  set_particle_filter_ (resampled world scan movement s)
    (set_laser_model_ (fst (weighted world scan movement s))
       (set_odom_model_ (fst (moved movement s)) s)).

Definition update_calls (world : WorldModel) (scan : LaserScan)
    (odom_to_base_link : Pose3D) (movement : Transform) (s : SLAMPlugin)
    : list Event :=
  [ CallUpdatePoses movement 0%Z;
    CallUpdateWeights world scan;
    CallResample (num_particles_ s);
    CallCalculateMeanPose;
    SendTransform
      (map_to_odom_tf (map_frame_id_ s) (odom_frame_id_ s) (stamp (header scan))
         (calculateMeanPose (resampled world scan movement s)) odom_to_base_link);
    PublishParticles
      (particles_msg (stamp (header scan))
         (samples (resampled world scan movement s))) ].

(** The plugin as lines 110-124 leave it. *)
Definition drained (s : SLAMPlugin) : SLAMPlugin :=
  set_particle_filter_ (after_pose_reset s)
    (set_initial_pose_msg_ (latest_pose (cb_queue_ s) None)
       (set_laser_msg_ (latest_laser (cb_queue_ s) None)
          (set_cb_queue_ [] s))).

Definition seed_calls (s : SLAMPlugin) : list Event :=
  match latest_pose (cb_queue_ s) None with
  | Some msg => [seed_call (pose_xy msg) (pose_yaw msg)]
  | None => []
  end.

(** The plugin once the mounting offset [p_laser] is stored. *)
Definition calibrated (p_laser : StampedTransform) (s : SLAMPlugin) : SLAMPlugin :=
  set_laser_offset_initialized_ true
    (set_laser_model_
       (setLaserOffset (laser_offset_of p_laser) (laser_height_of p_laser)
          (laser_model_ s)) s).

(** The plugin once [odom_to_base_link] is remembered. *)
Definition booked (odom_to_base_link : Pose3D) (s : SLAMPlugin) : SLAMPlugin :=
  set_have_previous_pose_ true (set_previous_pose_ odom_to_base_link s).

(** The [movement] of a successful odometry lookup. *)
Definition movement_of (s : SLAMPlugin) (odom_to_base_link : Pose3D) : Transform :=
  if have_previous_pose_ s then odom_delta (previous_pose_ s) odom_to_base_link
  else Transform_set Transform2_identity.

(** The two TF queries of a cycle, for the scan [scan]: the mounting
    offset (lines 131 and 140) and the odometry (lines 163 and 176). *)
Definition laser_wait (tf : TransformListener) (s : SLAMPlugin) (scan : LaserScan) : bool :=
  waitForTransform tf (base_link_frame_id_ s) (frame_id (header scan))
                   (stamp (header scan)) 1.0.

Definition laser_lookup (tf : TransformListener) (s : SLAMPlugin) (scan : LaserScan)
    : LookupResult :=
  lookupTransform tf (base_link_frame_id_ s) (frame_id (header scan))
                  (stamp (header scan)).

Definition odom_wait (tf : TransformListener) (s : SLAMPlugin) (scan : LaserScan) : bool :=
  waitForTransform tf (odom_frame_id_ s) (base_link_frame_id_ s)
                   (stamp (header scan)) 1.0.

Definition odom_lookup (tf : TransformListener) (s : SLAMPlugin) (scan : LaserScan)
    : LookupResult :=
  lookupTransform tf (odom_frame_id_ s) (base_link_frame_id_ s)
                  (stamp (header scan)).

Definition found (r : LookupResult) : bool :=
  match r with Found _ => true | TransformException _ => false end.

(** The odometry transform cannot be obtained: the wait times out or the
    lookup throws. *)
Definition odom_unavailable (tf : TransformListener) (s : SLAMPlugin)
    (scan : LaserScan) : bool :=
  negb (odom_wait tf s scan) || negb (found (odom_lookup tf s scan)).

(** The odometry transform cannot be obtained and no earlier one is
    remembered to stand in for it. *)
Definition odom_lost (tf : TransformListener) (s : SLAMPlugin)
    (scan : LaserScan) : bool :=
  negb (odom_wait tf s scan)
  || (negb (found (odom_lookup tf s scan)) && negb (have_previous_pose_ s)).

(** The mounting offset is at hand for the scan [scan]: stored by an
    earlier cycle, or found by this cycle's own lookup (lines 129-157). *)
Definition offset_at_hand (tf : TransformListener) (s : SLAMPlugin)
    (scan : LaserScan) : bool :=
  laser_offset_initialized_ s
  || (laser_wait tf s scan && found (laser_lookup tf s scan)).

(** How a cycle ends once its inputs are there: lines 215-295 on the
    plugin [s] with the calls [out] made so far. *)
Definition finish_cycle (world : WorldModel) (scan : LaserScan)
    (odom_to_base_link : Pose3D) (movement : Transform)
    (s : SLAMPlugin) (out : list Event) : SLAMPlugin * list Event :=
  if empty (samples (particle_filter_ s)) then (s, out)
  else (updated world scan movement s,
        out ++ update_calls world scan odom_to_base_link movement s).

(** How a cycle goes on from the odometry step, lines 163-295. *)
Definition from_odometry (tf : TransformListener) (world : WorldModel)
    (scan : LaserScan) (s : SLAMPlugin) (out : list Event)
    : SLAMPlugin * list Event :=
  if odom_wait tf s scan then
    match odom_lookup tf s scan with
    | Found t =>
        finish_cycle world scan (convert_from_tf t)
          (movement_of s (convert_from_tf t)) (booked (convert_from_tf t) s) out
    | TransformException what =>
        if have_previous_pose_ s
        then finish_cycle world scan (previous_pose_ s)
               (Transform_set Transform2_identity) s
               (out ++ [StdCout (ed_localization_says what)])
        else (s, out ++ [StdCout (ed_localization_says what)])
    end
  else (s, out ++ [RosWarn (cannot_get_transform (odom_frame_id_ s)
                                                 (base_link_frame_id_ s))]).

(** The transform that the odometry lookup of a cycle returns, when the
    cycle gets as far as line 176 and the lookup there succeeds. *)
Definition odom_lookup_succeeds (tf : TransformListener) (s : SLAMPlugin)
    : option StampedTransform :=
  match acquire_scan tf s with
  | (Next scan, s1, _) =>
      if odom_wait tf s1 scan then
        match odom_lookup tf s1 scan with
        | Found t => Some t
        | TransformException _ => None
        end
      else None
  | (Return, _, _) => None
  end.

Definition is_sensor_update (e : Event) : bool :=
  match e with CallUpdateWeights _ _ => true | _ => false end.

(** The messages that the calls of one cycle act on arrived for that
    very cycle, and each subscription is served at most once. *)
Definition consumed_in (c : Cycle) (out : list Event) : Prop :=
  (forall world scan, In (CallUpdateWeights world scan) out ->
                      In (LaserMsg scan) (arrivals c))
  /\ (forall e, In e out -> is_seed e = true ->
        exists msg, In (InitialPoseMsg msg) (arrivals c)
                    /\ e = seed_call (pose_xy msg) (pose_yaw msg))
  /\ (List.length (filter is_sensor_update out) <= 1)%nat
  /\ (List.length (filter is_seed out) <= 1)%nat
  /\ (existsb is_laser (arrivals c) = false -> skipped out = true)
  /\ (existsb is_initial_pose (arrivals c) = false -> existsb is_seed out = false).

(** A cycle that neither updates nor calibrates. *)
Definition waiting (out : list Event) : Prop :=
  skipped out = true /\ filter is_calibration out = [].

(** The transform that a cycle's lookup of the mounting offset finds,
    given the base link frame, the state of TF and the queue the cycle
    drains: there must be a scan, the wait for the transform to the
    scan's frame must succeed, and the lookup must not throw. *)
Definition offset_lookup (tf : TransformListener) (base_link : string)
    (q : list Callback) : option StampedTransform :=
  match latest_laser q None with
  | Some scan =>
      if waitForTransform tf base_link (frame_id (header scan))
                          (stamp (header scan)) 1.0
      then match lookupTransform tf base_link (frame_id (header scan))
                                 (stamp (header scan)) with
           | Found p_laser => Some p_laser
           | TransformException _ => None
           end
      else None
  | None => None
  end.

Definition offset_unresolved (base_link : string) (c : Cycle) : Prop :=
  offset_lookup (tf_listener_ c) base_link (arrivals c) = None.

(** The mounting offset over a run of cycles [cs] with traces [outs]:
    either no cycle's lookup succeeds, the offset is never stored and
    every cycle is skipped, or the cycles split around the first cycle
    whose lookup succeeds. *)
Definition resolved_once (base_link : string) (cs : list Cycle)
    (outs : list (list Event)) (initialized_at_end : bool) : Prop :=
  (Forall (offset_unresolved base_link) cs
   /\ initialized_at_end = false
   /\ Forall waiting outs)
  \/ (exists cs1 c cs2 outs1 out outs2 p_laser,
        cs = cs1 ++ c :: cs2
        /\ outs = outs1 ++ out :: outs2
        /\ List.length cs1 = List.length outs1
        /\ Forall (offset_unresolved base_link) cs1
        /\ offset_lookup (tf_listener_ c) base_link (arrivals c) = Some p_laser
        /\ initialized_at_end = true
        /\ Forall waiting outs1
        /\ filter is_calibration out =
             [CallSetLaserOffset (laser_offset_of p_laser) (laser_height_of p_laser)]
        /\ Forall (fun o => filter is_calibration o = []) outs2).

(** The laser model [lm'] that a cycle with the calls [out] leaves when
    [lm] is the laser model its sensor update meets: [lm] itself if the
    cycle makes no sensor update, else what the one call of
    [updateWeights] made of [lm]. *)
Definition sensor_model_after (lm lm' : LaserModel) (out : list Event) : Prop :=
  (filter is_sensor_update out = [] /\ lm' = lm)
  \/ (exists world scan pf,
        filter is_sensor_update out = [CallUpdateWeights world scan]
        /\ lm' = fst (updateWeights world scan lm pf)).

(** The mounting offset in [laser_model_] over a run of cycles [cs] from
    the plugin [s].  While no cycle's lookup succeeds the laser model
    stays the one of [s].  The first cycle whose lookup succeeds gives
    the laser model of [s] the offset found, by [setLaserOffset], before
    any sensor update of that cycle; every later cycle leaves the laser
    model as it finds it, or as its sensor update makes it, and never
    sets an offset again. *)
Definition offset_handed_over (cs : list Cycle) (s : SLAMPlugin) : Prop :=
  (Forall (offset_unresolved (base_link_frame_id_ s)) cs ->
   laser_model_ (fst (run cs s)) = laser_model_ s)
  /\ forall cs1 c cs2 p_laser,
       cs = cs1 ++ c :: cs2 ->
       Forall (offset_unresolved (base_link_frame_id_ s)) cs1 ->
       offset_lookup (tf_listener_ c) (base_link_frame_id_ s) (arrivals c)
         = Some p_laser ->
       laser_model_ (fst (run cs1 s)) = laser_model_ s
       /\ sensor_model_after
            (setLaserOffset (laser_offset_of p_laser) (laser_height_of p_laser)
                            (laser_model_ s))
            (laser_model_ (fst (cycle c (fst (run cs1 s)))))
            (snd (cycle c (fst (run cs1 s))))
       /\ forall cs3 c' cs4,
            cs2 = cs3 ++ c' :: cs4 ->
            sensor_model_after
              (laser_model_ (fst (run (cs1 ++ c :: cs3) s)))
              (laser_model_ (fst (cycle c' (fst (run (cs1 ++ c :: cs3) s)))))
              (snd (cycle c' (fst (run (cs1 ++ c :: cs3) s)))).

(** The rectangle and the heading interval of a seeding call. *)
Definition center (lo hi : R) : R := (lo + hi) / 2.
Definition spread (lo hi : R) : R := (hi - lo) / 2.

(** Modelled from the spec: the body of [initUniform] is missing from
    the sources; by the spec it re-seeds the entire set, discarding
    prior belief, so the samples it leaves depend on its arguments and
    not on the samples before. *)
Definition reseeds_entire_set : Prop :=
  forall min max t_step a_min a_max a_step pf1 pf2,
    samples (initUniform min max t_step a_min a_max a_step pf1)
    = samples (initUniform min max t_step a_min a_max a_step pf2).

(** Sum of the weights of a sample set. *)
Definition total_weight (l : list Sample) : R :=
  fold_right (fun smp acc => weight smp + acc) 0 l.

(** Output of [ROS_WARN_STREAM] and of [std::cout]. *)
Definition is_warning (e : Event) : bool :=
  match e with RosWarn _ => true | _ => false end.

Definition is_diagnostic (e : Event) : bool :=
  match e with RosWarn _ | StdCout _ => true | _ => false end.

(** The plugin with other messages queued and other messages stored. *)
Definition with_messages (q : list Callback) (stored_scan : option LaserScan)
    (stored_pose : option PoseWithCovarianceStamped) (s : SLAMPlugin) : SLAMPlugin :=
  set_cb_queue_ q (set_laser_msg_ stored_scan (set_initial_pose_msg_ stored_pose s)).

(** Two states of TF that answer alike the four queries a cycle can
    make for the scan [scan]. *)
Definition same_answers (tf tf' : TransformListener) (s : SLAMPlugin)
    (scan : LaserScan) : Prop :=
  laser_wait tf s scan = laser_wait tf' s scan
  /\ laser_lookup tf s scan = laser_lookup tf' s scan
  /\ odom_wait tf s scan = odom_wait tf' s scan
  /\ odom_lookup tf s scan = odom_lookup tf' s scan.

(** The plugin after [initialize], and what [initialize] did. *)
Definition initialized (init : InitData) (s : SLAMPlugin) : SLAMPlugin :=
  match initialize init s with (_, s', _) => s' end.

Definition initialize_calls (init : InitData) (s : SLAMPlugin) : list Event :=
  match initialize init s with (_, _, out) => out end.

Definition optional_subscription (topic : option string) : list Event :=
  match topic with Some t => [Subscribe t] | None => [] end.

Definition optional_seeding (p : option (R * R * R)) : list Event :=
  match p with Some (x, y, rz) => [seed_call (mkVec2 x y) rz] | None => [] end.

(* ------------------------------------------------------------------ *)
(** ** Degenerate weights

    [particle_filter_.resample(num_particles_)] at line 242 is a plain
    statement: no test of the weights comes before it and no [try] block
    encloses it.  An exception thrown by the call therefore leaves
    [process]: the statements after line 242 do not run, and the caller
    of [process] receives the exception. *)

(** The error condition of the resampler. *)
Inductive ResampleError := DegenerateWeights.

(** What a call of [resample] comes to: the next generation of
    particles, or an exception. *)
Inductive Resampled :=
| NextGeneration (pf : ParticleFilter)
| Throws (e : ResampleError).

(** A method body in which a call may throw: it ends as [Flow] says, or
    with an exception on its way to the caller of the method. *)
Definition Throwing (A : Type) : Type :=
  SLAMPlugin -> (Flow A + ResampleError) * SLAMPlugin * list Event.

(** A body that does not throw. *)
Definition no_throw {A} (m : M A) : Throwing A :=
  fun s => match m s with (r, s1, out) => (inl r, s1, out) end.

Definition throw {A} (e : ResampleError) : Throwing A := fun s => (inr e, s, []).

(** Sequencing: neither a [return;] nor an exception lets the next
    statement run. *)
Definition bind_throwing {A B} (m : Throwing A) (k : A -> Throwing B) : Throwing B :=
  fun s =>
    match m s with
    | (inl (Next a), s1, out1) =>
        match k a s1 with
        | (r, s2, out2) => (r, s2, out1 ++ out2)
        end
    | (inl Return, s1, out1) => (inl Return, s1, out1)
    | (inr e, s1, out1) => (inr e, s1, out1)
    end.

(** The plugin as the motion update and the sensor update leave it,
    ahead of line 242. *)
Definition reweighted (world : WorldModel) (scan : LaserScan) (movement : Transform)
    (s : SLAMPlugin) : SLAMPlugin :=
  set_particle_filter_ (snd (weighted world scan movement s))
    (set_laser_model_ (fst (weighted world scan movement s))
       (set_odom_model_ (fst (moved movement s)) s)).


Section Resampler.

(** Whether the weights of a particle filter sum, in double arithmetic,
    to an infinity or to NaN.  The weights of [samples] are real numbers
    here and their sum is always finite, so this is told from outside. *)
Variable non_finite : ParticleFilter -> bool.

Definition is_zero (r : R) : bool := if Req_dec_T r 0 then true else false.

(** Modelled from the spec: the weights of a set are degenerate when
    their sum is zero or non-finite (section 7, degenerate weights). *)
Definition degenerate (pf : ParticleFilter) : bool :=
  is_zero (total_weight (samples pf)) || non_finite pf.

(** Modelled from the spec: the body of [ParticleFilter::resample] is
    missing from the sources.  By sections 4.3 and 7 of the spec,
    resampling a set of degenerate weights fails explicitly with a
    distinct error condition, and neither divides by zero nor reseeds;
    any other set is resampled.  The failure is a C++ exception, the one
    form of failure that a call written as a plain statement can pass
    on; a set that is resampled becomes [resample n pf]. *)
Definition resample_or_throw (n : Z) (pf : ParticleFilter) : Resampled :=
  if degenerate pf then Throws DegenerateWeights
  else NextGeneration (resample n pf).

(** Line 242 with this resampler. *)
Definition do_resample_or_throw : Throwing unit :=
  bind_throwing (no_throw (read num_particles_)) (fun n =>
  bind_throwing (no_throw (emit (CallResample n))) (fun _ =>
  bind_throwing (no_throw (read particle_filter_)) (fun pf =>
  match resample_or_throw n pf with
  | NextGeneration pf' => no_throw (write (set_particle_filter_ pf'))
  | Throws e => throw e
  end))).

(** Lines 215-295 with this resampler. *)
Definition update_and_publish_or_throw (world : WorldModel) (scan : LaserScan)
    (odom_to_base_link : Pose3D) (movement : Transform) : Throwing unit :=
  bind_throwing (no_throw require_samples) (fun _ =>
  bind_throwing (no_throw (update_motion movement)) (fun _ =>
  bind_throwing (no_throw (update_sensor world scan)) (fun _ =>
  bind_throwing do_resample_or_throw (fun _ =>
  no_throw (publish_result scan odom_to_base_link))))).

(** [SLAMPlugin::process] with this resampler. *)
Definition process_or_throw (tf_listener_ : TransformListener) (world : WorldModel)
    : Throwing unit :=
  bind_throwing (no_throw (acquire_inputs tf_listener_)) (fun inputs =>
  update_and_publish_or_throw world (fst inputs) (fst (snd inputs))
                              (snd (snd inputs))).

End Resampler.

End Plugin.



(* ------------------------------------------------------------------ *)
(** ** The mean pose of a particle set

    [ParticleFilter::calculateMeanPose] is called by [process] but its
    body is in neither of the two files embedded above. *)

(** The angle of the vector (x, y), in (-PI, PI]. *)
Definition atan2 (y x : R) : R :=
  if Rlt_dec 0 x then atan (y / x)
  else if Rlt_dec x 0 then
    if Rle_dec 0 y then atan (y / x) + PI else atan (y / x) - PI
  else if Rlt_dec 0 y then PI / 2
  else if Rlt_dec y 0 then - (PI / 2)
  else 0.

Record Pose2D := mkPose2D { Pose2D_x : R; Pose2D_y : R; Pose2D_theta : R }.

Record Particle := mkParticle { Particle_pose : Pose2D; Particle_weight : R }.

Definition sum_weights (set : list Particle) : R :=
  fold_right (fun p acc => Particle_weight p + acc) 0 set.

(** The weights of [set] divided by their sum. *)
Definition normalized_weights (set : list Particle) : list Particle :=
  map (fun p => mkParticle (Particle_pose p) (Particle_weight p / sum_weights set)) set.

(** The sum over [set] of weight times [f pose]. *)
Definition weighted_sum (f : Pose2D -> R) (set : list Particle) : R :=
  fold_right (fun p acc => Particle_weight p * f (Particle_pose p) + acc) 0 set.

Definition unit_x (p : Pose2D) : R := cos (Pose2D_theta p).
Definition unit_y (p : Pose2D) : R := sin (Pose2D_theta p).

(** Modelled from the spec: [meanPose], the body of
    [calculateMeanPose], is missing from the sources.  The mean is the
    weighted circular mean: the translation is the weight-normalized sum
    of the particle translations, the heading is the angle of the
    weight-normalized sum of the unit vectors (cos, sin) of the particle
    headings; an empty set has no estimate. *)
Definition meanPose (set : list Particle) : option Pose2D :=
  match set with
  | [] => None
  | _ :: _ =>
      let n := normalized_weights set in
      Some (mkPose2D (weighted_sum Pose2D_x n) (weighted_sum Pose2D_y n)
                     (atan2 (weighted_sum unit_y n) (weighted_sum unit_x n)))
  end.

(** The arithmetic average of the heading angles under the same weights;
    what the mean heading is not. *)
Definition naive_mean_heading (set : list Particle) : R :=
  weighted_sum Pose2D_theta (normalized_weights set).

Definition degrees (d : R) : R := d * PI / 180.

(** Two particles of the same weight [w] heading +179 and -179 degrees. *)
Definition wraparound_pair (w x1 y1 x2 y2 : R) : list Particle :=
  [ mkParticle (mkPose2D x1 y1 (degrees 179)) w;
    mkParticle (mkPose2D x2 y2 (degrees (-179))) w ].

(** One pass over the set with running sums, then one division each. *)
Record Sums := mkSums {
  sum_w : R; sum_x : R; sum_y : R; sum_cos : R; sum_sin : R }.

Definition accumulate (a : Sums) (p : Particle) : Sums :=
  let w := Particle_weight p in
  mkSums (sum_w a + w)
         (sum_x a + w * Pose2D_x (Particle_pose p))
         (sum_y a + w * Pose2D_y (Particle_pose p))
         (sum_cos a + w * unit_x (Particle_pose p))
         (sum_sin a + w * unit_y (Particle_pose p)).

Definition meanPose_one_pass (set : list Particle) : option Pose2D :=
  match set with
  | [] => None
  | _ :: _ =>
      let a := fold_left accumulate set (mkSums 0 0 0 0 0) in
      Some (mkPose2D (sum_x a / sum_w a) (sum_y a / sum_w a)
                     (atan2 (sum_sin a / sum_w a) (sum_cos a / sum_w a)))
  end.

(* ------------------------------------------------------------------ *)
(** ** A deterministic instance of the collaborators

    Used to run [process] on concrete cycles.  It stands for no body of
    the repository: the theorems hold for every instance of [Externals],
    and this one only shows that their hypotheses can be met.  The world
    model is the likelihood of a scan at a pose; the motion update has
    no noise; the seeding keeps the two extreme corners of the requested
    grid; resampling keeps the leading samples, repeated up to the
    requested number, with uniform weight. *)

Module Sim.

Definition Transform2_mul (a b : Transform2) : Transform2 :=
  let ra := Transform2_R a in
  let rb := Transform2_R b in
  mkTransform2
    (mkMat2 (Mat2_xx ra * Mat2_xx rb + Mat2_xy ra * Mat2_yx rb)
            (Mat2_xx ra * Mat2_xy rb + Mat2_xy ra * Mat2_yy rb)
            (Mat2_yx ra * Mat2_xx rb + Mat2_yy ra * Mat2_yx rb)
            (Mat2_yx ra * Mat2_xy rb + Mat2_yy ra * Mat2_yy rb))
    (mkVec2 (Mat2_xx ra * Vec2_x (Transform2_t b) + Mat2_xy ra * Vec2_y (Transform2_t b)
             + Vec2_x (Transform2_t a))
            (Mat2_yx ra * Vec2_x (Transform2_t b) + Mat2_yy ra * Vec2_y (Transform2_t b)
             + Vec2_y (Transform2_t a))).

(** A planar pose from position and heading. *)
Definition fromXYA (x y a : R) : Transform2 :=
  mkTransform2 (mkMat2 (cos a) (- sin a) (sin a) (cos a)) (mkVec2 x y).

Definition heading (p : Transform2) : R :=
  atan2 (Mat2_yx (Transform2_R p)) (Mat2_xx (Transform2_R p)).

Definition particle_of (s : Sample) : Particle :=
  let p := matrix (pose s) in
  mkParticle (mkPose2D (Vec2_x (Transform2_t p)) (Vec2_y (Transform2_t p)) (heading p))
             (weight s).

Definition World : Type := Transform2 -> LaserScan -> R.

Definition initUniform (min max : Vec2) (t_step a_min a_max a_step : R)
    (_ : list Sample) : list Sample :=
  [ mkSample (Transform_set (fromXYA (Vec2_x min) (Vec2_y min) a_min)) 1;
    mkSample (Transform_set (fromXYA (Vec2_x max) (Vec2_y max) a_max)) 1 ].

Fixpoint cycle_through (fuel : nat) (l rest : list Sample) (w : R) : list Sample :=
  match fuel with
  | O => []
  | S fuel' =>
      match rest with
      | s :: rest' => mkSample (pose s) w :: cycle_through fuel' l rest' w
      | [] =>
          match l with
          | s :: rest' => mkSample (pose s) w :: cycle_through fuel' l rest' w
          | [] => []
          end
      end
  end.

Definition resample (num_samples : Z) (pf : list Sample) : list Sample :=
  cycle_through (Z.to_nat num_samples) pf pf (1 / IZR num_samples).

Definition calculateMeanPose (pf : list Sample) : Transform2 :=
  match meanPose (map particle_of pf) with
  | Some m => fromXYA (Pose2D_x m) (Pose2D_y m) (Pose2D_theta m)
  | None => Transform2_identity
  end.

Definition updatePoses (movement : Transform) (_ : Z) (om : unit) (pf : list Sample)
    : unit * list Sample :=
  (om, map (fun s => mkSample (Transform_set (Transform2_mul (matrix (pose s))
                                                             (matrix movement)))
                              (weight s)) pf).

Definition updateWeights (world : World) (scan : LaserScan)
    (lm : option (Transform2 * R)) (pf : list Sample)
    : option (Transform2 * R) * list Sample :=
  (lm, map (fun s => mkSample (pose s) (weight s * world (matrix (pose s)) scan)) pf).

Definition setLaserOffset (offset : Transform2) (height : R)
    (_ : option (Transform2 * R)) : option (Transform2 * R) :=
  Some (offset, height).

Definition getYaw (q : Quaternion) : R :=
  atan2 (2 * (Quaternion_w q * Quaternion_z q + Quaternion_x q * Quaternion_y q))
        (1 - 2 * (Quaternion_y q * Quaternion_y q + Quaternion_z q * Quaternion_z q)).

End Sim.

#[export] Instance Sim_externals : Externals := {|
  WorldModel := Sim.World;
  ParticleFilter := list Sample;
  OdomModel := unit;
  LaserModel := option (Transform2 * R);
  samples := fun pf => pf;
  initUniform := Sim.initUniform;
  resample := Sim.resample;
  calculateMeanPose := Sim.calculateMeanPose;
  updatePoses := Sim.updatePoses;
  updateWeights := Sim.updateWeights;
  setLaserOffset := Sim.setLaserOffset;
  getYaw := Sim.getYaw;
  new_ParticleFilter := [];
  new_OdomModel := tt;
  new_LaserModel := None;
  ModelConfig := unit;
  odom_configure := fun _ om => om;
  laser_configure := fun _ lm => lm |}.

(** Concrete cycles for the instance above. *)
Module Demo.

Definition scan_at (t : N) : LaserScan :=
  mkLaserScan (mkHeader (mkTime t 0) "laser") 0 0.5 [2; 2; 2].

Definition p_laser : StampedTransform :=
  mkStampedTransform Matrix3_identity (mkVector3 0.2 0 0.3) (mkTime 0 0)
    "base_link" "laser".

Definition odom_at (x : R) : StampedTransform :=
  mkStampedTransform Matrix3_identity (mkVector3 x 0 0) (mkTime 0 0)
    "odom" "base_link".

(** TF knows every transform; the robot is at [x] along the odometry
    frame's first axis. *)
Definition tf_up (x : R) : TransformListener :=
  mkTransformListener
    (fun _ _ _ _ => true)
    (fun target _ _ =>
       if String.eqb target "odom" then Found (odom_at x) else Found p_laser).

(** The odometry transform is announced but the lookup throws. *)
Definition tf_odom_throws : TransformListener :=
  mkTransformListener
    (fun _ _ _ _ => true)
    (fun target _ _ =>
       if String.eqb target "odom"
       then TransformException "Lookup would require extrapolation into the future."
       else Found p_laser).

(** No transform arrives within the timeout. *)
Definition tf_down : TransformListener :=
  mkTransformListener
    (fun _ _ _ _ => false)
    (fun _ _ _ => TransformException "Frame does not exist.").

(** Odometry is known, the laser frame is not. *)
Definition tf_no_laser (x : R) : TransformListener :=
  mkTransformListener
    (fun target _ _ _ => String.eqb target "odom")
    (fun target _ _ =>
       if String.eqb target "odom" then Found (odom_at x)
       else TransformException "Frame does not exist.").

Definition pose_msg (x y : R) : PoseWithCovarianceStamped :=
  mkPoseWithCovarianceStamped (mkVector3 x y 0) (mkQuaternion 0 0 0 1).

(** Every scan is fully consistent with every pose. *)
Definition world_consistent : WorldModel := fun _ _ => 1.


Definition config : InitData :=
  mkInitData (Some (mkOdomGroup "map" "odom" "base_link" tt))
             (Some (mkLaserGroup "scan" tt))
             (Some 3%Z) (Some "initialpose"%string) None.

(** The plugin after construction and [initialize config]: no particles,
    no offset, no odometry yet. *)
Definition started : SLAMPlugin :=
  match initialize config (SLAMPlugin_new Pose3D_identity 0%Z) with
  | (_, s, _) => s
  end.

Definition two_samples : list Sample :=
  [ mkSample (Transform_set (Sim.fromXYA 0 0 0)) 1;
    mkSample (Transform_set (Sim.fromXYA 1 0 0)) 1 ].

(** A plugin in the middle of tracking: offset stored, odometry
    remembered, two particles. *)
Definition tracking : SLAMPlugin :=
  mkSLAMPlugin [] None true (convert_from_tf (odom_at 1)) None true
    "map" "odom" "base_link" two_samples tt
    (Some (laser_offset_of p_laser, laser_height_of p_laser)) 3%Z.

(** The laser frame is known, odometry is not. *)
Definition tf_no_odom : TransformListener :=
  mkTransformListener
    (fun target _ _ _ => negb (String.eqb target "odom"))
    (fun target _ _ =>
       if String.eqb target "odom" then TransformException "Frame does not exist."
       else Found p_laser).

(** A configuration without the required group of the laser model. *)
Definition config_without_laser : InitData :=
  mkInitData (Some (mkOdomGroup "map" "odom" "base_link" tt)) None
             (Some 3%Z) (Some "initialpose"%string) (Some (1, 2, 0)).

(** A configuration with an initial pose. *)
Definition config_with_pose : InitData :=
  mkInitData (Some (mkOdomGroup "map" "odom" "base_link" tt))
             (Some (mkLaserGroup "scan" tt))
             (Some 3%Z) (Some "initialpose"%string) (Some (1, 2, 0)).

(** TF answers as [tf_up x] at second [t] and knows nothing at any
    other time. *)
Definition tf_up_only_at (t : N) (x : R) : TransformListener :=
  mkTransformListener
    (fun _ _ time _ => N.eqb (sec time) t)
    (fun target _ time =>
       if N.eqb (sec time) t
       then (if String.eqb target "odom" then Found (odom_at x) else Found p_laser)
       else TransformException "Lookup would require extrapolation into the past.").

(** One scan arrives while the plugin is tracking. *)
Definition scan_arrived : SLAMPlugin := deliver [LaserMsg (scan_at 10)] tracking.

(** As [scan_arrived], with a particle filter that holds no particle. *)
Definition scan_arrived_no_particles : SLAMPlugin :=
  set_particle_filter_ new_ParticleFilter scan_arrived.

(** The plugin and the movement with which such a cycle reaches the
    update when TF reports the robot at 2. *)
Definition at_update : SLAMPlugin :=
  booked (convert_from_tf (odom_at 2)) (drained scan_arrived).

Definition moved_by_one : Transform :=
  odom_delta (convert_from_tf (odom_at 1)) (convert_from_tf (odom_at 2)).

(** A scan arrives while the laser frame is unknown to TF. *)
Definition cycle_no_laser_frame : Cycle :=
  mkCycle [LaserMsg (scan_at 10)] (tf_no_laser 1) world_consistent.

(** A scan arrives (at time [t]) and TF reports the robot at [x]. *)
Definition cycle_scan (t : N) (x : R) : Cycle :=
  mkCycle [LaserMsg (scan_at t)] (tf_up x) world_consistent.

(** Nothing arrives. *)
Definition cycle_idle : Cycle := mkCycle [] (tf_up 2) world_consistent.

(** An initial pose arrives, no scan. *)
Definition cycle_pose (x y : R) : Cycle :=
  mkCycle [InitialPoseMsg (pose_msg x y)] (tf_up 2) world_consistent.

Definition start_up : list Cycle :=
  [ cycle_no_laser_frame; cycle_scan 11 1; cycle_scan 12 2 ].

Definition stop_and_go : list Cycle :=
  [ cycle_scan 11 2; cycle_idle; cycle_pose 4 5; cycle_idle ].

(** An initial pose and a scan arrive. *)
Definition pose_and_scan : list Callback :=
  [InitialPoseMsg (pose_msg 4 5); LaserMsg (scan_at 10)].

End Demo.

(* ------------------------------------------------------------------ *)
(** * Properties of the cycle *)

Section Facts.

Context {E : Externals}.

(** Symbolic execution of a method body on a plugin given by its fields. *)
Ltac run_method :=
  cbv beta iota zeta delta
    [process run_process acquire_inputs acquire_scan update_and_publish
     callAvailable apply_initial_pose seed_around
     require_laser calibrate_laser_offset odometry require_samples
     update_motion update_sensor do_resample publish_result
     bind read write emit ret return_
     set_cb_queue_ set_laser_msg_ set_have_previous_pose_ set_previous_pose_
     set_initial_pose_msg_ set_laser_offset_initialized_ set_particle_filter_
     set_odom_model_ set_laser_model_
     cb_queue_ laser_msg_ have_previous_pose_ previous_pose_ initial_pose_msg_
     laser_offset_initialized_ map_frame_id_ odom_frame_id_ base_link_frame_id_
     particle_filter_ odom_model_ laser_model_ num_particles_
     drained seed_calls calibrated booked movement_of after_pose_reset seeded
     seed_call seed_min seed_max Vec2_sub Vec2_add Vec2_x Vec2_y pose_xy pose_yaw
     updated resampled weighted moved update_calls
     laser_wait laser_lookup odom_wait odom_lookup
     negb app fst snd].

Lemma dispatch_spec q s :
  dispatch q s =
  (Next tt,
   set_initial_pose_msg_ (latest_pose q (initial_pose_msg_ s))
     (set_laser_msg_ (latest_laser q (laser_msg_ s)) s), []).
Proof.
  revert s. induction q as [|c q IH]; intros s.
  - destruct s; reflexivity.
  - destruct c; simpl; unfold bind; simpl; rewrite IH; destruct s; reflexivity.
Qed.

(** Lines 110-157 as a decision tree. *)
Lemma acquire_scan_cases tf s :
  acquire_scan tf s =
  match latest_laser (cb_queue_ s) None with
  | None => (Return, drained s, seed_calls s)
  | Some scan =>
      if laser_offset_initialized_ s then (Next scan, drained s, seed_calls s)
      else if laser_wait tf s scan then
        match laser_lookup tf s scan with
        | Found p_laser =>
            (Next scan, calibrated p_laser (drained s),
             seed_calls s ++ [CallSetLaserOffset (laser_offset_of p_laser)
                                                 (laser_height_of p_laser)])
        | TransformException what =>
            (Return, drained s, seed_calls s ++ [StdCout (ed_localization_says what)])
        end
      else (Return, drained s,
            seed_calls s ++ [RosWarn (cannot_get_transform (base_link_frame_id_ s)
                                                           (frame_id (header scan)))])
  end.
Proof.
  destruct s as [q lm hp pp ip lo mf odf bf pf om lsm n].
  run_method. rewrite dispatch_spec. run_method.
  destruct (latest_pose q None) as [msg|]; destruct (latest_laser q None) as [scan|];
    try reflexivity;
    destruct lo; try reflexivity;
    destruct (waitForTransform tf bf (frame_id (header scan)) (stamp (header scan)) 1.0);
    try reflexivity;
    destruct (lookupTransform tf bf (frame_id (header scan)) (stamp (header scan)));
    reflexivity.
Qed.

(** Lines 163-209 as a decision tree. *)
Lemma odometry_cases tf scan s :
  odometry tf scan s =
  if odom_wait tf s scan then
    match odom_lookup tf s scan with
    | Found t =>
        (Next (convert_from_tf t, movement_of s (convert_from_tf t)),
         booked (convert_from_tf t) s, [])
    | TransformException what =>
        if have_previous_pose_ s
        then (Next (previous_pose_ s, Transform_set Transform2_identity), s,
              [StdCout (ed_localization_says what)])
        else (Return, s, [StdCout (ed_localization_says what)])
    end
  else (Return, s,
        [RosWarn (cannot_get_transform (odom_frame_id_ s) (base_link_frame_id_ s))]).
Proof.
  destruct s as [q lm hp pp ip lo mf odf bf pf om lsm n].
  run_method.
  destruct (waitForTransform tf odf bf (stamp (header scan)) 1.0); try reflexivity.
  destruct (lookupTransform tf odf bf (stamp (header scan))); try reflexivity.
  destruct hp; reflexivity.
Qed.

(** Lines 215-295 as a decision tree. *)
Lemma update_and_publish_cases world scan odom movement s :
  update_and_publish world scan odom movement s =
  if empty (samples (particle_filter_ s)) then (Return, s, [])
  else (Next tt, updated world scan movement s,
        update_calls world scan odom movement s).
Proof.
  destruct s as [q lm hp pp ip lo mf odf bf pf om lsm n].
  run_method.
  destruct (empty (samples pf)); reflexivity.
Qed.

(** [process] continues from [acquire_scan] as [from_odometry] says. *)
Lemma process_from_odometry tf world s :
  run_process tf world s =
  match acquire_scan tf s with
  | (Next scan, s1, o1) => from_odometry tf world scan s1 o1
  | (Return, s1, o1) => (s1, o1)
  end.
Proof.
  unfold run_process, process, acquire_inputs.
  unfold bind at 1. unfold bind at 1.
  destruct (acquire_scan tf s) as [[[scan|] s1] o1]; [|reflexivity].
  unfold from_odometry, finish_cycle, bind.
  rewrite odometry_cases.
  destruct (odom_wait tf s1 scan); [|reflexivity].
  destruct (odom_lookup tf s1 scan) as [t|what].
  - unfold ret; cbv beta iota zeta delta [fst snd].
    rewrite update_and_publish_cases.
    destruct (empty (samples (particle_filter_ (booked (convert_from_tf t) s1))));
      rewrite ?app_nil_r; reflexivity.
  - destruct (have_previous_pose_ s1); [|reflexivity].
    unfold ret; cbv beta iota zeta delta [fst snd].
    rewrite update_and_publish_cases.
    destruct (empty (samples (particle_filter_ s1)));
      rewrite ?app_nil_r, <- ?app_assoc; reflexivity.
Qed.

(** One call of [process], as a decision tree over what the cycle finds. *)
Lemma run_process_cases tf world s :
  run_process tf world s =
  match latest_laser (cb_queue_ s) None with
  | None => (drained s, seed_calls s)
  | Some scan =>
      if laser_offset_initialized_ s
      then from_odometry tf world scan (drained s) (seed_calls s)
      else if laser_wait tf s scan then
        match laser_lookup tf s scan with
        | Found p_laser =>
            from_odometry tf world scan (calibrated p_laser (drained s))
              (seed_calls s ++ [CallSetLaserOffset (laser_offset_of p_laser)
                                                   (laser_height_of p_laser)])
        | TransformException what =>
            (drained s, seed_calls s ++ [StdCout (ed_localization_says what)])
        end
      else (drained s,
            seed_calls s ++ [RosWarn (cannot_get_transform (base_link_frame_id_ s)
                                                           (frame_id (header scan)))])
  end.
Proof.
  rewrite process_from_odometry, acquire_scan_cases.
  destruct (latest_laser (cb_queue_ s) None) as [scan|]; [|reflexivity].
  destruct (laser_offset_initialized_ s); [reflexivity|].
  destruct (laser_wait tf s scan); [|reflexivity].
  destruct (laser_lookup tf s scan); reflexivity.
Qed.

(** *** What the setters leave alone *)

Lemma fields_drained s :
  particle_filter_ (drained s) = after_pose_reset s
  /\ have_previous_pose_ (drained s) = have_previous_pose_ s
  /\ previous_pose_ (drained s) = previous_pose_ s
  /\ laser_offset_initialized_ (drained s) = laser_offset_initialized_ s
  /\ laser_model_ (drained s) = laser_model_ s
  /\ odom_model_ (drained s) = odom_model_ s
  /\ num_particles_ (drained s) = num_particles_ s
  /\ odom_frame_id_ (drained s) = odom_frame_id_ s
  /\ base_link_frame_id_ (drained s) = base_link_frame_id_ s
  /\ map_frame_id_ (drained s) = map_frame_id_ s
  /\ cb_queue_ (drained s) = [].
Proof. destruct s; repeat split. Qed.

Lemma fields_calibrated p s :
  particle_filter_ (calibrated p s) = particle_filter_ s
  /\ have_previous_pose_ (calibrated p s) = have_previous_pose_ s
  /\ previous_pose_ (calibrated p s) = previous_pose_ s
  /\ laser_offset_initialized_ (calibrated p s) = true
  /\ odom_model_ (calibrated p s) = odom_model_ s
  /\ num_particles_ (calibrated p s) = num_particles_ s
  /\ odom_frame_id_ (calibrated p s) = odom_frame_id_ s
  /\ base_link_frame_id_ (calibrated p s) = base_link_frame_id_ s
  /\ map_frame_id_ (calibrated p s) = map_frame_id_ s
  /\ cb_queue_ (calibrated p s) = cb_queue_ s.
Proof. destruct s; repeat split. Qed.

Lemma fields_booked o s :
  particle_filter_ (booked o s) = particle_filter_ s
  /\ have_previous_pose_ (booked o s) = true
  /\ previous_pose_ (booked o s) = o
  /\ laser_offset_initialized_ (booked o s) = laser_offset_initialized_ s
  /\ laser_model_ (booked o s) = laser_model_ s
  /\ odom_model_ (booked o s) = odom_model_ s
  /\ num_particles_ (booked o s) = num_particles_ s
  /\ odom_frame_id_ (booked o s) = odom_frame_id_ s
  /\ base_link_frame_id_ (booked o s) = base_link_frame_id_ s
  /\ map_frame_id_ (booked o s) = map_frame_id_ s
  /\ cb_queue_ (booked o s) = cb_queue_ s.
Proof. destruct s; repeat split. Qed.

Lemma fields_updated world scan movement s :
  particle_filter_ (updated world scan movement s) = resampled world scan movement s
  /\ have_previous_pose_ (updated world scan movement s) = have_previous_pose_ s
  /\ previous_pose_ (updated world scan movement s) = previous_pose_ s
  /\ laser_offset_initialized_ (updated world scan movement s)
     = laser_offset_initialized_ s
  /\ num_particles_ (updated world scan movement s) = num_particles_ s
  /\ odom_frame_id_ (updated world scan movement s) = odom_frame_id_ s
  /\ base_link_frame_id_ (updated world scan movement s) = base_link_frame_id_ s
  /\ map_frame_id_ (updated world scan movement s) = map_frame_id_ s
  /\ cb_queue_ (updated world scan movement s) = cb_queue_ s.
Proof. destruct s; repeat split. Qed.

Lemma gates_drained tf s scan :
  odom_wait tf (drained s) scan = odom_wait tf s scan
  /\ odom_lookup tf (drained s) scan = odom_lookup tf s scan.
Proof. destruct s; split; reflexivity. Qed.

Lemma gates_calibrated tf p s scan :
  odom_wait tf (calibrated p s) scan = odom_wait tf s scan
  /\ odom_lookup tf (calibrated p s) scan = odom_lookup tf s scan.
Proof. destruct s; split; reflexivity. Qed.

(** Rewrites every projection of a derived plugin to one of the plugin
    the cycle started from. *)
Ltac to_start :=
  repeat first
    [ rewrite (proj1 (gates_calibrated _ _ _ _))
    | rewrite (proj2 (gates_calibrated _ _ _ _))
    | rewrite (proj1 (gates_drained _ _ _))
    | rewrite (proj2 (gates_drained _ _ _)) ];
  repeat match goal with
    | |- context [?f (updated ?w ?sc ?m ?s)] =>
        let H := fresh in
        pose proof (fields_updated w sc m s) as H;
        progress (decompose [and] H; clear H;
                  repeat match goal with Heq : _ (updated w sc m s) = _ |- _ =>
                    rewrite ?Heq; clear Heq end)
    | |- context [?f (booked ?o ?s)] =>
        let H := fresh in
        pose proof (fields_booked o s) as H;
        progress (decompose [and] H; clear H;
                  repeat match goal with Heq : _ (booked o s) = _ |- _ =>
                    rewrite ?Heq; clear Heq end)
    | |- context [?f (calibrated ?p ?s)] =>
        let H := fresh in
        pose proof (fields_calibrated p s) as H;
        progress (decompose [and] H; clear H;
                  repeat match goal with Heq : _ (calibrated p s) = _ |- _ =>
                    rewrite ?Heq; clear Heq end)
    | |- context [?f (drained ?s)] =>
        let H := fresh in
        pose proof (fields_drained s) as H;
        progress (decompose [and] H; clear H;
                  repeat match goal with Heq : _ (drained s) = _ |- _ =>
                    rewrite ?Heq; clear Heq end)
    end.

(** *** Calls of the input part *)

Lemma skipped_app o1 o2 : skipped (o1 ++ o2) = skipped o1 && skipped o2.
Proof. unfold skipped. rewrite existsb_app, negb_orb. reflexivity. Qed.

Lemma skipped_seed_calls s : skipped (seed_calls s) = true.
Proof. unfold seed_calls. destruct (latest_pose (cb_queue_ s) None); reflexivity. Qed.

Lemma skipped_update_calls world scan odom movement s :
  skipped (update_calls world scan odom movement s) = false.
Proof. reflexivity. Qed.

(** Lines 110-209 in terms of their two halves. *)
Lemma acquire_inputs_cases tf s :
  acquire_inputs tf s =
  match acquire_scan tf s with
  | (Next scan, s1, o1) =>
      match odometry tf scan s1 with
      | (Next om, s2, o2) => (Next (scan, om), s2, o1 ++ o2)
      | (Return, s2, o2) => (Return, s2, o1 ++ o2)
      end
  | (Return, s1, o1) => (Return, s1, o1)
  end.
Proof.
  unfold acquire_inputs, bind.
  destruct (acquire_scan tf s) as [[[scan|] s1] o1]; [|reflexivity].
  destruct (odometry tf scan s1) as [[[om|] s2] o2]; [|reflexivity].
  unfold ret. rewrite app_nil_r. reflexivity.
Qed.

Lemma process_cases tf world s :
  process tf world s =
  match acquire_inputs tf s with
  | (Next (scan, (odom, movement)), s1, o1) =>
      if empty (samples (particle_filter_ s1)) then (Return, s1, o1)
      else (Next tt, updated world scan movement s1,
            o1 ++ update_calls world scan odom movement s1)
  | (Return, s1, o1) => (Return, s1, o1)
  end.
Proof.
  unfold process, bind.
  destruct (acquire_inputs tf s) as [[[[scan [odom movement]]|] s1] o1]; [|reflexivity].
  cbv beta iota zeta delta [fst snd].
  rewrite update_and_publish_cases.
  destruct (empty (samples (particle_filter_ s1))); rewrite ?app_nil_r; reflexivity.
Qed.

(** The input part makes no call of the update and leaves the filter as
    the pose reset left it. *)
Lemma acquire_scan_quiet tf s r s1 o1 :
  acquire_scan tf s = (r, s1, o1) ->
  skipped o1 = true
  /\ particle_filter_ s1 = after_pose_reset s
  /\ num_particles_ s1 = num_particles_ s
  /\ have_previous_pose_ s1 = have_previous_pose_ s
  /\ previous_pose_ s1 = previous_pose_ s
  /\ odom_model_ s1 = odom_model_ s
  /\ odom_frame_id_ s1 = odom_frame_id_ s
  /\ base_link_frame_id_ s1 = base_link_frame_id_ s
  /\ map_frame_id_ s1 = map_frame_id_ s.
Proof.
  rewrite acquire_scan_cases. pose proof (skipped_seed_calls s) as Hseed.
  destruct (latest_laser (cb_queue_ s) None) as [scan|].
  - destruct (laser_offset_initialized_ s).
    + intros H; inversion H; subst; clear H. to_start. repeat split; auto.
    + destruct (laser_wait tf s scan).
      * destruct (laser_lookup tf s scan) as [p|what];
          intros H; inversion H; subst; clear H; to_start;
          rewrite skipped_app, Hseed; repeat split; auto.
      * intros H; inversion H; subst; clear H. to_start.
        rewrite skipped_app, Hseed; repeat split; auto.
  - intros H; inversion H; subst; clear H. to_start. repeat split; auto.
Qed.

Lemma acquire_inputs_quiet tf s r s1 o1 :
  acquire_inputs tf s = (r, s1, o1) ->
  skipped o1 = true
  /\ particle_filter_ s1 = after_pose_reset s
  /\ num_particles_ s1 = num_particles_ s
  /\ odom_model_ s1 = odom_model_ s
  /\ odom_frame_id_ s1 = odom_frame_id_ s
  /\ map_frame_id_ s1 = map_frame_id_ s.
Proof.
  rewrite acquire_inputs_cases.
  destruct (acquire_scan tf s) as [[[scan|] s0] o0] eqn:Hscan;
    apply acquire_scan_quiet in Hscan;
    destruct Hscan as (Hq & Hpf & Hn & _ & _ & Hom & Hof & _ & Hmf).
  - rewrite odometry_cases.
    destruct (odom_wait tf s0 scan).
    + destruct (odom_lookup tf s0 scan) as [t|what].
      * intros H; inversion H; subst; clear H. to_start.
        rewrite skipped_app, Hq. repeat split; auto.
      * destruct (have_previous_pose_ s0);
          intros H; inversion H; subst; clear H;
          rewrite skipped_app, Hq; repeat split; auto.
    + intros H; inversion H; subst; clear H.
      rewrite skipped_app, Hq; repeat split; auto.
  - intros H; inversion H; subst; clear H. repeat split; auto.
Qed.

Lemma skipped_no_filter_stage out :
  skipped out = true -> filter is_filter_stage out = [].
Proof.
  unfold skipped, is_stage. intros H. apply negb_true_iff in H.
  induction out as [|e l IH]; [reflexivity|].
  simpl in *. apply orb_false_iff in H. destruct H as [He Hl].
  apply orb_false_iff in He. destruct He as [He _]. rewrite He. auto.
Qed.

Lemma nonempty_not_empty {A} (l : list A) : l <> [] -> empty l = false.
Proof. destruct l; [congruence|reflexivity]. Qed.

(** *** The most recent message of a queue *)

Lemma latest_pose_none q stored :
  existsb is_initial_pose q = false -> latest_pose q stored = stored.
Proof.
  revert stored. induction q as [|c q IH]; intros stored H; [reflexivity|].
  destruct c; simpl in *; [apply IH; assumption|discriminate].
Qed.

Lemma latest_laser_none q stored :
  existsb is_laser q = false -> latest_laser q stored = stored.
Proof.
  revert stored. induction q as [|c q IH]; intros stored H; [reflexivity|].
  destruct c; simpl in *; [discriminate|apply IH; assumption].
Qed.

Lemma latest_pose_last earlier msg later stored :
  existsb is_initial_pose later = false ->
  latest_pose (earlier ++ InitialPoseMsg msg :: later) stored = Some msg.
Proof.
  intros H. revert stored. induction earlier as [|c q IH]; intros stored.
  - simpl. apply latest_pose_none. assumption.
  - destruct c; simpl; apply IH.
Qed.

Lemma latest_laser_in q stored scan :
  latest_laser q stored = Some scan -> In (LaserMsg scan) q \/ stored = Some scan.
Proof.
  revert stored. induction q as [|c q IH]; intros stored H; [right; assumption|].
  destruct c as [m|m]; simpl in H; apply IH in H.
  - destruct H as [H|H]; [left; right; assumption|].
    inversion H; subst. left; left; reflexivity.
  - destruct H as [H|H]; [left; right; assumption|right; assumption].
Qed.

Lemma latest_pose_in q stored msg :
  latest_pose q stored = Some msg -> In (InitialPoseMsg msg) q \/ stored = Some msg.
Proof.
  revert stored. induction q as [|c q IH]; intros stored H; [right; assumption|].
  destruct c as [m|m]; simpl in H; apply IH in H.
  - destruct H as [H|H]; [left; right; assumption|right; assumption].
  - destruct H as [H|H]; [left; right; assumption|].
    inversion H; subst. left; left; reflexivity.
Qed.

(** *** The shape of a cycle's trace *)

Lemma update_calls_shape world scan odom movement s :
  existsb is_seed (update_calls world scan odom movement s) = false
  /\ filter is_calibration (update_calls world scan odom movement s) = []
  /\ (forall w sc, In (CallUpdateWeights w sc) (update_calls world scan odom movement s)
                   -> sc = scan)
  /\ (List.length (filter is_sensor_update (update_calls world scan odom movement s))
      <= 1)%nat.
Proof.
  repeat split; try (simpl; lia).
  intros w sc H. simpl in H.
  repeat (destruct H as [H|H]; [try discriminate; inversion H; reflexivity|]).
  contradiction.
Qed.

(** What lines 163-295 add to the trace and leave of the plugin. *)
Lemma from_odometry_shape tf world scan s1 o1 :
  exists rest,
    snd (from_odometry tf world scan s1 o1) = o1 ++ rest
    /\ existsb is_seed rest = false
    /\ filter is_calibration rest = []
    /\ (forall w sc, In (CallUpdateWeights w sc) rest -> sc = scan)
    /\ (List.length (filter is_sensor_update rest) <= 1)%nat
    /\ (skipped rest = true ->
        particle_filter_ (fst (from_odometry tf world scan s1 o1))
        = particle_filter_ s1).
Proof.
  assert (Hfin : forall odom mv s2 o2 pre,
             particle_filter_ s2 = particle_filter_ s1 ->
             o2 = o1 ++ pre ->
             existsb is_seed pre = false -> filter is_calibration pre = [] ->
             filter is_sensor_update pre = [] -> skipped pre = true ->
             exists rest,
               snd (finish_cycle world scan odom mv s2 o2) = o1 ++ rest
               /\ existsb is_seed rest = false
               /\ filter is_calibration rest = []
               /\ (forall w sc, In (CallUpdateWeights w sc) rest -> sc = scan)
               /\ (List.length (filter is_sensor_update rest) <= 1)%nat
               /\ (skipped rest = true ->
                   particle_filter_ (fst (finish_cycle world scan odom mv s2 o2))
                   = particle_filter_ s1)).
  { intros odom mv s2 o2 pre Hpf Ho Hs Hc Hu Hk. subst o2. unfold finish_cycle.
    destruct (empty (samples (particle_filter_ s2))).
    - exists pre. simpl. rewrite Hu. repeat split; auto; try (simpl; lia).
      intros w sc Hin.
      assert (In (CallUpdateWeights w sc) (filter is_sensor_update pre))
        by (apply filter_In; split; [assumption|reflexivity]).
      rewrite Hu in H. contradiction.
    - exists (pre ++ update_calls world scan odom mv s2).
      destruct (update_calls_shape world scan odom mv s2) as (Us & Uc & Uw & Ul).
      simpl fst; simpl snd.
      rewrite app_assoc, existsb_app, !filter_app, Hs, Hc, Hu, Us, Uc.
      repeat split; auto.
      + intros w sc Hin. apply in_app_or in Hin. destruct Hin as [Hin|Hin].
        * assert (In (CallUpdateWeights w sc) (filter is_sensor_update pre))
            by (apply filter_In; split; [assumption|reflexivity]).
          rewrite Hu in H. contradiction.
        * eapply Uw; eassumption.
      + intros Hsk. rewrite skipped_app, skipped_update_calls, andb_false_r in Hsk.
        discriminate. }
  unfold from_odometry.
  destruct (odom_wait tf s1 scan).
  - destruct (odom_lookup tf s1 scan) as [t|what].
    + apply (Hfin _ _ _ _ []); try reflexivity.
      rewrite app_nil_r. reflexivity.
    + destruct (have_previous_pose_ s1).
      * apply (Hfin _ _ _ _ [StdCout (ed_localization_says what)]); reflexivity.
      * exists [StdCout (ed_localization_says what)]. simpl. repeat split; auto.
        intros w sc [H|[]]. discriminate.
  - eexists. simpl. repeat split; auto.
    intros w sc [H|[]]. discriminate.
Qed.

(** The fields that lines 163-295 never write, and the flag they only
    ever raise. *)
Lemma from_odometry_fields tf world scan s1 o1 :
  laser_offset_initialized_ (fst (from_odometry tf world scan s1 o1))
  = laser_offset_initialized_ s1
  /\ base_link_frame_id_ (fst (from_odometry tf world scan s1 o1))
     = base_link_frame_id_ s1
  /\ odom_frame_id_ (fst (from_odometry tf world scan s1 o1)) = odom_frame_id_ s1
  /\ map_frame_id_ (fst (from_odometry tf world scan s1 o1)) = map_frame_id_ s1
  /\ num_particles_ (fst (from_odometry tf world scan s1 o1)) = num_particles_ s1
  /\ cb_queue_ (fst (from_odometry tf world scan s1 o1)) = cb_queue_ s1
  /\ (have_previous_pose_ s1 = true ->
      have_previous_pose_ (fst (from_odometry tf world scan s1 o1)) = true).
Proof.
  unfold from_odometry, finish_cycle.
  destruct (odom_wait tf s1 scan); [|repeat split; auto].
  destruct (odom_lookup tf s1 scan) as [t|what].
  - destruct (empty (samples (particle_filter_ (booked (convert_from_tf t) s1))));
      destruct s1; repeat split; auto.
  - destruct (have_previous_pose_ s1) eqn:Hp; [|repeat split; auto; congruence].
    destruct (empty (samples (particle_filter_ s1)));
      destruct s1; repeat split; auto.
Qed.

(** The trace of a cycle: the seeding call of the pose reset, if any,
    then everything else. *)
Lemma run_process_shape tf world s :
  exists tail,
    snd (run_process tf world s) = seed_calls s ++ tail
    /\ existsb is_seed tail = false
    /\ (forall w sc, In (CallUpdateWeights w sc) tail ->
                     latest_laser (cb_queue_ s) None = Some sc)
    /\ (List.length (filter is_sensor_update tail) <= 1)%nat
    /\ (latest_laser (cb_queue_ s) None = None -> tail = [])
    /\ (skipped tail = true ->
        particle_filter_ (fst (run_process tf world s)) = after_pose_reset s).
Proof.
  rewrite run_process_cases.
  destruct (latest_laser (cb_queue_ s) None) as [scan|].
  2:{ exists []. rewrite app_nil_r. simpl. to_start.
      repeat split; auto. intros w sc []. }
  assert (Hgo : forall s1 cal,
             particle_filter_ s1 = after_pose_reset s ->
             existsb is_seed cal = false -> filter is_sensor_update cal = [] ->
             exists tail,
               snd (from_odometry tf world scan s1 (seed_calls s ++ cal))
               = seed_calls s ++ tail
               /\ existsb is_seed tail = false
               /\ (forall w sc, In (CallUpdateWeights w sc) tail -> Some scan = Some sc)
               /\ (List.length (filter is_sensor_update tail) <= 1)%nat
               /\ (Some scan = None -> tail = [])
               /\ (skipped tail = true ->
                   particle_filter_
                     (fst (from_odometry tf world scan s1 (seed_calls s ++ cal)))
                   = after_pose_reset s)).
  { intros s1 cal Hpf Hs Hu.
    destruct (from_odometry_shape tf world scan s1 (seed_calls s ++ cal))
      as (rest & Hr & Rs & _ & Rw & Rl & Rk).
    exists (cal ++ rest). rewrite Hr, <- app_assoc, existsb_app, filter_app, Hs, Rs, Hu.
    repeat split; auto.
    - intros w sc Hin. apply in_app_or in Hin. destruct Hin as [Hin|Hin].
      + assert (In (CallUpdateWeights w sc) (filter is_sensor_update cal))
          by (apply filter_In; split; [assumption|reflexivity]).
        rewrite Hu in H. contradiction.
      + f_equal. symmetry. eapply Rw; eassumption.
    - discriminate.
    - intros Hk. rewrite skipped_app in Hk. apply andb_true_iff in Hk.
      rewrite Rk, Hpf; tauto. }
  destruct (laser_offset_initialized_ s).
  - destruct (Hgo (drained s) []) as (tail & Ht & H); try reflexivity.
    rewrite app_nil_r in Ht. exists tail. rewrite Ht. rewrite app_nil_r in H.
    split; [reflexivity|exact H].
  - destruct (laser_wait tf s scan).
    + destruct (laser_lookup tf s scan) as [p|what].
      * apply Hgo; reflexivity.
      * eexists. simpl. to_start. repeat split; auto; try discriminate.
        intros w sc [H|[]]. discriminate.
    + eexists. simpl. to_start. repeat split; auto; try discriminate.
      intros w sc [H|[]]. discriminate.
Qed.

(** *** Across cycles *)

Lemma fields_deliver msgs s :
  cb_queue_ (deliver msgs s) = cb_queue_ s ++ msgs
  /\ particle_filter_ (deliver msgs s) = particle_filter_ s
  /\ have_previous_pose_ (deliver msgs s) = have_previous_pose_ s
  /\ previous_pose_ (deliver msgs s) = previous_pose_ s
  /\ laser_offset_initialized_ (deliver msgs s) = laser_offset_initialized_ s
  /\ base_link_frame_id_ (deliver msgs s) = base_link_frame_id_ s.
Proof. destruct s; repeat split. Qed.

(** What no cycle ever writes, and the two flags no cycle ever lowers. *)
Lemma run_process_fields tf world s :
  base_link_frame_id_ (fst (run_process tf world s)) = base_link_frame_id_ s
  /\ cb_queue_ (fst (run_process tf world s)) = []
  /\ (laser_offset_initialized_ s = true ->
      laser_offset_initialized_ (fst (run_process tf world s)) = true)
  /\ (have_previous_pose_ s = true ->
      have_previous_pose_ (fst (run_process tf world s)) = true).
Proof.
  rewrite run_process_cases.
  assert (Hgo : forall scan s1 o1,
             base_link_frame_id_ s1 = base_link_frame_id_ s ->
             cb_queue_ s1 = [] ->
             laser_offset_initialized_ s1 = true ->
             have_previous_pose_ s1 = have_previous_pose_ s ->
             base_link_frame_id_ (fst (from_odometry tf world scan s1 o1))
             = base_link_frame_id_ s
             /\ cb_queue_ (fst (from_odometry tf world scan s1 o1)) = []
             /\ (laser_offset_initialized_ s = true ->
                 laser_offset_initialized_ (fst (from_odometry tf world scan s1 o1))
                 = true)
             /\ (have_previous_pose_ s = true ->
                 have_previous_pose_ (fst (from_odometry tf world scan s1 o1)) = true)).
  { intros scan s1 o1 Hb Hq Hl Hp.
    destruct (from_odometry_fields tf world scan s1 o1)
      as (Fl & Fb & _ & _ & _ & Fq & Fp).
    rewrite Fl, Fb, Fq, Hb, Hq, Hl. repeat split; auto.
    intros H. apply Fp. congruence. }
  destruct (latest_laser (cb_queue_ s) None) as [scan|].
  - destruct (laser_offset_initialized_ s) eqn:Hl.
    + apply Hgo; to_start; auto.
    + destruct (laser_wait tf s scan).
      * destruct (laser_lookup tf s scan) as [p|what].
        -- destruct (Hgo scan (calibrated p (drained s))
                       (seed_calls s ++ [CallSetLaserOffset (laser_offset_of p)
                                                            (laser_height_of p)]))
             as (Gb & Gq & _ & Gp); to_start; auto.
        -- simpl. to_start. repeat split; auto; discriminate.
      * simpl. to_start. repeat split; auto; discriminate.
  - simpl. to_start. repeat split; auto.
Qed.

Lemma filter_calibration_seed_calls s : filter is_calibration (seed_calls s) = [].
Proof. unfold seed_calls. destruct (latest_pose (cb_queue_ s) None); reflexivity. Qed.

(** One cycle and the mounting offset. *)
Lemma run_process_calibration tf world s :
  if laser_offset_initialized_ s
  then laser_offset_initialized_ (fst (run_process tf world s)) = true
       /\ filter is_calibration (snd (run_process tf world s)) = []
  else match offset_lookup tf (base_link_frame_id_ s) (cb_queue_ s) with
       | Some p_laser =>
           laser_offset_initialized_ (fst (run_process tf world s)) = true
           /\ filter is_calibration (snd (run_process tf world s)) =
                [CallSetLaserOffset (laser_offset_of p_laser)
                                    (laser_height_of p_laser)]
       | None =>
           laser_offset_initialized_ (fst (run_process tf world s)) = false
           /\ waiting (snd (run_process tf world s))
       end.
Proof.
  pose proof (skipped_seed_calls s) as Hseed.
  pose proof (filter_calibration_seed_calls s) as Hcal.
  rewrite run_process_cases. unfold offset_lookup.
  destruct (laser_offset_initialized_ s) eqn:Hl.
  - destruct (latest_laser (cb_queue_ s) None) as [scan|].
    + destruct (from_odometry_shape tf world scan (drained s) (seed_calls s))
        as (rest & Hr & _ & Rc & _).
      destruct (from_odometry_fields tf world scan (drained s) (seed_calls s))
        as (Fl & _).
      rewrite Fl, Hr, filter_app, Hcal, Rc. to_start. auto.
    + simpl. to_start. auto.
  - destruct (latest_laser (cb_queue_ s) None) as [scan|].
    + unfold laser_wait, laser_lookup.
      destruct (waitForTransform tf (base_link_frame_id_ s) (frame_id (header scan))
                                 (stamp (header scan)) 1.0).
      * destruct (lookupTransform tf (base_link_frame_id_ s) (frame_id (header scan))
                                  (stamp (header scan))) as [p|what].
        -- destruct (from_odometry_shape tf world scan (calibrated p (drained s))
                       (seed_calls s ++ [CallSetLaserOffset (laser_offset_of p)
                                                            (laser_height_of p)]))
             as (rest & Hr & _ & Rc & _).
           destruct (from_odometry_fields tf world scan (calibrated p (drained s))
                       (seed_calls s ++ [CallSetLaserOffset (laser_offset_of p)
                                                            (laser_height_of p)]))
             as (Fl & _).
           rewrite Fl, Hr, !filter_app, Hcal, Rc. to_start. auto.
        -- simpl. to_start. unfold waiting.
           rewrite skipped_app, Hseed, filter_app, Hcal. auto.
      * simpl. to_start. unfold waiting.
        rewrite skipped_app, Hseed, filter_app, Hcal. auto.
    + simpl. to_start. unfold waiting. auto.
Qed.

Lemma run_cons c cs s :
  run (c :: cs) s =
  (fst (run cs (fst (cycle c s))), snd (cycle c s) :: snd (run cs (fst (cycle c s)))).
Proof.
  simpl. destruct (cycle c s) as [s1 out]. simpl.
  destruct (run cs s1) as [s2 outs]. reflexivity.
Qed.

Lemma cycle_fields c s :
  base_link_frame_id_ (fst (cycle c s)) = base_link_frame_id_ s
  /\ cb_queue_ (fst (cycle c s)) = []
  /\ (laser_offset_initialized_ s = true ->
      laser_offset_initialized_ (fst (cycle c s)) = true)
  /\ (have_previous_pose_ s = true -> have_previous_pose_ (fst (cycle c s)) = true).
Proof.
  unfold cycle.
  destruct (run_process_fields (tf_listener_ c) (data_world c) (deliver (arrivals c) s))
    as (Hb & Hq & Hl & Hp).
  destruct (fields_deliver (arrivals c) s) as (_ & _ & Dp & _ & Dl & Db).
  rewrite Hb, Hq, Db, <- Dl, <- Dp. repeat split; auto.
Qed.

(** Once the offset is stored, no cycle calibrates again. *)
Lemma run_calibrated cs s :
  laser_offset_initialized_ s = true ->
  laser_offset_initialized_ (fst (run cs s)) = true
  /\ Forall (fun o => filter is_calibration o = []) (snd (run cs s)).
Proof.
  revert s. induction cs as [|c cs IH]; intros s Hl.
  - simpl. auto.
  - rewrite run_cons. simpl.
    destruct (cycle_fields c s) as (_ & _ & Cl & _).
    destruct (IH (fst (cycle c s)) (Cl Hl)) as [IHl IHf].
    split; [assumption|]. constructor; [|assumption].
    unfold cycle.
    pose proof (run_process_calibration (tf_listener_ c) (data_world c)
                  (deliver (arrivals c) s)) as Hc.
    destruct (fields_deliver (arrivals c) s) as (_ & _ & _ & _ & Dl & _).
    rewrite Dl, Hl in Hc. tauto.
Qed.

Lemma run_have_previous cs s :
  have_previous_pose_ s = true -> have_previous_pose_ (fst (run cs s)) = true.
Proof.
  revert s. induction cs as [|c cs IH]; intros s Hp; [assumption|].
  rewrite run_cons. simpl. apply IH. apply cycle_fields. assumption.
Qed.

(** *** Seeding at start-up *)

(** Lines 80-93 of [initialize]: an initial pose in the configuration
    seeds the particle filter over the same region as a pose reset. *)
Lemma initialize_seeds_region init s x y rz :
  hasError init = false ->
  cfg_initial_pose init = Some (x, y, rz) ->
  match initialize init s with
  | (_, s', out) =>
      particle_filter_ s' = seeded (mkVec2 x y) rz (particle_filter_ s)
      /\ filter is_seed out = [seed_call (mkVec2 x y) rz]
  end.
Proof.
  intros Herr Hpose. unfold initialize, hasError in *. rewrite Hpose.
  destruct s as [q lm hp pp ip lo mf odf bf pf om lsm n].
  destruct (cfg_odom_group init) as [og|]; [|discriminate].
  destruct (cfg_laser_group init) as [lg|]; [|discriminate].
  destruct (cfg_num_particles init) as [np|]; [|discriminate].
  destruct (cfg_initial_pose_topic init); split; reflexivity.
Qed.

(** *** Claims *)

(** C1 as amended.  A cycle for which the odometry transform cannot be
    obtained is skipped when the wait for the transform times out, or
    when the lookup throws and no earlier odometry pose is remembered:
    then no motion, sensor or resample stage runs, nothing is published,
    the odometry bookkeeping is untouched, and the particle set is the
    one the pose reset at the start of the cycle left, which is the
    prior set when no initial pose arrived.  When the lookup throws and
    an earlier pose is remembered, the cycle is not skipped for want of
    odometry: it goes on from line 215 with the remembered pose and an
    identity movement.  It is then skipped exactly when the mounting
    offset is not at hand or the particle set is empty; otherwise the
    four stages run, the motion update with the identity, and the
    estimate is broadcast against the remembered pose.  Either way the
    remembered pose stays as it is. *)
Theorem C1_unavailable_odometry tf world s scan :
  latest_laser (cb_queue_ s) None = Some scan ->
  odom_unavailable tf s scan = true ->
  if odom_lost tf s scan
  then
    skipped (snd (run_process tf world s)) = true
    /\ particle_filter_ (fst (run_process tf world s)) = after_pose_reset s
    /\ (latest_pose (cb_queue_ s) None = None ->
        particle_filter_ (fst (run_process tf world s)) = particle_filter_ s)
    /\ have_previous_pose_ (fst (run_process tf world s)) = have_previous_pose_ s
    /\ previous_pose_ (fst (run_process tf world s)) = previous_pose_ s
  else
    exists what,
      odom_lookup tf s scan = TransformException what
      /\ have_previous_pose_ s = true
      /\ (forall s1 o1,
           acquire_scan tf s = (Next scan, s1, o1) ->
           run_process tf world s =
             finish_cycle world scan (previous_pose_ s)
               (Transform_set Transform2_identity) s1
               (o1 ++ [StdCout (ed_localization_says what)]))
      /\ skipped (snd (run_process tf world s))
         = negb (offset_at_hand tf s scan) || empty (samples (after_pose_reset s))
      /\ (skipped (snd (run_process tf world s)) = false ->
          filter is_filter_stage (snd (run_process tf world s)) =
            [ CallUpdatePoses (Transform_set Transform2_identity) 0%Z;
              CallUpdateWeights world scan;
              CallResample (num_particles_ s);
              CallCalculateMeanPose ]
          /\ In (SendTransform
                   (map_to_odom_tf (map_frame_id_ s) (odom_frame_id_ s)
                      (stamp (header scan))
                      (calculateMeanPose
                         (particle_filter_ (fst (run_process tf world s))))
                      (previous_pose_ s)))
                (snd (run_process tf world s)))
      /\ have_previous_pose_ (fst (run_process tf world s)) = true
      /\ previous_pose_ (fst (run_process tf world s)) = previous_pose_ s.
Proof.
  intros Hl Hun.
  destruct (odom_lost tf s scan) eqn:Hlost.
  - assert (Hreset : latest_pose (cb_queue_ s) None = None ->
                     after_pose_reset s = particle_filter_ s).
    { intros Hn. unfold after_pose_reset. rewrite Hn. reflexivity. }
    assert (Hodo : forall s1 o1,
               skipped o1 = true ->
               odom_wait tf s1 scan = odom_wait tf s scan ->
               odom_lookup tf s1 scan = odom_lookup tf s scan ->
               have_previous_pose_ s1 = have_previous_pose_ s ->
               skipped (snd (from_odometry tf world scan s1 o1)) = true
               /\ fst (from_odometry tf world scan s1 o1) = s1).
    { intros s1 o1 Ho Hw Hlk Hp. unfold from_odometry. rewrite Hw, Hlk, Hp.
      unfold odom_lost in Hlost.
      destruct (odom_wait tf s scan); simpl in Hlost.
      - destruct (odom_lookup tf s scan) as [t|what]; simpl in Hlost; [discriminate|].
        destruct (have_previous_pose_ s); simpl in Hlost; [discriminate|].
        simpl. rewrite skipped_app, Ho. auto.
      - simpl. rewrite skipped_app, Ho. auto. }
    pose proof (skipped_seed_calls s) as Hseed.
    rewrite run_process_cases, Hl.
    destruct (laser_offset_initialized_ s).
    + destruct (Hodo (drained s) (seed_calls s)) as [Hs Hf];
        [assumption|to_start; reflexivity..|].
      rewrite Hs, Hf. to_start. repeat split; auto.
    + destruct (laser_wait tf s scan).
      * destruct (laser_lookup tf s scan) as [p|what].
        -- destruct (Hodo (calibrated p (drained s))
                       (seed_calls s ++ [CallSetLaserOffset (laser_offset_of p)
                                                            (laser_height_of p)]))
             as [Hs Hf];
             [rewrite skipped_app, Hseed; reflexivity|to_start; reflexivity..|].
           rewrite Hs, Hf. to_start. repeat split; auto.
        -- simpl. rewrite skipped_app, Hseed. to_start. repeat split; auto.
      * simpl. rewrite skipped_app, Hseed. to_start. repeat split; auto.
  - unfold odom_unavailable in Hun. unfold odom_lost in Hlost.
    destruct (odom_wait tf s scan) eqn:Hw; simpl in Hun, Hlost; [|discriminate].
    destruct (odom_lookup tf s scan) as [t|what] eqn:Hlk; simpl in Hun, Hlost;
      [discriminate|].
    destruct (have_previous_pose_ s) eqn:Hp; simpl in Hlost; [|discriminate].
    exists what. split; [reflexivity|]. split; [reflexivity|]. split.
    { intros s1 o1 Hacq. rewrite process_from_odometry, Hacq.
      apply acquire_scan_quiet in Hacq.
      destruct Hacq as (_ & _ & _ & Hhp & Hpp & _ & Hof & Hbf & _).
      unfold from_odometry.
      replace (odom_wait tf s1 scan) with true
        by (unfold odom_wait in *; rewrite Hof, Hbf; symmetry; assumption).
      replace (odom_lookup tf s1 scan) with (TransformException what)
        by (unfold odom_lookup in *; rewrite Hof, Hbf; symmetry; assumption).
      rewrite Hhp, Hpp, Hp. reflexivity. }
    pose proof (skipped_seed_calls s) as Hseed.
    assert (Hgo : forall s1 o1,
               skipped o1 = true ->
               odom_wait tf s1 scan = true ->
               odom_lookup tf s1 scan = TransformException what ->
               have_previous_pose_ s1 = true ->
               previous_pose_ s1 = previous_pose_ s ->
               particle_filter_ s1 = after_pose_reset s ->
               num_particles_ s1 = num_particles_ s ->
               map_frame_id_ s1 = map_frame_id_ s ->
               odom_frame_id_ s1 = odom_frame_id_ s ->
               let r := from_odometry tf world scan s1 o1 in
               skipped (snd r) = empty (samples (after_pose_reset s))
               /\ (skipped (snd r) = false ->
                   filter is_filter_stage (snd r) =
                     [ CallUpdatePoses (Transform_set Transform2_identity) 0%Z;
                       CallUpdateWeights world scan;
                       CallResample (num_particles_ s);
                       CallCalculateMeanPose ]
                   /\ In (SendTransform
                            (map_to_odom_tf (map_frame_id_ s) (odom_frame_id_ s)
                               (stamp (header scan))
                               (calculateMeanPose (particle_filter_ (fst r)))
                               (previous_pose_ s)))
                         (snd r))
               /\ have_previous_pose_ (fst r) = true
               /\ previous_pose_ (fst r) = previous_pose_ s).
    { intros s1 o1 Ho Hw1 Hlk1 Hp1 Hpp1 Hpf1 Hn1 Hmf1 Hof1.
      unfold from_odometry, finish_cycle. rewrite Hw1, Hlk1, Hp1, Hpp1, Hpf1.
      destruct (empty (samples (after_pose_reset s))) eqn:Hem;
        cbv beta iota zeta delta [fst snd].
      - rewrite skipped_app, Ho. split; [reflexivity|].
        split; [intros; discriminate|split; assumption].
      - rewrite !skipped_app, Ho. to_start. split; [reflexivity|].
        split; [|split; assumption]. intros _. split.
        + rewrite !filter_app, (skipped_no_filter_stage _ Ho). simpl.
          rewrite Hn1. reflexivity.
        + apply in_or_app. right. unfold update_calls.
          rewrite Hmf1, Hof1. simpl. auto 10. }
    rewrite run_process_cases, Hl. unfold offset_at_hand.
    destruct (laser_offset_initialized_ s) eqn:Hflag.
    + apply Hgo; to_start; auto.
    + destruct (laser_wait tf s scan).
      * destruct (laser_lookup tf s scan) as [p|what'].
        -- apply Hgo; to_start; auto. rewrite skipped_app, Hseed. reflexivity.
        -- simpl. rewrite skipped_app, Hseed. to_start.
           split; [reflexivity|]. split; [intros; discriminate|split; auto].
      * simpl. rewrite skipped_app, Hseed. to_start.
        split; [reflexivity|]. split; [intros; discriminate|split; auto].
Qed.

(** C3.  A cycle whose inputs are there (the input part of [process]
    falls through with a scan, the odometry pose and the movement) and
    whose particle set is not empty runs exactly: the motion update, the
    sensor update, resampling with [num_particles_], the mean pose; in
    that order, each on the whole result of the one before, and all of
    them before [process] returns. *)
Theorem C3_stages_in_fixed_order tf world s scan odom movement s1 o1 :
  acquire_inputs tf s = (Next (scan, (odom, movement)), s1, o1) ->
  samples (particle_filter_ s1) <> [] ->
  process tf world s =
    (Next tt, updated world scan movement s1,
     o1 ++ update_calls world scan odom movement s1)
  /\ filter is_filter_stage (o1 ++ update_calls world scan odom movement s1) =
       [ CallUpdatePoses movement 0%Z;
         CallUpdateWeights world scan;
         CallResample (num_particles_ s);
         CallCalculateMeanPose ]
  /\ particle_filter_ (updated world scan movement s1) =
       resample (num_particles_ s)
         (snd (updateWeights world scan (laser_model_ s1)
                 (snd (updatePoses movement 0%Z (odom_model_ s1)
                         (particle_filter_ s1)))))
  /\ In (SendTransform
           (map_to_odom_tf (map_frame_id_ s) (odom_frame_id_ s) (stamp (header scan))
              (calculateMeanPose (particle_filter_ (updated world scan movement s1)))
              odom))
        (o1 ++ update_calls world scan odom movement s1).
Proof.
  intros Hin Hne.
  pose proof (acquire_inputs_quiet _ _ _ _ _ Hin) as (Hq & _ & Hn & _ & Hof & Hmf).
  split; [|split; [|split]].
  - rewrite process_cases, Hin, (nonempty_not_empty _ Hne). reflexivity.
  - rewrite filter_app, (skipped_no_filter_stage _ Hq). simpl. rewrite Hn. reflexivity.
  - to_start. unfold resampled, weighted, moved. rewrite Hn. reflexivity.
  - apply in_or_app. right. to_start. unfold update_calls.
    rewrite Hmf, Hof. simpl. auto 10.
Qed.

(** Lines 215-295 with a resampler that may throw, as a decision tree. *)
Lemma update_and_publish_or_throw_cases non_finite world scan odom movement s :
  update_and_publish_or_throw non_finite world scan odom movement s =
  if empty (samples (particle_filter_ s)) then (inl Return, s, [])
  else if degenerate non_finite (snd (weighted world scan movement s))
  then (inr DegenerateWeights, reweighted world scan movement s,
        [ CallUpdatePoses movement 0%Z;
          CallUpdateWeights world scan;
          CallResample (num_particles_ s) ])
  else (inl (Next tt), updated world scan movement s,
        update_calls world scan odom movement s).
Proof.
  destruct s as [q lm hp pp ip lo mf odf bf pf om lsm n].
  cbv beta iota zeta delta
    [update_and_publish_or_throw do_resample_or_throw bind_throwing no_throw throw
     resample_or_throw reweighted].
  run_method.
  destruct (empty (samples pf)); [reflexivity|].
  match goal with
  | |- context [degenerate non_finite ?x] => destruct (degenerate non_finite x)
  end; reflexivity.
Qed.

Lemma process_or_throw_cases non_finite tf world s :
  process_or_throw non_finite tf world s =
  match acquire_inputs tf s with
  | (Next (scan, (odom, movement)), s1, o1) =>
      if empty (samples (particle_filter_ s1)) then (inl Return, s1, o1)
      else if degenerate non_finite (snd (weighted world scan movement s1))
      then (inr DegenerateWeights, reweighted world scan movement s1,
            o1 ++ [ CallUpdatePoses movement 0%Z;
                    CallUpdateWeights world scan;
                    CallResample (num_particles_ s1) ])
      else (inl (Next tt), updated world scan movement s1,
            o1 ++ update_calls world scan odom movement s1)
  | (Return, s1, o1) => (inl Return, s1, o1)
  end.
Proof.
  unfold process_or_throw, bind_throwing at 1, no_throw at 1.
  destruct (acquire_inputs tf s) as [[[[scan [odom movement]]|] s1] o1]; [|reflexivity].
  cbn [fst snd].
  rewrite update_and_publish_or_throw_cases.
  destruct (empty (samples (particle_filter_ s1))); [rewrite app_nil_r; reflexivity|].
  destruct (degenerate non_finite (snd (weighted world scan movement s1)));
    reflexivity.
Qed.

(** On weights that are not degenerate the resampler returns, and
    [process] with it is [process]. *)
Lemma process_or_throw_agrees non_finite tf world s :
  (forall scan odom movement s1 o1,
     acquire_inputs tf s = (Next (scan, (odom, movement)), s1, o1) ->
     degenerate non_finite (snd (weighted world scan movement s1)) = false) ->
  process_or_throw non_finite tf world s = no_throw (process tf world) s.
Proof.
  intros Hhealthy. unfold no_throw.
  rewrite process_or_throw_cases, process_cases.
  destruct (acquire_inputs tf s) as [[[[scan [odom movement]]|] s1] o1] eqn:Hin;
    [|reflexivity].
  rewrite (Hhealthy scan odom movement s1 o1 eq_refl).
  destruct (empty (samples (particle_filter_ s1))); reflexivity.
Qed.



Lemma skipped_In out e : skipped out = true -> In e out -> is_stage e = false.
Proof.
  unfold skipped. intros H Hin. apply negb_true_iff in H.
  destruct (is_stage e) eqn:He; [|reflexivity].
  assert (existsb is_stage out = true)
    by (apply existsb_exists; exists e; split; assumption).
  congruence.
Qed.



(** C6.  An update cycle on an empty particle set does nothing: when the
    set that the cycle would update (the set after the pose reset of
    lines 114-124, which is the stored set when no initial pose arrived)
    is empty, [process] returns without running the motion, sensor or
    resample stage and without producing a pose estimate, and the set
    stays as it is. *)
Theorem C6_empty_set_is_a_no_op tf world s :
  samples (after_pose_reset s) = [] ->
  skipped (snd (run_process tf world s)) = true
  /\ existsb is_estimate (snd (run_process tf world s)) = false
  /\ particle_filter_ (fst (run_process tf world s)) = after_pose_reset s.
Proof.
  intros Hempty.
  assert (Hskip : skipped (snd (run_process tf world s)) = true
                  /\ particle_filter_ (fst (run_process tf world s)) = after_pose_reset s).
  { rewrite run_process_cases.
    assert (Hfin : forall scan odom mv s1 o1,
               particle_filter_ s1 = after_pose_reset s -> skipped o1 = true ->
               skipped (snd (finish_cycle world scan odom mv s1 o1)) = true
               /\ particle_filter_ (fst (finish_cycle world scan odom mv s1 o1))
                  = after_pose_reset s).
    { intros scan odom mv s1 o1 Hpf Ho. unfold finish_cycle.
      rewrite Hpf, Hempty. simpl. auto. }
    assert (Hodo : forall scan s1 o1,
               particle_filter_ s1 = after_pose_reset s -> skipped o1 = true ->
               skipped (snd (from_odometry tf world scan s1 o1)) = true
               /\ particle_filter_ (fst (from_odometry tf world scan s1 o1))
                  = after_pose_reset s).
    { intros scan s1 o1 Hpf Ho. unfold from_odometry.
      destruct (odom_wait tf s1 scan).
      - destruct (odom_lookup tf s1 scan) as [t|what].
        + apply Hfin; [|assumption]. to_start. assumption.
        + destruct (have_previous_pose_ s1).
          * apply Hfin; [assumption|]. rewrite skipped_app, Ho. reflexivity.
          * simpl. rewrite skipped_app, Ho. auto.
      - simpl. rewrite skipped_app, Ho. auto. }
    pose proof (skipped_seed_calls s) as Hseed.
    destruct (latest_laser (cb_queue_ s) None) as [scan|].
    - destruct (laser_offset_initialized_ s).
      + apply Hodo; [|assumption]. to_start. reflexivity.
      + destruct (laser_wait tf s scan).
        * destruct (laser_lookup tf s scan) as [p|what].
          -- apply Hodo; [|rewrite skipped_app, Hseed; reflexivity].
             to_start. reflexivity.
          -- simpl. rewrite skipped_app, Hseed. to_start. auto.
        * simpl. rewrite skipped_app, Hseed. to_start. auto.
    - simpl. to_start. auto. }
  destruct Hskip as [Hs Hpf]. repeat split; try assumption.
  unfold skipped, is_stage in Hs.
  apply negb_true_iff in Hs.
  induction (snd (run_process tf world s)) as [|e l IH]; [reflexivity|].
  simpl in *. apply orb_false_iff in Hs. destruct Hs as [He Hl].
  apply orb_false_iff in He. destruct He as [_ He]. rewrite He. simpl. auto.
Qed.

(** C9.  An initial pose that arrived since the previous cycle is
    applied first thing: the seeding call opens the trace of the cycle,
    ahead of every check (laser scan present, mounting offset, odometry)
    and whatever these report, it is the only seeding call, and when the
    rest of the cycle is skipped the particle filter is left re-seeded. *)
Theorem C9_pose_reset_precedes_checks tf world s msg :
  latest_pose (cb_queue_ s) None = Some msg ->
  exists rest,
    snd (run_process tf world s) = seed_call (pose_xy msg) (pose_yaw msg) :: rest
    /\ existsb is_seed rest = false
    /\ (skipped (snd (run_process tf world s)) = true ->
        particle_filter_ (fst (run_process tf world s))
        = seeded (pose_xy msg) (pose_yaw msg) (particle_filter_ s)).
Proof.
  intros Hm.
  destruct (run_process_shape tf world s) as (tail & Ht & Hs & _ & _ & _ & Hk).
  unfold seed_calls in Ht. unfold after_pose_reset in Hk. rewrite Hm in Ht, Hk.
  exists tail. rewrite Ht. repeat split; auto.
Qed.

(** C5.  The initial pose that takes effect in a cycle is the last one
    queued before it.  It re-seeds the particle filter by one call of
    [initUniform] over the rectangle [x - 0.3, x + 0.3] by
    [y - 0.3, y + 0.3] and the headings [yaw - 0.1, yaw + 0.1], both at
    step 0.05; rectangle and interval are centered on the pose, with
    spread 0.3 and 0.1.  The set so seeded is the one the cycle goes on
    with, and, [initUniform] re-seeding the entire set, it owes nothing
    to the set before. *)
Theorem C5_last_pose_reseeds_region tf world s earlier msg later :
  cb_queue_ s = earlier ++ InitialPoseMsg msg :: later ->
  existsb is_initial_pose later = false ->
  let x := Vector3_x (position msg) in
  let y := Vector3_y (position msg) in
  let yaw := getYaw (orientation msg) in
  filter is_seed (snd (run_process tf world s)) =
    [ CallInitUniform (mkVec2 (x - 0.3) (y - 0.3)) (mkVec2 (x + 0.3) (y + 0.3)) 0.05
                      (yaw - 0.1) (yaw + 0.1) 0.05 ]
  /\ after_pose_reset s =
       initUniform (mkVec2 (x - 0.3) (y - 0.3)) (mkVec2 (x + 0.3) (y + 0.3)) 0.05
                   (yaw - 0.1) (yaw + 0.1) 0.05 (particle_filter_ s)
  /\ (forall r s1 o1, acquire_inputs tf s = (r, s1, o1) ->
                      particle_filter_ s1 = after_pose_reset s)
  /\ (center (x - 0.3) (x + 0.3) = x /\ spread (x - 0.3) (x + 0.3) = 0.3
      /\ center (y - 0.3) (y + 0.3) = y /\ spread (y - 0.3) (y + 0.3) = 0.3
      /\ center (yaw - 0.1) (yaw + 0.1) = yaw /\ spread (yaw - 0.1) (yaw + 0.1) = 0.1)
  /\ (reseeds_entire_set ->
      forall s', cb_queue_ s' = cb_queue_ s ->
                 samples (after_pose_reset s') = samples (after_pose_reset s)).
Proof.
  intros Hq Hlater x y yaw.
  assert (Hm : latest_pose (cb_queue_ s) None = Some msg).
  { rewrite Hq. apply latest_pose_last. assumption. }
  split; [|split; [|split; [|split]]].
  - destruct (run_process_shape tf world s) as (tail & Ht & Hs & _).
    unfold seed_calls in Ht. rewrite Hm in Ht. rewrite Ht. simpl.
    assert (Hf : filter is_seed tail = []).
    { clear Ht. induction tail as [|e l IH]; [reflexivity|].
      simpl in *. apply orb_false_iff in Hs. destruct Hs as [He Hl].
      rewrite He. auto. }
    rewrite Hf. reflexivity.
  - unfold after_pose_reset. rewrite Hm. reflexivity.
  - intros r s1 o1 Hin. apply acquire_inputs_quiet in Hin. tauto.
  - unfold center, spread. repeat split; lra.
  - intros Hre s' Hq'. unfold after_pose_reset. rewrite Hq', Hm. apply Hre.
Qed.

(** One cycle and the laser model. *)
Lemma run_process_laser_model tf world s :
  if laser_offset_initialized_ s
  then sensor_model_after (laser_model_ s)
         (laser_model_ (fst (run_process tf world s))) (snd (run_process tf world s))
  else match offset_lookup tf (base_link_frame_id_ s) (cb_queue_ s) with
       | Some p_laser =>
           sensor_model_after
             (setLaserOffset (laser_offset_of p_laser) (laser_height_of p_laser)
                             (laser_model_ s))
             (laser_model_ (fst (run_process tf world s)))
             (snd (run_process tf world s))
       | None => laser_model_ (fst (run_process tf world s)) = laser_model_ s
       end.
Proof.
  rewrite run_process_cases. unfold offset_lookup, laser_wait, laser_lookup.
  unfold from_odometry, finish_cycle, sensor_model_after.
  repeat match goal with
    | |- context [match ?x with _ => _ end] => destruct x eqn:?
    end;
    try discriminate;
    repeat match goal with
      | H : Some _ = Some _ |- _ => inversion H; subst; clear H
      end;
    unfold seed_calls; destruct (latest_pose (cb_queue_ s) None); simpl;
    try reflexivity;
    try (left; split; reflexivity);
    right; do 3 eexists; split; reflexivity.
Qed.

Lemma cycle_laser_model c s :
  cb_queue_ s = [] ->
  if laser_offset_initialized_ s
  then sensor_model_after (laser_model_ s)
         (laser_model_ (fst (cycle c s))) (snd (cycle c s))
  else match offset_lookup (tf_listener_ c) (base_link_frame_id_ s) (arrivals c) with
       | Some p_laser =>
           sensor_model_after
             (setLaserOffset (laser_offset_of p_laser) (laser_height_of p_laser)
                             (laser_model_ s))
             (laser_model_ (fst (cycle c s))) (snd (cycle c s))
       | None => laser_model_ (fst (cycle c s)) = laser_model_ s
       end.
Proof.
  intros Hq.
  pose proof (run_process_laser_model (tf_listener_ c) (data_world c)
                (deliver (arrivals c) s)) as H.
  destruct (fields_deliver (arrivals c) s) as (Dq & _ & _ & _ & Dl & Db).
  assert (Dm : laser_model_ (deliver (arrivals c) s) = laser_model_ s)
    by (destruct s; reflexivity).
  rewrite Dl, Db, Dq, Hq, app_nil_l, Dm in H. exact H.
Qed.

Lemma run_app cs1 cs2 s :
  fst (run (cs1 ++ cs2) s) = fst (run cs2 (fst (run cs1 s))).
Proof.
  revert s. induction cs1 as [|c cs1 IH]; intros s; [reflexivity|].
  rewrite <- app_comm_cons, !run_cons. simpl. apply IH.
Qed.

(** What a run keeps: the base link frame, an empty queue between
    cycles, and the offset flag once it is set. *)
Lemma run_fields cs s :
  cb_queue_ s = [] ->
  base_link_frame_id_ (fst (run cs s)) = base_link_frame_id_ s
  /\ cb_queue_ (fst (run cs s)) = []
  /\ (laser_offset_initialized_ s = true ->
      laser_offset_initialized_ (fst (run cs s)) = true).
Proof.
  revert s. induction cs as [|c cs IH]; intros s Hq; [simpl; auto|].
  rewrite run_cons. simpl.
  destruct (cycle_fields c s) as (Cb & Cq & Cl & _).
  destruct (IH (fst (cycle c s)) Cq) as (Ib & Iq & Il).
  rewrite Ib, Cb. auto.
Qed.

(** While no lookup of the offset succeeds, nothing touches the laser
    model. *)
Lemma run_unresolved cs s :
  laser_offset_initialized_ s = false ->
  cb_queue_ s = [] ->
  Forall (offset_unresolved (base_link_frame_id_ s)) cs ->
  laser_model_ (fst (run cs s)) = laser_model_ s
  /\ laser_offset_initialized_ (fst (run cs s)) = false.
Proof.
  revert s. induction cs as [|c cs IH]; intros s Hl Hq Hu; [simpl; auto|].
  inversion Hu as [|c0 cs0 Hc Hcs]; subst. unfold offset_unresolved in Hc.
  rewrite run_cons. simpl.
  destruct (cycle_fields c s) as (Cb & Cq & _ & _).
  destruct (fields_deliver (arrivals c) s) as (Dq & _ & _ & _ & Dl & Db).
  pose proof (cycle_laser_model c s Hq) as Hm. rewrite Hl, Hc in Hm.
  pose proof (run_process_calibration (tf_listener_ c) (data_world c)
                (deliver (arrivals c) s)) as Hf.
  rewrite Dl, Hl, Db, Dq, Hq, app_nil_l, Hc in Hf. fold (cycle c s) in Hf.
  destruct Hf as [Hl1 _].
  rewrite <- Cb in Hcs.
  destruct (IH (fst (cycle c s)) Hl1 Cq Hcs) as [Im Il].
  rewrite Im, Hm. auto.
Qed.

(** The laser model over a run that starts without the offset. *)
Lemma run_offset_handed_over cs s :
  laser_offset_initialized_ s = false ->
  cb_queue_ s = [] ->
  offset_handed_over cs s.
Proof.
  intros Hl Hq. split.
  - intros Hu. apply run_unresolved; assumption.
  - intros cs1 c cs2 p Ecs Hu Hlk.
    destruct (run_unresolved cs1 s Hl Hq Hu) as [Hm1 Hl1].
    destruct (run_fields cs1 s Hq) as (Hb1 & Hq1 & _).
    split; [assumption|]. split.
    + pose proof (cycle_laser_model c (fst (run cs1 s)) Hq1) as Hm.
      rewrite Hl1, Hb1, Hlk, Hm1 in Hm. exact Hm.
    + intros cs3 c' cs4 _.
      assert (Hflag : laser_offset_initialized_ (fst (run (cs1 ++ c :: cs3) s)) = true).
      { rewrite run_app, run_cons. simpl fst.
        pose proof (run_process_calibration (tf_listener_ c) (data_world c)
                      (deliver (arrivals c) (fst (run cs1 s)))) as Hf.
        destruct (fields_deliver (arrivals c) (fst (run cs1 s)))
          as (Dq & _ & _ & _ & Dl & Db).
        rewrite Dl, Hl1, Db, Dq, Hq1, app_nil_l, Hb1, Hlk in Hf.
        fold (cycle c (fst (run cs1 s))) in Hf. destruct Hf as [Hl2 _].
        destruct (cycle_fields c (fst (run cs1 s))) as (_ & Cq & _ & _).
        apply run_fields; assumption. }
      destruct (run_fields (cs1 ++ c :: cs3) s Hq) as (_ & Hq3 & _).
      pose proof (cycle_laser_model c' (fst (run (cs1 ++ c :: cs3) s)) Hq3) as Hm.
      rewrite Hflag in Hm. exact Hm.
Qed.

(** C4.  The mounting offset is resolved lazily, once.  Over any run
    that starts without it (and with nothing queued but what the cycles
    bring): either no cycle's lookup of the transform
    from the base link to the frame of its scan succeeds, the offset is
    never stored and every cycle is skipped; or the run splits around
    the first cycle whose lookup succeeds: every cycle before is
    skipped, this cycle computes the offset from the transform found and
    hands it to the laser model by its only call of [setLaserOffset],
    the flag is set, and no later cycle calibrates again.  The laser
    model itself follows: untouched before that cycle, given the offset
    in it ahead of any sensor update, and from then on only passed
    through the sensor updates, never given an offset again. *)
Theorem C4_offset_resolved_lazily_once cs s :
  laser_offset_initialized_ s = false ->
  cb_queue_ s = [] ->
  resolved_once (base_link_frame_id_ s) cs (snd (run cs s))
                (laser_offset_initialized_ (fst (run cs s)))
  /\ offset_handed_over cs s.
Proof.
  intros Hl0 Hq0. split; [|apply run_offset_handed_over; assumption].
  revert s Hl0 Hq0. induction cs as [|c cs IH]; intros s Hl Hq.
  - left. simpl. auto.
  - rewrite run_cons. simpl fst; simpl snd.
    destruct (cycle_fields c s) as (Cb & Cq & _ & _).
    destruct (fields_deliver (arrivals c) s) as (Dq & _ & _ & _ & Dl & Db).
    pose proof (run_process_calibration (tf_listener_ c) (data_world c)
                  (deliver (arrivals c) s)) as Hc.
    rewrite Dl, Hl, Db, Dq, Hq, app_nil_l in Hc. fold (cycle c s) in Hc.
    destruct (offset_lookup (tf_listener_ c) (base_link_frame_id_ s) (arrivals c))
      as [p|] eqn:Hlk.
    + destruct Hc as [Hl1 Hcal].
      right. exists [], c, cs, [], (snd (cycle c s)), (snd (run cs (fst (cycle c s)))), p.
      destruct (run_calibrated cs (fst (cycle c s)) Hl1) as [Rl Rf].
      simpl. repeat split; auto.
    + destruct Hc as [Hl1 Hw].
      specialize (IH (fst (cycle c s)) Hl1 Cq). rewrite Cb in IH.
      destruct IH as [(Hu & He & Hf)|(cs1 & c' & cs2 & outs1 & out & outs2 & p & IHx)].
      * left. split; [|split]; [|assumption|]; constructor; assumption.
      * destruct IHx as (Ecs & Eouts & Elen & Hu & Hlk' & He & Hf & Hcal & Hafter).
        right. exists (c :: cs1), c', cs2, (snd (cycle c s) :: outs1), out, outs2, p.
        subst cs. rewrite Eouts. simpl. repeat split; auto.
Qed.

(** C8.  Odometry is booked whatever becomes of the update.  In a cycle
    whose odometry lookup succeeds (the cycle has a scan, gets as far as
    line 176, and the lookup there returns a transform), the returned
    odom-to-base-link pose overwrites [previous_pose_] and
    [have_previous_pose_] is true afterwards, with nothing asked of the
    particle set, which may be empty, the stages skipped; the flag stays
    true over all later cycles; and a later cycle with a successful
    lookup and a non-empty particle set moves the particles by the delta
    between these two poses only. *)
Theorem C8_odometry_booked_before_update c s t :
  odom_lookup_succeeds (tf_listener_ c) (deliver (arrivals c) s) = Some t ->
  previous_pose_ (fst (cycle c s)) = convert_from_tf t
  /\ have_previous_pose_ (fst (cycle c s)) = true
  /\ (forall cs, have_previous_pose_ (fst (run cs (fst (cycle c s)))) = true)
  /\ (forall c2 t2,
        odom_lookup_succeeds (tf_listener_ c2)
                             (deliver (arrivals c2) (fst (cycle c s))) = Some t2 ->
        samples (after_pose_reset (deliver (arrivals c2) (fst (cycle c s)))) <> [] ->
        In (CallUpdatePoses (odom_delta (convert_from_tf t) (convert_from_tf t2)) 0%Z)
           (snd (cycle c2 (fst (cycle c s))))).
Proof.
  assert (Hbook : forall tf world s0 t0,
             odom_lookup_succeeds tf s0 = Some t0 ->
             previous_pose_ (fst (run_process tf world s0)) = convert_from_tf t0
             /\ have_previous_pose_ (fst (run_process tf world s0)) = true
             /\ (samples (after_pose_reset s0) <> [] ->
                 In (CallUpdatePoses (movement_of s0 (convert_from_tf t0)) 0%Z)
                    (snd (run_process tf world s0)))).
  { intros tf world s0 t0 H. unfold odom_lookup_succeeds in H.
    rewrite process_from_odometry.
    destruct (acquire_scan tf s0) as [[[scan|] s1] o1] eqn:Hacq; [|discriminate].
    apply acquire_scan_quiet in Hacq.
    destruct Hacq as (_ & Hpf & _ & Hhp & Hpp & _).
    unfold from_odometry, finish_cycle.
    destruct (odom_wait tf s1 scan); [|discriminate].
    destruct (odom_lookup tf s1 scan) as [t1|what]; [|discriminate].
    inversion H; subst t1; clear H.
    assert (Hpf' : particle_filter_ (booked (convert_from_tf t0) s1)
                   = after_pose_reset s0) by (rewrite <- Hpf; destruct s1; reflexivity).
    rewrite Hpf'.
    destruct (empty (samples (after_pose_reset s0))) eqn:Hem.
    - simpl. to_start. repeat split; auto.
      intros Hne. apply nonempty_not_empty in Hne. congruence.
    - simpl. to_start. repeat split; auto.
      intros _. apply in_or_app. right. left.
      unfold movement_of. rewrite Hhp, Hpp. reflexivity. }
  intros H. unfold cycle at 1 2.
  destruct (Hbook _ (data_world c) _ _ H) as (Hpp & Hhp & _).
  fold (cycle c s) in Hpp, Hhp.
  split; [assumption|]. split; [assumption|]. split.
  - intros cs. apply run_have_previous. assumption.
  - intros c2 t2 H2 Hne.
    destruct (Hbook _ (data_world c2) _ _ H2) as (_ & _ & Hin).
    specialize (Hin Hne). unfold movement_of in Hin.
    destruct (fields_deliver (arrivals c2) (fst (cycle c s)))
      as (_ & _ & Dh & Dp & _).
    rewrite Dh, Dp, Hhp, Hpp in Hin. exact Hin.
Qed.

(** C10.  A message is consumed by the cycle it arrived for and by no
    other.  Over any run that starts with nothing queued but what the
    cycles bring, in every cycle: the scan of a sensor update
    and the pose of a seeding call are messages that arrived since the
    previous cycle; there is at most one sensor update and one seeding
    call; a cycle without a new scan is skipped, whatever scan the
    plugin still holds from before; a cycle without a new initial pose
    does not re-seed; and each cycle leaves the callback queue empty. *)
Theorem C10_messages_consumed_once cs s :
  cb_queue_ s = [] ->
  Forall2 consumed_in cs (snd (run cs s))
  /\ cb_queue_ (fst (run cs s)) = [].
Proof.
  revert s. induction cs as [|c cs IH]; intros s Hq.
  - simpl. split; [constructor|assumption].
  - rewrite run_cons. simpl fst; simpl snd.
    destruct (cycle_fields c s) as (_ & Cq & _ & _).
    destruct (IH (fst (cycle c s)) Cq) as [IHf IHq].
    split; [|assumption]. constructor; [|assumption].
    clear IH IHf IHq.
    destruct (fields_deliver (arrivals c) s) as (Dq & _).
    rewrite Hq, app_nil_l in Dq.
    unfold cycle.
    destruct (run_process_shape (tf_listener_ c) (data_world c) (deliver (arrivals c) s))
      as (tail & Hout & Hs & Hw & Hlen & Hnone & _).
    rewrite Hout. rewrite Dq in Hw, Hnone.
    assert (Hseed : seed_calls (deliver (arrivals c) s) =
                    match latest_pose (arrivals c) None with
                    | Some msg => [seed_call (pose_xy msg) (pose_yaw msg)]
                    | None => []
                    end) by (unfold seed_calls; rewrite Dq; reflexivity).
    rewrite Hseed.
    assert (Htail : forall e, In e tail -> is_seed e = false).
    { intros e Hin. destruct (is_seed e) eqn:He; [|reflexivity].
      assert (existsb is_seed tail = true)
        by (apply existsb_exists; exists e; split; assumption).
      congruence. }
    assert (Hft : filter is_seed tail = []).
    { clear -Hs. induction tail as [|e l IHl]; [reflexivity|].
      simpl in *. apply orb_false_iff in Hs. destruct Hs as [He Hl].
      rewrite He. auto. }
    unfold consumed_in. repeat split.
    + intros world scan Hin. apply in_app_or in Hin. destruct Hin as [Hin|Hin].
      * destruct (latest_pose (arrivals c) None); simpl in Hin;
          [destruct Hin as [Hin|[]]; discriminate|contradiction].
      * apply Hw in Hin. apply latest_laser_in in Hin.
        destruct Hin as [Hin|Hin]; [assumption|discriminate].
    + intros e Hin He. apply in_app_or in Hin. destruct Hin as [Hin|Hin].
      * destruct (latest_pose (arrivals c) None) as [msg|] eqn:Hm;
          simpl in Hin; [|contradiction].
        destruct Hin as [Hin|[]]. exists msg. split; [|auto].
        apply latest_pose_in in Hm. destruct Hm as [Hm|Hm]; [assumption|discriminate].
      * apply Htail in Hin. congruence.
    + rewrite filter_app, length_app.
      destruct (latest_pose (arrivals c) None); simpl; lia.
    + rewrite filter_app, length_app, Hft.
      destruct (latest_pose (arrivals c) None); simpl; lia.
    + intros Hno. rewrite Hnone by (apply latest_laser_none; assumption).
      destruct (latest_pose (arrivals c) None); reflexivity.
    + intros Hno. rewrite (latest_pose_none _ _ Hno). simpl. assumption.
Qed.

(** *** Further properties of the cycle *)

Lemma skipped_no_stage out : skipped out = true -> filter is_stage out = [].
Proof.
  unfold skipped. intros H. apply negb_true_iff in H.
  induction out as [|e l IH]; [reflexivity|].
  simpl in *. apply orb_false_iff in H. destruct H as [He Hl].
  rewrite He. auto.
Qed.

Lemma run_process_by_inputs tf world s :
  run_process tf world s =
  match acquire_inputs tf s with
  | (Next (scan, (odom, movement)), s1, o1) =>
      if empty (samples (particle_filter_ s1)) then (s1, o1)
      else (updated world scan movement s1,
            o1 ++ update_calls world scan odom movement s1)
  | (Return, s1, o1) => (s1, o1)
  end.
Proof.
  unfold run_process. rewrite process_cases.
  destruct (acquire_inputs tf s) as [[[[scan [odom movement]]|] s1] o1]; [|reflexivity].
  destruct (empty (samples (particle_filter_ s1))); reflexivity.
Qed.

(** The scan of the inputs is the most recent scan of the queue. *)
Lemma acquire_inputs_scan tf s scan om s1 o1 :
  acquire_inputs tf s = (Next (scan, om), s1, o1) ->
  latest_laser (cb_queue_ s) None = Some scan.
Proof.
  rewrite acquire_inputs_cases, acquire_scan_cases.
  destruct (latest_laser (cb_queue_ s) None) as [sc|]; [|discriminate].
  assert (Hgo : forall s0 o0,
             match odometry tf sc s0 with
             | (Next om0, s2, o2) => (Next (sc, om0), s2, o0 ++ o2)
             | (Return, s2, o2) => (Return, s2, o0 ++ o2)
             end = (Next (scan, om), s1, o1) -> Some sc = Some scan).
  { intros s0 o0. destruct (odometry tf sc s0) as [[[om0|] s2] o2]; [|discriminate].
    intros H. inversion H. reflexivity. }
  destruct (laser_offset_initialized_ s); [apply Hgo|].
  destruct (laser_wait tf s sc); [|discriminate].
  destruct (laser_lookup tf s sc); [apply Hgo|discriminate].
Qed.

Lemma empty_nonempty {A} (l : list A) : empty l = false -> l <> [].
Proof. destruct l; [discriminate|congruence]. Qed.

(** X1.  The update is all or nothing.  Whatever a cycle finds, its
    stage and publication calls are either none at all or, in full and
    in order, the six calls of one update: motion, sensor, resampling,
    mean pose, transform, particle cloud.  [process] never leaves after
    some of them. *)
Theorem update_is_all_or_nothing tf world s :
  filter is_stage (snd (run_process tf world s)) = []
  \/ exists scan odom movement s1,
       latest_laser (cb_queue_ s) None = Some scan
       /\ samples (after_pose_reset s) <> []
       /\ filter is_stage (snd (run_process tf world s))
          = update_calls world scan odom movement s1
       /\ fst (run_process tf world s) = updated world scan movement s1.
Proof.
  rewrite run_process_by_inputs.
  destruct (acquire_inputs tf s) as [[[[scan [odom movement]]|] s1] o1] eqn:Hin.
  - pose proof (acquire_inputs_scan _ _ _ _ _ _ Hin) as Hscan.
    apply acquire_inputs_quiet in Hin. destruct Hin as (Hq & Hpf & _).
    destruct (empty (samples (particle_filter_ s1))) eqn:Hem.
    + left. simpl. apply skipped_no_stage. assumption.
    + right. exists scan, odom, movement, s1. simpl.
      rewrite filter_app, (skipped_no_stage _ Hq). rewrite <- Hpf.
      repeat split; auto. apply empty_nonempty. assumption.
  - left. apply acquire_inputs_quiet in Hin. simpl. apply skipped_no_stage. tauto.
Qed.

Lemma empty_true {A} (l : list A) : empty l = true -> l = [].
Proof. destruct l; [reflexivity|discriminate]. Qed.

(** Case analysis over everything a cycle branches on. *)
Ltac split_cycle :=
  rewrite run_process_cases; unfold from_odometry, finish_cycle;
  repeat match goal with
    | |- context [match ?x with _ => _ end] => destruct x eqn:?
    end.

(** X2.  Diagnostics of a cycle.  A cycle prints at most one diagnostic;
    a cycle that warns through [ROS_WARN] runs no stage; a cycle without
    a scan prints nothing; and a cycle that is skipped without a word
    either had no scan or has no particles. *)
Theorem at_most_one_diagnostic tf world s :
  (List.length (filter is_diagnostic (snd (run_process tf world s))) <= 1)%nat
  /\ (existsb is_warning (snd (run_process tf world s)) = true ->
      skipped (snd (run_process tf world s)) = true)
  /\ (latest_laser (cb_queue_ s) None = None ->
      filter is_diagnostic (snd (run_process tf world s)) = [])
  /\ (skipped (snd (run_process tf world s)) = true ->
      filter is_diagnostic (snd (run_process tf world s)) = [] ->
      latest_laser (cb_queue_ s) None = None \/ samples (after_pose_reset s) = []).
Proof.
  split_cycle;
    unfold seed_calls; destruct (latest_pose (cb_queue_ s) None);
    simpl; repeat split; intros; auto; try lia; try discriminate;
    right; apply empty_true; assumption.
Qed.

(** X3.  A cycle sees its messages only through the most recent scan and
    the most recent initial pose of the queue.  Scans and poses queued
    before these are dropped without effect, and what the plugin still
    holds in [laser_msg_] and [initial_pose_msg_] from earlier cycles
    makes no difference: the plugin afterwards and the calls made are
    the same. *)
Theorem only_latest_messages_count tf world s q stored_scan stored_pose :
  latest_laser q None = latest_laser (cb_queue_ s) None ->
  latest_pose q None = latest_pose (cb_queue_ s) None ->
  run_process tf world (with_messages q stored_scan stored_pose s)
  = run_process tf world s.
Proof.
  intros Hl Hp. rewrite !run_process_cases.
  assert (Hd : drained (with_messages q stored_scan stored_pose s) = drained s).
  { destruct s. unfold drained, after_pose_reset, with_messages in *. simpl in *.
    rewrite Hl, Hp. reflexivity. }
  assert (Hs : seed_calls (with_messages q stored_scan stored_pose s) = seed_calls s).
  { destruct s. unfold seed_calls, with_messages in *. simpl in *.
    rewrite Hp. reflexivity. }
  rewrite Hd, Hs.
  replace (cb_queue_ (with_messages q stored_scan stored_pose s)) with q
    by (destruct s; reflexivity).
  rewrite Hl.
  destruct (latest_laser (cb_queue_ s) None) as [scan|]; [|reflexivity].
  replace (laser_offset_initialized_ (with_messages q stored_scan stored_pose s))
    with (laser_offset_initialized_ s) by (destruct s; reflexivity).
  replace (laser_wait tf (with_messages q stored_scan stored_pose s) scan)
    with (laser_wait tf s scan) by (destruct s; reflexivity).
  replace (laser_lookup tf (with_messages q stored_scan stored_pose s) scan)
    with (laser_lookup tf s scan) by (destruct s; reflexivity).
  replace (base_link_frame_id_ (with_messages q stored_scan stored_pose s))
    with (base_link_frame_id_ s) by (destruct s; reflexivity).
  reflexivity.
Qed.

Lemma from_odometry_same_answers tf tf' world scan s1 o1 :
  odom_wait tf s1 scan = odom_wait tf' s1 scan ->
  odom_lookup tf s1 scan = odom_lookup tf' s1 scan ->
  from_odometry tf world scan s1 o1 = from_odometry tf' world scan s1 o1.
Proof. intros Hw Hl. unfold from_odometry. rewrite Hw, Hl. reflexivity. Qed.

(** X4.  A cycle sees TF only through four queries, all at the stamp of
    its scan: the wait and the lookup from the base link to the frame of
    the scan, the wait and the lookup from the odometry frame to the
    base link.  Two states of TF that answer these alike give the same
    cycle; without a scan TF is not consulted at all. *)
Theorem only_four_tf_queries_count tf tf' world s :
  (forall scan, latest_laser (cb_queue_ s) None = Some scan ->
                same_answers tf tf' s scan) ->
  run_process tf world s = run_process tf' world s.
Proof.
  intros H. rewrite !run_process_cases.
  destruct (latest_laser (cb_queue_ s) None) as [scan|]; [|reflexivity].
  destruct (H scan eq_refl) as (Hlw & Hll & How & Hol).
  rewrite <- Hlw, <- Hll.
  destruct (laser_offset_initialized_ s).
  - apply from_odometry_same_answers; to_start; assumption.
  - destruct (laser_wait tf s scan); [|reflexivity].
    destruct (laser_lookup tf s scan) as [p|what]; [|reflexivity].
    apply from_odometry_same_answers; to_start; assumption.
Qed.

(** X5.  With nothing queued a call of [process] makes no call at all
    and changes nothing but the two message pointers, which it clears;
    a second call right after changes nothing any more. *)
Theorem idle_cycle_changes_nothing tf world s :
  cb_queue_ s = [] ->
  run_process tf world s
  = (set_initial_pose_msg_ None (set_laser_msg_ None s), [])
  /\ forall tf2 world2,
       run_process tf2 world2 (fst (run_process tf world s))
       = (fst (run_process tf world s), []).
Proof.
  intros Hq.
  assert (Hidle : forall tf0 world0 s0,
             cb_queue_ s0 = [] ->
             run_process tf0 world0 s0
             = (set_initial_pose_msg_ None (set_laser_msg_ None s0), [])).
  { intros tf0 world0 s0 Hq0. rewrite run_process_cases.
    unfold seed_calls, drained, after_pose_reset. rewrite Hq0. simpl.
    destruct s0. simpl in Hq0. subst. reflexivity. }
  split; [apply Hidle; assumption|].
  intros tf2 world2. rewrite (Hidle tf world s Hq). simpl.
  rewrite Hidle by (destruct s; assumption).
  destruct s; reflexivity.
Qed.

(** X6.  Odometry is booked by a successful lookup and by nothing else:
    in a cycle whose odometry lookup does not succeed (no scan, offset
    unresolved, wait timed out, or lookup thrown), [previous_pose_] and
    [have_previous_pose_] are left as they were, whether the cycle is
    skipped or goes on with the remembered pose. *)
Theorem odometry_kept_without_lookup tf world s :
  odom_lookup_succeeds tf s = None ->
  previous_pose_ (fst (run_process tf world s)) = previous_pose_ s
  /\ have_previous_pose_ (fst (run_process tf world s)) = have_previous_pose_ s.
Proof.
  unfold odom_lookup_succeeds. rewrite process_from_odometry.
  destruct (acquire_scan tf s) as [[[scan|] s1] o1] eqn:Hacq;
    apply acquire_scan_quiet in Hacq;
    destruct Hacq as (_ & _ & _ & Hhp & Hpp & _).
  - unfold from_odometry, finish_cycle.
    destruct (odom_wait tf s1 scan); [|intros _; simpl; auto].
    destruct (odom_lookup tf s1 scan) as [t|what]; [discriminate|].
    intros _. destruct (have_previous_pose_ s1) eqn:Hp1; [|simpl; split; congruence].
    destruct (empty (samples (particle_filter_ s1))); simpl; to_start;
      split; congruence.
  - intros _. simpl. auto.
Qed.

(** A cycle whose odometry lookup succeeds on a non-empty particle set. *)
Lemma update_after_lookup tf world s t :
  odom_lookup_succeeds tf s = Some t ->
  samples (after_pose_reset s) <> [] ->
  exists scan s1 o1,
    latest_laser (cb_queue_ s) None = Some scan
    /\ skipped o1 = true
    /\ particle_filter_ s1 = after_pose_reset s
    /\ odom_model_ s1 = odom_model_ s
    /\ num_particles_ s1 = num_particles_ s
    /\ run_process tf world s =
         (updated world scan (movement_of s (convert_from_tf t)) s1,
          o1 ++ update_calls world scan (convert_from_tf t)
                  (movement_of s (convert_from_tf t)) s1).
Proof.
  intros H Hne. unfold odom_lookup_succeeds in H.
  rewrite process_from_odometry.
  pose proof (acquire_scan_cases tf s) as Hcases.
  destruct (acquire_scan tf s) as [[[scan|] s0] o0] eqn:Hacq; [|discriminate].
  assert (Hscan : latest_laser (cb_queue_ s) None = Some scan).
  { destruct (latest_laser (cb_queue_ s) None) as [sc|]; [|discriminate].
    destruct (laser_offset_initialized_ s); [inversion Hcases; reflexivity|].
    destruct (laser_wait tf s sc); [|discriminate].
    destruct (laser_lookup tf s sc); [inversion Hcases; reflexivity|discriminate]. }
  apply acquire_scan_quiet in Hacq.
  destruct Hacq as (Hq & Hpf & Hn & Hhp & Hpp & Hom & _).
  unfold from_odometry, finish_cycle.
  destruct (odom_wait tf s0 scan); [|discriminate].
  destruct (odom_lookup tf s0 scan) as [t1|what]; [|discriminate].
  inversion H; subst t1; clear H.
  exists scan, (booked (convert_from_tf t) s0), o0.
  assert (Hpf' : particle_filter_ (booked (convert_from_tf t) s0) = after_pose_reset s)
    by (rewrite <- Hpf; destruct s0; reflexivity).
  rewrite Hpf', (nonempty_not_empty _ Hne).
  assert (Hmv : movement_of s0 (convert_from_tf t) = movement_of s (convert_from_tf t))
    by (unfold movement_of; rewrite Hhp, Hpp; reflexivity).
  rewrite Hmv. to_start. repeat split; auto.
Qed.

(** X7.  The first update moves nothing.  While no odometry pose is
    remembered, a successful lookup yields the identity as movement: the
    motion update of that cycle is called with
    [geo::Transform2::identity()]. *)
Theorem first_update_moves_by_identity tf world s t :
  have_previous_pose_ s = false ->
  odom_lookup_succeeds tf s = Some t ->
  samples (after_pose_reset s) <> [] ->
  exists scan,
    filter is_filter_stage (snd (run_process tf world s)) =
      [ CallUpdatePoses (Transform_set Transform2_identity) 0%Z;
        CallUpdateWeights world scan;
        CallResample (num_particles_ s);
        CallCalculateMeanPose ].
Proof.
  intros Hp H Hne.
  destruct (update_after_lookup tf world s t H Hne)
    as (scan & s1 & o1 & _ & Hq & _ & _ & Hn & Hrun).
  exists scan. rewrite Hrun. simpl snd.
  rewrite filter_app, (skipped_no_filter_stage _ Hq).
  unfold movement_of. rewrite Hp. simpl. rewrite Hn. reflexivity.
Qed.

(** X8.  A pose reset and an update in one cycle.  When an initial pose
    arrived and the cycle goes on to update, the stages work on the
    freshly seeded set, and the seeded particles are moved by the
    odometry delta since the last successful lookup, not by the
    identity: the pose reset leaves the odometry bookkeeping alone. *)
Theorem reseeded_set_is_updated_at_once tf world s msg t :
  latest_pose (cb_queue_ s) None = Some msg ->
  have_previous_pose_ s = true ->
  odom_lookup_succeeds tf s = Some t ->
  samples (seeded (pose_xy msg) (pose_yaw msg) (particle_filter_ s)) <> [] ->
  exists scan laser_model,
    filter (fun e => is_seed e || is_filter_stage e) (snd (run_process tf world s)) =
      [ seed_call (pose_xy msg) (pose_yaw msg);
        CallUpdatePoses (odom_delta (previous_pose_ s) (convert_from_tf t)) 0%Z;
        CallUpdateWeights world scan;
        CallResample (num_particles_ s);
        CallCalculateMeanPose ]
    /\ particle_filter_ (fst (run_process tf world s)) =
         resample (num_particles_ s)
           (snd (updateWeights world scan laser_model
                   (snd (updatePoses
                           (odom_delta (previous_pose_ s) (convert_from_tf t)) 0%Z
                           (odom_model_ s)
                           (seeded (pose_xy msg) (pose_yaw msg) (particle_filter_ s)))))).
Proof.
  intros Hm Hp H Hne.
  assert (Hreset : after_pose_reset s
                   = seeded (pose_xy msg) (pose_yaw msg) (particle_filter_ s))
    by (unfold after_pose_reset; rewrite Hm; reflexivity).
  rewrite <- Hreset in Hne.
  destruct (update_after_lookup tf world s t H Hne)
    as (scan & s1 & o1 & _ & Hq & Hpf & Hom & Hn & Hrun).
  destruct (run_process_shape tf world s) as (tail & Ht & Hs & _).
  exists scan, (laser_model_ s1). split.
  - assert (Hmv : movement_of s (convert_from_tf t)
                  = odom_delta (previous_pose_ s) (convert_from_tf t))
      by (unfold movement_of; rewrite Hp; reflexivity).
    assert (Hstages : filter is_filter_stage (snd (run_process tf world s)) =
              [ CallUpdatePoses (odom_delta (previous_pose_ s) (convert_from_tf t)) 0%Z;
                CallUpdateWeights world scan;
                CallResample (num_particles_ s);
                CallCalculateMeanPose ]).
    { rewrite Hrun. simpl snd.
      rewrite filter_app, (skipped_no_filter_stage _ Hq), Hmv. simpl.
      rewrite Hn. reflexivity. }
    rewrite Ht in Hstages |- *. unfold seed_calls in *. rewrite Hm in *.
    simpl in Hstages |- *.
    assert (Hsame : filter (fun e => is_seed e || is_filter_stage e) tail
                    = filter is_filter_stage tail).
    { clear -Hs. induction tail as [|e l IH]; [reflexivity|].
      simpl in *. apply orb_false_iff in Hs. destruct Hs as [He Hl].
      rewrite He. simpl. rewrite IH by assumption. reflexivity. }
    rewrite Hsame, Hstages. reflexivity.
  - rewrite Hrun. simpl fst. to_start. unfold resampled, weighted, moved.
    unfold movement_of. rewrite Hp, Hn, Hom, Hpf, Hreset. reflexivity.
Qed.

(** X11.  What is published carries the stamp of the scan.  Every
    transform sent in a cycle has the stamp of the most recent scan of
    that cycle, the configured map frame as parent and the configured
    odometry frame as child.  Every particle cloud published has that
    stamp too, the fixed frame name "/map" whatever the map frame is
    configured to be, and one pose per sample of the particle filter as
    the cycle leaves it, in order, each a pose of the plane. *)
Theorem published_results_are_stamped tf world s e :
  In e (snd (run_process tf world s)) ->
  is_estimate e = true ->
  exists scan,
    latest_laser (cb_queue_ s) None = Some scan
    /\ match e with
       | SendTransform sent =>
           stamp_ sent = stamp (header scan)
           /\ frame_id_ sent = map_frame_id_ s
           /\ child_frame_id_ sent = odom_frame_id_ s
       | PublishParticles msg =>
           PoseArray_header msg = mkHeader (stamp (header scan)) "/map"
           /\ poses msg =
                map (fun smp => to_pose_3d (matrix (pose smp)))
                    (samples (particle_filter_ (fst (run_process tf world s))))
           /\ List.length (poses msg) =
                List.length (samples (particle_filter_ (fst (run_process tf world s))))
           /\ Forall planar (poses msg)
       | _ => True
       end.
Proof.
  rewrite run_process_by_inputs.
  destruct (acquire_inputs tf s) as [[[[scan [odom movement]]|] s1] o1] eqn:Hin.
  - pose proof (acquire_inputs_scan _ _ _ _ _ _ Hin) as Hscan.
    apply acquire_inputs_quiet in Hin.
    destruct Hin as (Hq & _ & _ & _ & Hof & Hmf).
    assert (Hquiet : forall e0, In e0 o1 -> is_estimate e0 = true -> False).
    { intros e0 H0 He0. apply (skipped_In _ _ Hq) in H0.
      unfold is_stage in H0. rewrite He0, orb_true_r in H0. discriminate. }
    destruct (empty (samples (particle_filter_ s1))).
    + simpl. intros He Hest. exfalso. eapply Hquiet; eassumption.
    + simpl fst. simpl snd. intros He Hest.
      apply in_app_or in He. destruct He as [He|He];
        [exfalso; eapply Hquiet; eassumption|].
      exists scan. split; [assumption|].
      simpl in He.
      repeat (destruct He as [He|He]; [subst e; try discriminate|]);
        [| |contradiction].
      * unfold map_to_odom_tf. simpl. rewrite Hmf, Hof. auto.
      * to_start. unfold particles_msg. simpl.
        repeat split; auto.
        -- rewrite length_map. reflexivity.
        -- apply Forall_forall. intros p Hp. apply in_map_iff in Hp.
           destruct Hp as (smp & Hp & _). subst p. repeat split.
  - simpl. intros He Hest. exfalso.
    apply acquire_inputs_quiet in Hin. destruct Hin as (Hq & _).
    apply (skipped_In _ _ Hq) in He.
    unfold is_stage in He. rewrite Hest, orb_true_r in He. discriminate.
Qed.

(** One cycle and the configuration. *)
Lemma run_process_configuration tf world s :
  map_frame_id_ (fst (run_process tf world s)) = map_frame_id_ s
  /\ odom_frame_id_ (fst (run_process tf world s)) = odom_frame_id_ s
  /\ base_link_frame_id_ (fst (run_process tf world s)) = base_link_frame_id_ s
  /\ num_particles_ (fst (run_process tf world s)) = num_particles_ s
  /\ (forall n, In (CallResample n) (snd (run_process tf world s)) ->
                n = num_particles_ s).
Proof.
  pose proof (run_process_fields tf world s) as (Hb & _). revert Hb.
  rewrite run_process_by_inputs.
  destruct (acquire_inputs tf s) as [[[[scan [odom movement]]|] s1] o1] eqn:Hin;
    pose proof (acquire_inputs_quiet _ _ _ _ _ Hin) as (Hq & _ & Hn & _ & Hof & Hmf).
  - destruct (empty (samples (particle_filter_ s1))); simpl fst; simpl snd; intros Hb.
    + repeat split; auto.
      intros n Hi. apply (skipped_In _ _ Hq) in Hi. discriminate.
    + revert Hb. to_start. intros Hb. repeat split; auto.
      intros n Hi. apply in_app_or in Hi.
      destruct Hi as [Hi|Hi]; [apply (skipped_In _ _ Hq) in Hi; discriminate|].
      simpl in Hi.
      repeat (destruct Hi as [Hi|Hi]; [try discriminate|]); [|contradiction].
      inversion Hi. congruence.
  - simpl fst; simpl snd. intros Hb. repeat split; auto.
    intros n Hi. apply (skipped_In _ _ Hq) in Hi. discriminate.
Qed.

(** X12.  The configuration outlives every cycle.  Over any run the
    three frame names and the particle count stay what they were at the
    start, and every resampling of the run is called with that count. *)
Theorem configuration_is_constant cs s :
  map_frame_id_ (fst (run cs s)) = map_frame_id_ s
  /\ odom_frame_id_ (fst (run cs s)) = odom_frame_id_ s
  /\ base_link_frame_id_ (fst (run cs s)) = base_link_frame_id_ s
  /\ num_particles_ (fst (run cs s)) = num_particles_ s
  /\ (forall out n, In out (snd (run cs s)) -> In (CallResample n) out ->
                    n = num_particles_ s).
Proof.
  revert s. induction cs as [|c cs IH]; intros s.
  - simpl. repeat split. intros out n [].
  - rewrite run_cons. simpl fst. simpl snd.
    destruct (IH (fst (cycle c s))) as (Im & Io & Ib & In_ & Ir).
    destruct (run_process_configuration (tf_listener_ c) (data_world c)
                (deliver (arrivals c) s)) as (Cm & Co & Cb & Cn & Cr).
    fold (cycle c s) in Cm, Co, Cb, Cn, Cr.
    assert (Dm : map_frame_id_ (deliver (arrivals c) s) = map_frame_id_ s)
      by (destruct s; reflexivity).
    assert (Do : odom_frame_id_ (deliver (arrivals c) s) = odom_frame_id_ s)
      by (destruct s; reflexivity).
    assert (Db : base_link_frame_id_ (deliver (arrivals c) s) = base_link_frame_id_ s)
      by (destruct s; reflexivity).
    assert (Dn : num_particles_ (deliver (arrivals c) s) = num_particles_ s)
      by (destruct s; reflexivity).
    rewrite Im, Io, Ib, In_, Cm, Co, Cb, Cn, Dm, Do, Db, Dn.
    repeat split.
    intros out n [Hout|Hout] Hn.
    + subst out. rewrite <- Dn. apply Cr. assumption.
    + rewrite <- Dn, <- Cn. eapply Ir; eassumption.
Qed.

(** X13.  A skipped cycle leaves the models alone.  When no stage runs,
    the particle filter is what the pose reset left, the odometry model
    is untouched, and the laser model is untouched too unless the cycle
    resolved the mounting offset, in which case it is the old model with
    that offset set. *)
Theorem skipped_cycle_keeps_models tf world s :
  skipped (snd (run_process tf world s)) = true ->
  particle_filter_ (fst (run_process tf world s)) = after_pose_reset s
  /\ odom_model_ (fst (run_process tf world s)) = odom_model_ s
  /\ (filter is_calibration (snd (run_process tf world s)) = [] ->
      laser_model_ (fst (run_process tf world s)) = laser_model_ s)
  /\ (forall offset height,
        In (CallSetLaserOffset offset height) (snd (run_process tf world s)) ->
        laser_model_ (fst (run_process tf world s))
        = setLaserOffset offset height (laser_model_ s)).
Proof.
  split_cycle; unfold seed_calls; destruct (latest_pose (cb_queue_ s) None); simpl;
    intros Hsk; try discriminate; (repeat split; try reflexivity);
    try (intros; discriminate);
    intros offset height Hin;
    repeat (destruct Hin as [Hin|Hin];
            [try discriminate; try (inversion Hin; subst; reflexivity)|]);
    contradiction.
Qed.

(** X14.  The offset is in place before the sensor update of the same
    cycle.  In the cycle that resolves the mounting offset, the laser
    model receives the offset first: if the cycle is then skipped, the
    laser model is left with the offset set; if it goes on, the one call
    of [updateWeights] comes after the call of [setLaserOffset] and runs
    on the laser model that already has the offset. *)
Theorem offset_is_set_before_the_sensor_update tf world s p_laser :
  laser_offset_initialized_ s = false ->
  offset_lookup tf (base_link_frame_id_ s) (cb_queue_ s) = Some p_laser ->
  (skipped (snd (run_process tf world s)) = true ->
   laser_model_ (fst (run_process tf world s))
   = setLaserOffset (laser_offset_of p_laser) (laser_height_of p_laser) (laser_model_ s))
  /\ (skipped (snd (run_process tf world s)) = false ->
      exists scan pf,
        filter (fun e => is_calibration e || is_sensor_update e)
               (snd (run_process tf world s))
        = [ CallSetLaserOffset (laser_offset_of p_laser) (laser_height_of p_laser);
            CallUpdateWeights world scan ]
        /\ laser_model_ (fst (run_process tf world s))
           = fst (updateWeights world scan
                    (setLaserOffset (laser_offset_of p_laser) (laser_height_of p_laser)
                                    (laser_model_ s)) pf)).
Proof.
  intros Hflag H. unfold offset_lookup in H.
  rewrite run_process_cases. unfold laser_wait, laser_lookup. rewrite Hflag.
  destruct (latest_laser (cb_queue_ s) None) as [scan|]; [|discriminate].
  destruct (waitForTransform tf (base_link_frame_id_ s) (frame_id (header scan))
                             (stamp (header scan)) 1.0); [|discriminate].
  destruct (lookupTransform tf (base_link_frame_id_ s) (frame_id (header scan))
                            (stamp (header scan))) as [p|what]; [|discriminate].
  inversion H; subst p; clear H.
  unfold from_odometry, finish_cycle.
  repeat match goal with
    | |- context [match ?x with _ => _ end] => destruct x eqn:?
    end;
    unfold seed_calls; destruct (latest_pose (cb_queue_ s) None); simpl;
    split; intros Hsk; try discriminate; try reflexivity;
    eexists; eexists; split; reflexivity.
Qed.

(** *** Start-up *)

(** X15.  A configuration error stops [initialize] before it touches
    ROS or the particle filter: when a required group or the particle
    count is missing, nothing is subscribed, nothing is advertised, and
    the particle filter is not seeded even if the configuration holds an
    initial pose. *)
Theorem initialize_stops_on_configuration_error init s :
  hasError init = true ->
  initialize_calls init s = []
  /\ particle_filter_ (initialized init s) = particle_filter_ s
  /\ cb_queue_ (initialized init s) = cb_queue_ s.
Proof.
  unfold initialize_calls, initialized, initialize, hasError.
  destruct s as [q lm hp pp ip lo mf odf bf pf om lsm n].
  destruct init as [og lg np topic ipose].
  destruct og, lg, np; simpl; intros H; try discriminate; repeat split.
Qed.

(** X16.  What [initialize] does with a complete configuration, in
    order: it subscribes to the laser topic, then to the initial-pose
    topic if one is configured, then seeds the particle filter around
    the configured initial pose if there is one, and last advertises the
    particle cloud.  The frame names and the particle count are the
    configured ones. *)
Theorem initialize_subscribes_seeds_advertises init s :
  hasError init = false ->
  exists odom_group laser_group n,
    cfg_odom_group init = Some odom_group
    /\ cfg_laser_group init = Some laser_group
    /\ cfg_num_particles init = Some n
    /\ initialize_calls init s =
         Subscribe (cfg_topic laser_group)
         :: optional_subscription (cfg_initial_pose_topic init)
         ++ optional_seeding (cfg_initial_pose init)
         ++ [Advertise "ed/localization/particles"]
    /\ map_frame_id_ (initialized init s) = cfg_map_frame odom_group
    /\ odom_frame_id_ (initialized init s) = cfg_odom_frame odom_group
    /\ base_link_frame_id_ (initialized init s) = cfg_base_link_frame odom_group
    /\ num_particles_ (initialized init s) = n
    /\ particle_filter_ (initialized init s) =
         match cfg_initial_pose init with
         | Some (x, y, rz) => seeded (mkVec2 x y) rz (particle_filter_ s)
         | None => particle_filter_ s
         end.
Proof.
  unfold initialize_calls, initialized, initialize, hasError.
  destruct s as [q lm hp pp ip lo mf odf bf pf om lsm n0].
  destruct init as [og lg np topic ipose].
  destruct og as [og|], lg as [lg|], np as [np|]; simpl; intros H; try discriminate.
  exists og, lg, np.
  destruct topic, ipose as [[[x y] rz]|]; repeat split.
Qed.

Lemma existsb_by_filter {A} (f : A -> bool) (l : list A) :
  existsb f l = match filter f l with [] => false | _ :: _ => true end.
Proof.
  induction l as [|a l IH]; [reflexivity|].
  simpl. destruct (f a); simpl; auto.
Qed.

Lemma run_offset_flag cs s :
  laser_offset_initialized_ (fst (run cs s))
  = laser_offset_initialized_ s || existsb (existsb is_calibration) (snd (run cs s)).
Proof.
  revert s. induction cs as [|c cs IH]; intros s.
  - simpl. rewrite orb_false_r. reflexivity.
  - rewrite run_cons. simpl fst. simpl snd. rewrite IH. simpl.
    pose proof (run_process_calibration (tf_listener_ c) (data_world c)
                  (deliver (arrivals c) s)) as Hc.
    fold (cycle c s) in Hc.
    replace (laser_offset_initialized_ (deliver (arrivals c) s))
      with (laser_offset_initialized_ s) in Hc by (destruct s; reflexivity).
    rewrite (existsb_by_filter is_calibration (snd (cycle c s))).
    destruct (laser_offset_initialized_ s).
    + destruct Hc as [Hl Hf]. rewrite Hl. reflexivity.
    + destruct (offset_lookup (tf_listener_ c)
                  (base_link_frame_id_ (deliver (arrivals c) s))
                  (cb_queue_ (deliver (arrivals c) s))).
      * destruct Hc as [Hl Hf]. rewrite Hl, Hf. reflexivity.
      * destruct Hc as [Hl [_ Hf]]. rewrite Hl, Hf. reflexivity.
Qed.

(** X17.  The flag tells the truth.  A plugin starts cold: after
    construction and [initialize], whatever the configuration, no offset
    is resolved and no odometry pose is remembered.  From there on, over
    any run, [laser_offset_initialized_] is true exactly when some cycle
    of the run has called [setLaserOffset]. *)
Theorem offset_flag_tells_the_truth init indeterminate_pose indeterminate_int cs :
  laser_offset_initialized_
    (initialized init (SLAMPlugin_new indeterminate_pose indeterminate_int)) = false
  /\ have_previous_pose_
       (initialized init (SLAMPlugin_new indeterminate_pose indeterminate_int)) = false
  /\ cb_queue_
       (initialized init (SLAMPlugin_new indeterminate_pose indeterminate_int)) = []
  /\ laser_offset_initialized_
       (fst (run cs (initialized init
                       (SLAMPlugin_new indeterminate_pose indeterminate_int))))
     = existsb (existsb is_calibration)
         (snd (run cs (initialized init
                         (SLAMPlugin_new indeterminate_pose indeterminate_int)))).
Proof.
  assert (Hcold : laser_offset_initialized_
                    (initialized init (SLAMPlugin_new indeterminate_pose
                                                      indeterminate_int)) = false
                  /\ have_previous_pose_
                       (initialized init (SLAMPlugin_new indeterminate_pose
                                                         indeterminate_int)) = false
                  /\ cb_queue_
                       (initialized init (SLAMPlugin_new indeterminate_pose
                                                         indeterminate_int)) = []).
  { unfold initialized, initialize, hasError, SLAMPlugin_new.
    destruct init as [og lg np topic ipose].
    destruct og, lg, np, topic, ipose as [[[x y] rz]|]; repeat split. }
  destruct Hcold as (Hl & Hp & Hq).
  repeat split; try assumption.
  rewrite run_offset_flag, Hl. reflexivity.
Qed.

End Facts.

(* ------------------------------------------------------------------ *)
(** * Properties of the mean pose *)

Lemma norm_scaled x y :
  x <> 0 -> sqrt (x * x + y * y) = Rabs x * sqrt (1 + (y / x)²).
Proof.
  intros Hx.
  replace (x * x + y * y) with (x² * (1 + (y / x)²)) by (unfold Rsqr; field; assumption).
  rewrite sqrt_mult_alt by apply Rle_0_sqr.
  rewrite sqrt_Rsqr_abs. reflexivity.
Qed.

Lemma sqrt_one_plus_sqr_pos t : 0 < sqrt (1 + t²).
Proof. apply sqrt_lt_R0. pose proof (Rle_0_sqr t). lra. Qed.

Lemma atan_sign_nonpos t : t <= 0 -> atan t <= 0.
Proof.
  intros [H|H].
  - left. rewrite <- atan_0. apply atan_increasing. assumption.
  - subst. rewrite atan_0. lra.
Qed.

Lemma atan_sign_pos t : 0 < t -> 0 < atan t.
Proof. intros H. rewrite <- atan_0. apply atan_increasing. assumption. Qed.

(** [atan2 y x] is the angle of the vector (x, y). *)
Lemma atan2_angle y x :
  x <> 0 \/ y <> 0 ->
  cos (atan2 y x) * sqrt (x * x + y * y) = x
  /\ sin (atan2 y x) * sqrt (x * x + y * y) = y.
Proof.
  intros Hnz. unfold atan2.
  destruct (Rlt_dec 0 x) as [Hpos|Hnpos].
  - rewrite norm_scaled by lra. rewrite Rabs_pos_eq by lra.
    rewrite cos_atan, sin_atan.
    pose proof (sqrt_one_plus_sqr_pos (y / x)).
    split; field; lra.
  - destruct (Rlt_dec x 0) as [Hneg|Hnneg].
    + rewrite norm_scaled by lra. rewrite Rabs_left by lra.
      pose proof (sqrt_one_plus_sqr_pos (y / x)).
      destruct (Rle_dec 0 y).
      * rewrite neg_cos, neg_sin, cos_atan, sin_atan. split; field; lra.
      * unfold Rminus. rewrite cos_plus, sin_plus, cos_neg, sin_neg, cos_PI, sin_PI.
        rewrite cos_atan, sin_atan. split; field; lra.
    + assert (x = 0) by lra. subst x.
      replace (0 * 0 + y * y) with (y * y) by ring.
      destruct (Rlt_dec 0 y) as [Hy|Hny].
      * rewrite cos_PI2, sin_PI2, sqrt_square by lra. split; ring.
      * destruct (Rlt_dec y 0) as [Hy'|Hny'].
        -- rewrite cos_neg, sin_neg, cos_PI2, sin_PI2.
           replace (y * y) with ((- y) * (- y)) by ring.
           rewrite sqrt_square by lra. split; ring.
        -- exfalso. destruct Hnz; lra.
Qed.

Lemma atan2_range y x : - PI < atan2 y x <= PI.
Proof.
  pose proof PI_RGT_0 as Hpi. pose proof (atan_bound (y / x)) as Hb.
  unfold atan2.
  destruct (Rlt_dec 0 x) as [Hpos|Hnpos]; [lra|].
  destruct (Rlt_dec x 0) as [Hneg|Hnneg].
  - destruct (Rle_dec 0 y) as [Hy|Hy].
    + assert (y / x <= 0).
      { unfold Rdiv. replace (y * / x) with (- (y * / - x)).
        - assert (0 <= y * / - x).
          { apply Rmult_le_pos; [assumption|]. left. apply Rinv_0_lt_compat. lra. }
          lra.
        - field. lra. }
      pose proof (atan_sign_nonpos _ H). lra.
    + assert (0 < y / x).
      { unfold Rdiv. replace (y * / x) with ((- y) * / (- x)) by (field; lra).
        apply Rmult_lt_0_compat; [lra|]. apply Rinv_0_lt_compat. lra. }
      pose proof (atan_sign_pos _ H). lra.
  - destruct (Rlt_dec 0 y); [lra|]. destruct (Rlt_dec y 0); lra.
Qed.

Lemma weighted_sum_scaled f k set :
  weighted_sum f (map (fun p => mkParticle (Particle_pose p) (Particle_weight p / k)) set)
  = weighted_sum f set / k.
Proof.
  induction set as [|p l IH]; simpl.
  - unfold Rdiv. ring.
  - rewrite IH. unfold Rdiv. ring.
Qed.

Lemma weighted_sum_normalized f set :
  weighted_sum f (normalized_weights set) = weighted_sum f set / sum_weights set.
Proof. apply weighted_sum_scaled. Qed.

Lemma fold_accumulate set a :
  fold_left accumulate set a =
  mkSums (sum_w a + sum_weights set)
         (sum_x a + weighted_sum Pose2D_x set)
         (sum_y a + weighted_sum Pose2D_y set)
         (sum_cos a + weighted_sum unit_x set)
         (sum_sin a + weighted_sum unit_y set).
Proof.
  revert a. induction set as [|p l IH]; intros a; simpl.
  - destruct a; simpl. f_equal; ring.
  - rewrite IH. simpl. f_equal; ring.
Qed.

Lemma meanPose_one_pass_correct set : meanPose_one_pass set = meanPose set.
Proof.
  destruct set as [|p l]; [reflexivity|].
  unfold meanPose_one_pass, meanPose.
  rewrite fold_accumulate, !weighted_sum_normalized.
  cbv beta iota zeta delta [sum_w sum_x sum_y sum_cos sum_sin].
  rewrite !Rplus_0_l. reflexivity.
Qed.

Lemma cos_179_negative : cos (degrees 179) < 0.
Proof.
  pose proof PI_RGT_0. apply cos_lt_0; unfold degrees; lra.
Qed.

(** The mean heading of the wraparound pair. *)
Lemma wraparound_mean_heading w x1 y1 x2 y2 :
  0 < w ->
  exists m,
    meanPose (wraparound_pair w x1 y1 x2 y2) = Some m
    /\ Pose2D_theta m = PI
    /\ naive_mean_heading (wraparound_pair w x1 y1 x2 y2) = 0.
Proof.
  intros Hw. eexists. split; [reflexivity|].
  assert (Hneg : degrees (-179) = - degrees 179) by (unfold degrees; field).
  split.
  - cbv beta iota zeta delta [Pose2D_theta].
    rewrite !weighted_sum_normalized.
    assert (Hs : weighted_sum unit_y (wraparound_pair w x1 y1 x2 y2)
                 / sum_weights (wraparound_pair w x1 y1 x2 y2) = 0).
    { unfold wraparound_pair, weighted_sum, sum_weights, unit_y. simpl.
      rewrite Hneg, sin_neg. field. lra. }
    assert (Hc : weighted_sum unit_x (wraparound_pair w x1 y1 x2 y2)
                 / sum_weights (wraparound_pair w x1 y1 x2 y2) = cos (degrees 179)).
    { unfold wraparound_pair, weighted_sum, sum_weights, unit_x. simpl.
      rewrite Hneg, cos_neg. field. lra. }
    rewrite Hs, Hc. pose proof cos_179_negative as Hlt.
    unfold atan2.
    destruct (Rlt_dec 0 (cos (degrees 179))); [lra|].
    destruct (Rlt_dec (cos (degrees 179)) 0); [|lra].
    destruct (Rle_dec 0 0); [|lra].
    unfold Rdiv. rewrite Rmult_0_l, atan_0. ring.
  - unfold naive_mean_heading. rewrite weighted_sum_normalized.
    unfold wraparound_pair, weighted_sum, sum_weights. simpl.
    rewrite Hneg. field. lra.
Qed.

(** C7.  The mean pose of a non-empty weighted particle set is the
    weighted circular mean.  Its translation is the sum of the particle
    translations under the weights divided by their total.  Its heading
    lies in (-PI, PI] and is the angle of the sum of the unit vectors
    (cos, sin) of the particle headings under the same normalized
    weights: cosine and sine of the heading, times the length of that
    vector, give back its two components.  One pass with running sums
    computes the same pose.  It is not the average of the heading
    angles: for two particles of equal weight heading +179 and -179
    degrees the mean heading is PI, 180 degrees, where the average of
    the two angles is 0. *)
Theorem C7_mean_pose_is_weighted_circular_mean set :
  set <> [] ->
  exists m,
    meanPose set = Some m
    /\ Pose2D_x m = weighted_sum Pose2D_x (normalized_weights set)
    /\ Pose2D_y m = weighted_sum Pose2D_y (normalized_weights set)
    /\ (let cx := weighted_sum unit_x (normalized_weights set) in
        let sy := weighted_sum unit_y (normalized_weights set) in
        - PI < Pose2D_theta m <= PI
        /\ (cx <> 0 \/ sy <> 0 ->
            cos (Pose2D_theta m) * sqrt (cx * cx + sy * sy) = cx
            /\ sin (Pose2D_theta m) * sqrt (cx * cx + sy * sy) = sy))
    /\ meanPose_one_pass set = Some m
    /\ (forall w x1 y1 x2 y2, 0 < w ->
        exists m2,
          meanPose (wraparound_pair w x1 y1 x2 y2) = Some m2
          /\ Pose2D_theta m2 = PI
          /\ naive_mean_heading (wraparound_pair w x1 y1 x2 y2) = 0).
Proof.
  intros Hne. destruct set as [|p l]; [congruence|].
  eexists. split; [reflexivity|].
  split; [reflexivity|]. split; [reflexivity|].
  split; [|split].
  - cbv beta iota zeta delta [Pose2D_theta].
    split; [apply atan2_range|apply atan2_angle].
  - apply meanPose_one_pass_correct.
  - apply wraparound_mean_heading.
Qed.

(* ------------------------------------------------------------------ *)
(** * Concrete cycles *)

Lemma C6_empty_set_is_a_no_op_witness :
  samples (after_pose_reset (deliver [LaserMsg (Demo.scan_at 10)] Demo.started)) = []
  /\ skipped (snd (run_process (Demo.tf_up 1) Demo.world_consistent
                     (deliver [LaserMsg (Demo.scan_at 10)] Demo.started))) = true.
Proof.
  split; [reflexivity|].
  apply (C6_empty_set_is_a_no_op (Demo.tf_up 1) Demo.world_consistent
           (deliver [LaserMsg (Demo.scan_at 10)] Demo.started)).
  reflexivity.
Defined.

Lemma C3_stages_in_fixed_order_witness :
  filter is_filter_stage
    (snd (run_process (Demo.tf_up 2) Demo.world_consistent
            (deliver [LaserMsg (Demo.scan_at 10)] Demo.tracking))) =
  [ CallUpdatePoses (odom_delta (convert_from_tf (Demo.odom_at 1))
                                (convert_from_tf (Demo.odom_at 2))) 0%Z;
    CallUpdateWeights Demo.world_consistent (Demo.scan_at 10);
    CallResample 3%Z;
    CallCalculateMeanPose ].
Proof.
  edestruct (C3_stages_in_fixed_order (Demo.tf_up 2) Demo.world_consistent
               (deliver [LaserMsg (Demo.scan_at 10)] Demo.tracking))
    as (Hp & Hf & _).
  - reflexivity.
  - discriminate.
  - unfold run_process. rewrite Hp. exact Hf.
Defined.

Lemma C1_unavailable_odometry_witness :
  latest_laser (cb_queue_ Demo.scan_arrived) None = Some (Demo.scan_at 10)
  /\ odom_unavailable Demo.tf_down Demo.scan_arrived (Demo.scan_at 10) = true
  /\ skipped (snd (run_process Demo.tf_down Demo.world_consistent Demo.scan_arrived)) = true
  /\ particle_filter_ (fst (run_process Demo.tf_down Demo.world_consistent
                              Demo.scan_arrived)) = Demo.two_samples
  /\ odom_unavailable Demo.tf_odom_throws Demo.scan_arrived_no_particles
                      (Demo.scan_at 10) = true
  /\ have_previous_pose_ Demo.scan_arrived_no_particles = true
  /\ skipped (snd (run_process Demo.tf_odom_throws Demo.world_consistent
                     Demo.scan_arrived_no_particles)) = true.
Proof.
  split; [reflexivity|]. split; [reflexivity|].
  pose proof (C1_unavailable_odometry Demo.tf_down Demo.world_consistent
                Demo.scan_arrived (Demo.scan_at 10) eq_refl eq_refl) as H.
  change (odom_lost Demo.tf_down Demo.scan_arrived (Demo.scan_at 10)) with true in H.
  destruct H as (Hs & _ & Hpf & _).
  split; [exact Hs|]. split; [exact (Hpf eq_refl)|].
  split; [reflexivity|]. split; [reflexivity|].
  pose proof (C1_unavailable_odometry Demo.tf_odom_throws Demo.world_consistent
                Demo.scan_arrived_no_particles (Demo.scan_at 10) eq_refl eq_refl) as H.
  change (odom_lost Demo.tf_odom_throws Demo.scan_arrived_no_particles
            (Demo.scan_at 10)) with false in H.
  destruct H as (what & _ & _ & _ & Hsk & _).
  rewrite Hsk. reflexivity.
Defined.

(** C1 as stated fails: the odometry lookup throws, an earlier pose is
    remembered, and the cycle runs all stages with an identity movement. *)
Lemma C1_counterexample :
  latest_laser (cb_queue_ Demo.scan_arrived) None = Some (Demo.scan_at 10)
  /\ odom_unavailable Demo.tf_odom_throws Demo.scan_arrived (Demo.scan_at 10) = true
  /\ skipped (snd (run_process Demo.tf_odom_throws Demo.world_consistent
                     Demo.scan_arrived)) = false
  /\ filter is_filter_stage
       (snd (run_process Demo.tf_odom_throws Demo.world_consistent Demo.scan_arrived)) =
     [ CallUpdatePoses (Transform_set Transform2_identity) 0%Z;
       CallUpdateWeights Demo.world_consistent (Demo.scan_at 10);
       CallResample 3%Z;
       CallCalculateMeanPose ]
  /\ List.length (samples (particle_filter_
                        (fst (run_process Demo.tf_odom_throws Demo.world_consistent
                                Demo.scan_arrived)))) = 3%nat
  /\ List.length (samples (particle_filter_ Demo.scan_arrived)) = 2%nat.
Proof. repeat split. Qed.


Lemma C9_pose_reset_precedes_checks_witness :
  snd (run_process Demo.tf_down Demo.world_consistent
         (deliver [InitialPoseMsg (Demo.pose_msg 4 5)] Demo.started))
  = [ seed_call (mkVec2 4 5) (Sim.getYaw (mkQuaternion 0 0 0 1)) ]
  /\ particle_filter_
       (fst (run_process Demo.tf_down Demo.world_consistent
               (deliver [InitialPoseMsg (Demo.pose_msg 4 5)] Demo.started)))
     = Sim.initUniform (mkVec2 (4 - 0.3) (5 - 0.3)) (mkVec2 (4 + 0.3) (5 + 0.3)) 0.05
         (Sim.getYaw (mkQuaternion 0 0 0 1) - 0.1)
         (Sim.getYaw (mkQuaternion 0 0 0 1) + 0.1) 0.05 [].
Proof.
  destruct (C9_pose_reset_precedes_checks Demo.tf_down Demo.world_consistent
              (deliver [InitialPoseMsg (Demo.pose_msg 4 5)] Demo.started)
              (Demo.pose_msg 4 5) eq_refl)
    as (rest & Hout & _ & Hpf).
  split; [reflexivity|].
  apply Hpf. reflexivity.
Defined.

Lemma C5_last_pose_reseeds_region_witness :
  existsb is_initial_pose [] = false
  /\ filter is_seed
       (snd (run_process (Demo.tf_up 2) Demo.world_consistent
               (deliver [InitialPoseMsg (Demo.pose_msg 4 5); LaserMsg (Demo.scan_at 10);
                         InitialPoseMsg (Demo.pose_msg 7 8)] Demo.tracking)))
     = [ CallInitUniform (mkVec2 (7 - 0.3) (8 - 0.3)) (mkVec2 (7 + 0.3) (8 + 0.3)) 0.05
           (Sim.getYaw (mkQuaternion 0 0 0 1) - 0.1)
           (Sim.getYaw (mkQuaternion 0 0 0 1) + 0.1) 0.05 ]
  /\ samples (after_pose_reset
                (deliver [InitialPoseMsg (Demo.pose_msg 4 5); LaserMsg (Demo.scan_at 10);
                          InitialPoseMsg (Demo.pose_msg 7 8)] Demo.started))
     = samples (after_pose_reset
                  (deliver [InitialPoseMsg (Demo.pose_msg 4 5); LaserMsg (Demo.scan_at 10);
                            InitialPoseMsg (Demo.pose_msg 7 8)] Demo.tracking)).
Proof.
  split; [reflexivity|].
  destruct (C5_last_pose_reseeds_region (Demo.tf_up 2) Demo.world_consistent
              (deliver [InitialPoseMsg (Demo.pose_msg 4 5); LaserMsg (Demo.scan_at 10);
                        InitialPoseMsg (Demo.pose_msg 7 8)] Demo.tracking)
              [InitialPoseMsg (Demo.pose_msg 4 5); LaserMsg (Demo.scan_at 10)]
              (Demo.pose_msg 7 8) [] eq_refl eq_refl)
    as (Hcall & _ & _ & _ & Hfresh).
  split; [exact Hcall|].
  apply Hfresh; [|reflexivity].
  intros min max t_step a_min a_max a_step pf1 pf2. reflexivity.
Defined.

Lemma C4_offset_resolved_lazily_once_witness :
  laser_offset_initialized_ Demo.started = false
  /\ cb_queue_ Demo.started = []
  /\ resolved_once "base_link" Demo.start_up
       (snd (run Demo.start_up Demo.started))
       (laser_offset_initialized_ (fst (run Demo.start_up Demo.started)))
  /\ offset_handed_over Demo.start_up Demo.started
  /\ map (filter is_calibration) (snd (run Demo.start_up Demo.started))
     = [ [];
         [CallSetLaserOffset (laser_offset_of Demo.p_laser)
                             (laser_height_of Demo.p_laser)];
         [] ]
  /\ laser_model_ (fst (run Demo.start_up Demo.started))
     = Some (laser_offset_of Demo.p_laser, laser_height_of Demo.p_laser).
Proof.
  split; [reflexivity|]. split; [reflexivity|].
  destruct (C4_offset_resolved_lazily_once Demo.start_up Demo.started eq_refl eq_refl)
    as [Hflag Hmodel].
  split; [exact Hflag|]. split; [exact Hmodel|]. split; reflexivity.
Defined.

Lemma C8_odometry_booked_before_update_witness :
  odom_lookup_succeeds (Demo.tf_up 5) (deliver [LaserMsg (Demo.scan_at 11)] Demo.started)
  = Some (Demo.odom_at 5)
  /\ skipped (snd (cycle (Demo.cycle_scan 11 5) Demo.started)) = true
  /\ previous_pose_ (fst (cycle (Demo.cycle_scan 11 5) Demo.started))
     = convert_from_tf (Demo.odom_at 5)
  /\ have_previous_pose_ (fst (cycle (Demo.cycle_scan 11 5) Demo.started)) = true.
Proof.
  split; [reflexivity|]. split; [reflexivity|].
  destruct (C8_odometry_booked_before_update (Demo.cycle_scan 11 5) Demo.started
              (Demo.odom_at 5) eq_refl)
    as (Hp & Hh & _).
  split; assumption.
Defined.

Lemma C10_messages_consumed_once_witness :
  cb_queue_ Demo.tracking = []
  /\ Forall2 consumed_in Demo.stop_and_go (snd (run Demo.stop_and_go Demo.tracking))
  /\ map (filter is_sensor_update) (snd (run Demo.stop_and_go Demo.tracking))
     = [ [CallUpdateWeights Demo.world_consistent (Demo.scan_at 11)]; []; []; [] ]
  /\ map (filter is_seed) (snd (run Demo.stop_and_go Demo.tracking))
     = [ []; []; [seed_call (mkVec2 4 5) (Sim.getYaw (mkQuaternion 0 0 0 1))]; [] ].
Proof.
  split; [reflexivity|].
  split; [|split; reflexivity].
  apply (C10_messages_consumed_once Demo.stop_and_go Demo.tracking eq_refl).
Defined.

Lemma C7_mean_pose_is_weighted_circular_mean_witness :
  wraparound_pair 1 0 0 2 0 <> []
  /\ exists m,
       meanPose (wraparound_pair 1 0 0 2 0) = Some m
       /\ - PI < Pose2D_theta m <= PI.
Proof.
  split; [discriminate|].
  destruct (C7_mean_pose_is_weighted_circular_mean (wraparound_pair 1 0 0 2 0))
    as (m & Hm & _ & _ & [Hrange _] & _).
  - discriminate.
  - exists m. split; assumption.
Defined.

(* ------------------------------------------------------------------ *)
(** * Concrete cycles for the further properties *)

Lemma only_latest_messages_count_witness :
  latest_laser [LaserMsg (Demo.scan_at 9); LaserMsg (Demo.scan_at 10)] None
  = latest_laser (cb_queue_ Demo.scan_arrived) None
  /\ run_process (Demo.tf_up 2) Demo.world_consistent
       (with_messages [LaserMsg (Demo.scan_at 9); LaserMsg (Demo.scan_at 10)]
          (Some (Demo.scan_at 3)) (Some (Demo.pose_msg 1 1)) Demo.scan_arrived)
     = run_process (Demo.tf_up 2) Demo.world_consistent Demo.scan_arrived.
Proof.
  split; [reflexivity|].
  apply (only_latest_messages_count (Demo.tf_up 2) Demo.world_consistent
           Demo.scan_arrived [LaserMsg (Demo.scan_at 9); LaserMsg (Demo.scan_at 10)]
           (Some (Demo.scan_at 3)) (Some (Demo.pose_msg 1 1)) eq_refl eq_refl).
Defined.

Lemma only_four_tf_queries_count_witness :
  same_answers (Demo.tf_up 2) (Demo.tf_up_only_at 10 2) Demo.scan_arrived
               (Demo.scan_at 10)
  /\ run_process (Demo.tf_up 2) Demo.world_consistent Demo.scan_arrived
     = run_process (Demo.tf_up_only_at 10 2) Demo.world_consistent Demo.scan_arrived.
Proof.
  assert (H : same_answers (Demo.tf_up 2) (Demo.tf_up_only_at 10 2) Demo.scan_arrived
                           (Demo.scan_at 10)) by (repeat split).
  split; [exact H|].
  apply (only_four_tf_queries_count (Demo.tf_up 2) (Demo.tf_up_only_at 10 2)
           Demo.world_consistent Demo.scan_arrived).
  intros scan Hscan. inversion Hscan. exact H.
Defined.

Lemma idle_cycle_changes_nothing_witness :
  cb_queue_ Demo.tracking = []
  /\ run_process Demo.tf_down Demo.world_consistent Demo.tracking
     = (set_initial_pose_msg_ None (set_laser_msg_ None Demo.tracking), []).
Proof.
  split; [reflexivity|].
  apply (idle_cycle_changes_nothing Demo.tf_down Demo.world_consistent Demo.tracking
           eq_refl).
Defined.

Lemma odometry_kept_without_lookup_witness :
  odom_lookup_succeeds Demo.tf_odom_throws Demo.scan_arrived = None
  /\ skipped (snd (run_process Demo.tf_odom_throws Demo.world_consistent
                     Demo.scan_arrived)) = false
  /\ previous_pose_ (fst (run_process Demo.tf_odom_throws Demo.world_consistent
                            Demo.scan_arrived))
     = convert_from_tf (Demo.odom_at 1).
Proof.
  split; [reflexivity|]. split; [reflexivity|].
  apply (odometry_kept_without_lookup Demo.tf_odom_throws Demo.world_consistent
           Demo.scan_arrived eq_refl).
Defined.

Lemma first_update_moves_by_identity_witness :
  have_previous_pose_ (deliver Demo.pose_and_scan Demo.started) = false
  /\ odom_lookup_succeeds (Demo.tf_up 5) (deliver Demo.pose_and_scan Demo.started)
     = Some (Demo.odom_at 5)
  /\ exists scan,
       filter is_filter_stage
         (snd (run_process (Demo.tf_up 5) Demo.world_consistent
                 (deliver Demo.pose_and_scan Demo.started))) =
       [ CallUpdatePoses (Transform_set Transform2_identity) 0%Z;
         CallUpdateWeights Demo.world_consistent scan;
         CallResample 3%Z;
         CallCalculateMeanPose ].
Proof.
  split; [reflexivity|]. split; [reflexivity|].
  apply (first_update_moves_by_identity (Demo.tf_up 5) Demo.world_consistent
           (deliver Demo.pose_and_scan Demo.started) (Demo.odom_at 5)
           eq_refl eq_refl).
  discriminate.
Defined.

Lemma reseeded_set_is_updated_at_once_witness :
  latest_pose (cb_queue_ (deliver Demo.pose_and_scan Demo.tracking)) None
  = Some (Demo.pose_msg 4 5)
  /\ exists scan laser_model,
       filter (fun e => is_seed e || is_filter_stage e)
         (snd (run_process (Demo.tf_up 2) Demo.world_consistent
                 (deliver Demo.pose_and_scan Demo.tracking))) =
       [ seed_call (pose_xy (Demo.pose_msg 4 5)) (pose_yaw (Demo.pose_msg 4 5));
         CallUpdatePoses Demo.moved_by_one 0%Z;
         CallUpdateWeights Demo.world_consistent scan;
         CallResample 3%Z;
         CallCalculateMeanPose ]
       /\ particle_filter_
            (fst (run_process (Demo.tf_up 2) Demo.world_consistent
                    (deliver Demo.pose_and_scan Demo.tracking))) =
          resample 3%Z
            (snd (updateWeights Demo.world_consistent scan laser_model
                    (snd (updatePoses Demo.moved_by_one 0%Z tt
                            (seeded (pose_xy (Demo.pose_msg 4 5))
                                    (pose_yaw (Demo.pose_msg 4 5))
                                    Demo.two_samples))))).
Proof.
  split; [reflexivity|].
  apply (reseeded_set_is_updated_at_once (Demo.tf_up 2) Demo.world_consistent
           (deliver Demo.pose_and_scan Demo.tracking) (Demo.pose_msg 4 5)
           (Demo.odom_at 2) eq_refl eq_refl eq_refl).
  discriminate.
Defined.

Lemma tracking_cycle_runs :
  run_process (Demo.tf_up 2) Demo.world_consistent Demo.scan_arrived
  = (updated Demo.world_consistent (Demo.scan_at 10) Demo.moved_by_one Demo.at_update,
     update_calls Demo.world_consistent (Demo.scan_at 10)
       (convert_from_tf (Demo.odom_at 2)) Demo.moved_by_one Demo.at_update).
Proof. reflexivity. Qed.

Lemma published_results_are_stamped_witness :
  exists msg,
    In (PublishParticles msg)
       (snd (run_process (Demo.tf_up 2) Demo.world_consistent Demo.scan_arrived))
    /\ PoseArray_header msg = mkHeader (mkTime 10 0) "/map"
    /\ List.length (poses msg)
       = List.length
           (samples (particle_filter_
                       (fst (run_process (Demo.tf_up 2) Demo.world_consistent
                               Demo.scan_arrived)))).
Proof.
  assert (Hin : In (PublishParticles
                      (particles_msg (stamp (header (Demo.scan_at 10)))
                         (samples (resampled Demo.world_consistent (Demo.scan_at 10)
                                     Demo.moved_by_one Demo.at_update))))
                   (snd (run_process (Demo.tf_up 2) Demo.world_consistent
                           Demo.scan_arrived))).
  { rewrite tracking_cycle_runs. unfold snd, update_calls.
    do 5 right. left. reflexivity. }
  eexists. split; [exact Hin|].
  destruct (published_results_are_stamped (Demo.tf_up 2) Demo.world_consistent
              Demo.scan_arrived _ Hin eq_refl) as (scan & Hscan & Hhead & _ & Hlen & _).
  split; [reflexivity|exact Hlen].
Defined.

Lemma calibrating_cycle_without_odometry :
  run_process Demo.tf_no_odom Demo.world_consistent
    (deliver [LaserMsg (Demo.scan_at 10)] Demo.started)
  = (calibrated Demo.p_laser (drained (deliver [LaserMsg (Demo.scan_at 10)] Demo.started)),
     [ CallSetLaserOffset (laser_offset_of Demo.p_laser) (laser_height_of Demo.p_laser);
       RosWarn (cannot_get_transform "odom" "base_link") ]).
Proof. reflexivity. Qed.

Lemma skipped_cycle_keeps_models_witness :
  skipped (snd (run_process Demo.tf_no_odom Demo.world_consistent
                  (deliver [LaserMsg (Demo.scan_at 10)] Demo.started))) = true
  /\ laser_model_ (fst (run_process Demo.tf_no_odom Demo.world_consistent
                          (deliver [LaserMsg (Demo.scan_at 10)] Demo.started)))
     = setLaserOffset (laser_offset_of Demo.p_laser) (laser_height_of Demo.p_laser)
         (laser_model_ Demo.started).
Proof.
  assert (Hsk : skipped (snd (run_process Demo.tf_no_odom Demo.world_consistent
                                (deliver [LaserMsg (Demo.scan_at 10)] Demo.started)))
                = true)
    by (rewrite calibrating_cycle_without_odometry; reflexivity).
  split; [exact Hsk|].
  destruct (skipped_cycle_keeps_models Demo.tf_no_odom Demo.world_consistent
              (deliver [LaserMsg (Demo.scan_at 10)] Demo.started) Hsk)
    as (_ & _ & _ & Hset).
  apply Hset. rewrite calibrating_cycle_without_odometry. left. reflexivity.
Defined.

Lemma offset_is_set_before_the_sensor_update_witness :
  laser_offset_initialized_ (deliver Demo.pose_and_scan Demo.started) = false
  /\ offset_lookup (Demo.tf_up 5) "base_link"
       (cb_queue_ (deliver Demo.pose_and_scan Demo.started)) = Some Demo.p_laser
  /\ exists scan pf,
       filter (fun e => is_calibration e || is_sensor_update e)
         (snd (run_process (Demo.tf_up 5) Demo.world_consistent
                 (deliver Demo.pose_and_scan Demo.started)))
       = [ CallSetLaserOffset (laser_offset_of Demo.p_laser)
                              (laser_height_of Demo.p_laser);
           CallUpdateWeights Demo.world_consistent scan ]
       /\ laser_model_
            (fst (run_process (Demo.tf_up 5) Demo.world_consistent
                    (deliver Demo.pose_and_scan Demo.started)))
          = fst (updateWeights Demo.world_consistent scan
                   (setLaserOffset (laser_offset_of Demo.p_laser)
                      (laser_height_of Demo.p_laser) (laser_model_ Demo.started))
                   pf).
Proof.
  split; [reflexivity|]. split; [reflexivity|].
  destruct (offset_is_set_before_the_sensor_update (Demo.tf_up 5) Demo.world_consistent
              (deliver Demo.pose_and_scan Demo.started) Demo.p_laser eq_refl eq_refl)
    as (_ & Hgo).
  apply Hgo. reflexivity.
Defined.

Lemma initialize_stops_on_configuration_error_witness :
  hasError Demo.config_without_laser = true
  /\ cfg_initial_pose Demo.config_without_laser = Some (1, 2, 0)
  /\ initialize_calls Demo.config_without_laser
       (SLAMPlugin_new Pose3D_identity 0%Z) = []
  /\ particle_filter_ (initialized Demo.config_without_laser
                         (SLAMPlugin_new Pose3D_identity 0%Z)) = [].
Proof.
  split; [reflexivity|]. split; [reflexivity|].
  destruct (initialize_stops_on_configuration_error Demo.config_without_laser
              (SLAMPlugin_new Pose3D_identity 0%Z) eq_refl) as (Hc & Hpf & _).
  split; [exact Hc|exact Hpf].
Defined.

Lemma initialize_subscribes_seeds_advertises_witness :
  hasError Demo.config_with_pose = false
  /\ initialize_calls Demo.config_with_pose (SLAMPlugin_new Pose3D_identity 0%Z)
     = [ Subscribe "scan"; Subscribe "initialpose"; seed_call (mkVec2 1 2) 0;
         Advertise "ed/localization/particles" ].
Proof.
  split; [reflexivity|].
  destruct (initialize_subscribes_seeds_advertises Demo.config_with_pose
              (SLAMPlugin_new Pose3D_identity 0%Z) eq_refl)
    as (og & lg & n & Hog & Hlg & _ & Hcalls & _).
  inversion Hlg; subst lg. exact Hcalls.
Defined.
